(** * Timetable generator: the scheduling engine of [newgenerator.py]

    A shallow embedding of [get_time_slots],
    [apply_teacher_conflict_constraint], [apply_section_constraint] and
    [generate_college_timetable_with_sections], followed by the properties
    of the engine that are stated in the specification.

    Conventions of the embedding.
    - Python [str] is [string] (ASCII); [int] hours are [Z]; counts
      (slots per day, lectures, durations, slot indices) are [nat], with the
      one subtraction of the source ([s + dur - 1]) carried out in [Z].
    - A Python [dict] is an association list in insertion order, read with
      [dict_get] and written with [dict_set], which keeps keys unique.
    - An uncaught Python exception ([KeyError], [IndexError]) is [None] in
      the helper functions and [Raise] in the final outcome.
    - The CP-SAT solver is not part of the repository: the model handed to
      it is a list of [constraint]s, and [solver.Solve] is a parameter of
      the engine. *)

From Stdlib Require Import String Ascii List ZArith Lia Bool Arith.
From Stdlib Require Import Permutation Sorted DecimalString DecimalNat.
Import ListNotations.

Local Open Scope list_scope.
Local Open Scope string_scope.

(** ** Python dictionaries *)

Class Key (K : Type) := {
  keyb : K -> K -> bool;
  keyb_spec : forall x y, reflect (x = y) (keyb x y)
}.

#[global] Instance string_key : Key string :=
  {| keyb := String.eqb; keyb_spec := String.eqb_spec |}.

#[global] Instance nat_key : Key nat :=
  {| keyb := Nat.eqb; keyb_spec := Nat.eqb_spec |}.

Definition dict (K V : Type) : Type := list (K * V).

Section Dict.
Context {K V : Type} `{Key K}.

(** [d[k]] / [d.get(k)] *)
Fixpoint dict_get (k : K) (d : dict K V) : option V :=
  match d with
  | [] => None
  | (k', v) :: d' => if keyb k k' then Some v else dict_get k d'
  end.

(** [d[k] = v]: an existing key keeps its position. *)
Fixpoint dict_set (k : K) (v : V) (d : dict K V) : dict K V :=
  match d with
  | [] => [(k, v)]
  | (k', v') :: d' =>
      if keyb k k' then (k', v) :: d' else (k', v') :: dict_set k v d'
  end.

(** [k in d] *)
Definition dict_mem (k : K) (d : dict K V) : bool :=
  match dict_get k d with Some _ => true | None => false end.

(** [d.get(k, dflt)] *)
Definition dict_get_or (k : K) (dflt : V) (d : dict K V) : V :=
  match dict_get k d with Some v => v | None => dflt end.

Definition dict_keys (d : dict K V) : list K := map fst d.
End Dict.

(** ** Strings *)

(** [str.lower()] on ASCII text. *)
Definition lower_ascii (c : ascii) : ascii :=
  let n := nat_of_ascii c in
  if (65 <=? n)%nat && (n <=? 90)%nat then ascii_of_nat (n + 32) else c.

Fixpoint lower (s : string) : string :=
  match s with
  | EmptyString => EmptyString
  | String c s' => String (lower_ascii c) (lower s')
  end.

(** [str(n)] for a non-negative integer. *)
Definition dec (n : nat) : string := NilEmpty.string_of_uint (Nat.to_uint n).

(** [f"{h:02d}"] *)
Definition fmt02d (h : Z) : string :=
  if (h <? 0)%Z then "-" ++ dec (Z.to_nat (- h))
  else if (h <? 10)%Z then "0" ++ dec (Z.to_nat h)
  else dec (Z.to_nat h).

(** [l[i]] with Python's negative indices. *)
Definition py_index {A : Type} (l : list A) (i : Z) : option A :=
  if (0 <=? i)%Z then nth_error l (Z.to_nat i)
  else if (- Z.of_nat (length l) <=? i)%Z
       then nth_error l (Z.to_nat (Z.of_nat (length l) + i))
       else None.

(** ** The input records *)

Record working_day := {
  wd_day : string;
  wd_start_hr : Z;
  wd_total_hours : nat
}.

Record course := {
  c_subject : string;
  c_year : string;
  c_section : option string;   (* read with [course.get("section", "A")] *)
  c_teacher : string;
  c_lectures : nat;
  c_duration : nat
}.

Record teacher_info := {
  ti_start_hr : option Z;      (* read with [.get('start_hr', 9)] *)
  ti_end_hr : option Z         (* read with [.get('end_hr', 17)] *)
}.

Record section_info := {
  si_room : option string      (* read with [.get('room', '')] *)
}.

Definition teachers_t : Type := dict string teacher_info.
Definition sections_t : Type := dict string (dict string section_info).

(** [constraints]: [None] is a missing or empty dictionary, [Some wds] a
    dictionary whose ["working_days"] entry is [wds] ([Some []] also stands
    for a non-empty dictionary without that entry). *)
Definition constraints_t : Type := option (list working_day).

(** ** [get_time_slots] *)

Record slot_tables := {
  slot_names : list string;
  slot_time : dict nat Z;
  slot_to_day : dict string string;
  day_slot_counts : dict string nat
}.

Definition empty_tables : slot_tables :=
  {| slot_names := []; slot_time := []; slot_to_day := [];
     day_slot_counts := [] |}.

Definition day_abbreviations : dict string string :=
  [("Monday", "M"); ("Tuesday", "T"); ("Wednesday", "W"); ("Thursday", "Th");
   ("Friday", "F"); ("Saturday", "Sa"); ("Sunday", "Su")].

(** [day_abbreviations.get(day, day[:2])] *)
Definition abbrev_of (day : string) : string :=
  dict_get_or day (substring 0 2 day) day_abbreviations.

(** [while start == 12: start += 1] (one iteration at most). *)
Definition skip_lunch (start : Z) : Z :=
  if (start =? 12)%Z then (start + 1)%Z else start.

(** The state of the inner loop: [idx], [start], [day_count] and the four
    tables. *)
Definition slot_state : Type := (nat * Z * nat * slot_tables)%type.

(** [f"{abbrev}{j + 1}"] *)
Definition slot_name_of (abbrev : string) (j : nat) : string :=
  abbrev ++ dec (j + 1).

(** One iteration of [for j in range(hours)]. *)
Definition slot_step (abbrev day : string) (acc : slot_state) (j : nat)
  : slot_state :=
  let '(idx, start, day_count, T) := acc in
  let start := skip_lunch start in
  let slot_name := slot_name_of abbrev j in
  (S idx, (start + 1)%Z, S day_count,
   {| slot_names := (slot_names T ++ [slot_name])%list;
      slot_time := dict_set idx start (slot_time T);
      slot_to_day := dict_set slot_name (lower day) (slot_to_day T);
      day_slot_counts := day_slot_counts T |}).

(** One iteration of [for day, hours in slot_dict.items()];
    [start_times[day]] raises [KeyError] on a missing day. *)
Definition day_step (start_times : dict string Z)
  (acc : option (nat * slot_tables)) (item : string * nat)
  : option (nat * slot_tables) :=
  match acc with
  | None => None
  | Some (idx, T) =>
      let '(day, hours) := item in
      match dict_get day start_times with
      | None => None
      | Some start =>
          let '(idx', _, day_count, T') :=
            fold_left (slot_step (abbrev_of day) day) (seq 0 hours)
                      (idx, start, 0%nat, T) in
          Some (idx',
                {| slot_names := slot_names T';
                   slot_time := slot_time T';
                   slot_to_day := slot_to_day T';
                   day_slot_counts :=
                     dict_set (lower day) day_count (day_slot_counts T') |})
      end
  end.

Definition get_time_slots (slot_dict : dict string nat)
  (start_times : dict string Z) : option slot_tables :=
  option_map snd
    (fold_left (day_step start_times) slot_dict (Some (0%nat, empty_tables))).

(** The two dictionaries that [generate_college_timetable_with_sections]
    fills from [working_days]. *)
Definition slot_counts_by_day (wds : list working_day) : dict string nat :=
  fold_left (fun d w => dict_set (wd_day w) (wd_total_hours w) d) wds [].

Definition start_times_of (wds : list working_day) : dict string Z :=
  fold_left (fun d w => dict_set (wd_day w) (wd_start_hr w) d) wds [].

Definition time_slots_of (wds : list working_day) : option slot_tables :=
  get_time_slots (slot_counts_by_day wds) (start_times_of wds).

(** ** Courses and free periods *)

Record pcourse := {
  pc_name : string;
  pc_subject : string;
  pc_year : string;
  pc_section : string;
  pc_teacher : string;
  pc_lectures : nat;
  pc_duration : nat;
  pc_start_hr : Z;
  pc_end_hr : Z
}.

Definition section_key (year section : string) : string :=
  year ++ "_" ++ section.

Definition process_course (teachers : teachers_t) (c : course) : pcourse :=
  let section := match c_section c with Some s => s | None => "A" end in
  let teacher_info :=
    dict_get_or (c_teacher c) {| ti_start_hr := None; ti_end_hr := None |}
                teachers in
  {| pc_name := c_subject c ++ "_" ++ c_year c ++ "_" ++ section ++ "_"
                ++ c_teacher c;
     pc_subject := c_subject c;
     pc_year := c_year c;
     pc_section := section;
     pc_teacher := c_teacher c;
     pc_lectures := c_lectures c;
     pc_duration := c_duration c;
     pc_start_hr := match ti_start_hr teacher_info with
                    | Some h => h | None => 9%Z end;
     pc_end_hr := match ti_end_hr teacher_info with
                  | Some h => h | None => 17%Z end |}.

Definition processed_courses (teachers : teachers_t) (courses : list course)
  : list pcourse :=
  map (process_course teachers) courses.

Definition section_requirements (pcs : list pcourse) : dict string nat :=
  fold_left
    (fun d pc =>
       let k := section_key (pc_year pc) (pc_section pc) in
       dict_set k (dict_get_or k 0%nat d + pc_lectures pc * pc_duration pc)%nat
                d)
    pcs [].

Definition YEARS : list string := ["Year1"; "Year2"; "Year3"; "Year4"].

(** [sections.get(year, {'A': {}})] *)
Definition year_sections (sections : sections_t) (year : string)
  : dict string section_info :=
  dict_get_or year [("A", {| si_room := None |})] sections.

Definition free_course (year section_name : string) (free_needed : nat)
  : pcourse :=
  {| pc_name := "Free_" ++ year ++ "_" ++ section_name;
     pc_subject := "Free";
     pc_year := year;
     pc_section := section_name;
     pc_teacher := "None";
     pc_lectures := free_needed;
     pc_duration := 1;
     pc_start_hr := 0%Z;
     pc_end_hr := 24%Z |}.

(** The body of [if allow_free:], for one year and one section. *)
Definition free_for (reqs : dict string nat) (num_slots : nat)
  (year section_name : string) : list pcourse :=
  let section_used := dict_get_or (section_key year section_name) 0%nat reqs in
  if (section_used <? num_slots)%nat
  then [free_course year section_name (num_slots - section_used)]
  else [].

Definition free_courses (sections : sections_t) (reqs : dict string nat)
  (num_slots : nat) : list pcourse :=
  flat_map
    (fun year =>
       flat_map (free_for reqs num_slots year)
                (dict_keys (year_sections sections year)))
    YEARS.

(** [processed_courses] as it stands when the model is built. *)
Definition all_courses (teachers : teachers_t) (sections : sections_t)
  (courses : list course) (allow_free : bool) (num_slots : nat)
  : list pcourse :=
  let pcs := processed_courses teachers courses in
  if allow_free
  then (pcs ++ free_courses sections (section_requirements pcs) num_slots)%list
  else pcs.

(** ** Domains of the start variables *)

(** [slot_to_day[slot_names[i]]] *)
Definition day_label (T : slot_tables) (i : Z) : option string :=
  match py_index (slot_names T) i with
  | Some name => dict_get name (slot_to_day T)
  | None => None
  end.

(** [slot_time[t]] *)
Definition hour_at (T : slot_tables) (t : nat) : option Z :=
  dict_get t (slot_time T).

Definition option_eqb (a b : option string) : bool :=
  match a, b with
  | Some x, Some y => String.eqb x y
  | None, None => true
  | _, _ => false
  end.

(** [range(a, b)] for [a >= 0]. *)
Definition py_range (a : nat) (b : Z) : list nat :=
  seq a (Z.to_nat (b - Z.of_nat a)).

(** The test that decides whether [s] is appended to [allowed_vals]. *)
Definition start_allowed (T : slot_tables) (num_slots : nat) (c : pcourse)
  (s : nat) : bool :=
  let end_idx := (Z.of_nat s + Z.of_nat (pc_duration c) - 1)%Z in
  if (end_idx >=? Z.of_nat num_slots)%Z then false
  else if negb (option_eqb (day_label T (Z.of_nat s)) (day_label T end_idx))
  then false
  else
    forallb
      (fun t =>
         match hour_at T t with
         | Some h => negb ((h <? pc_start_hr c)%Z || (h >=? pc_end_hr c)%Z)
         | None => false
         end)
      (py_range s (end_idx + 1)).

Definition allowed_vals (T : slot_tables) (num_slots : nat) (c : pcourse)
  : list nat :=
  filter (start_allowed T num_slots c) (seq 0 num_slots).

(** ** The CP-SAT model *)

Record occ := {
  occ_id : nat;
  occ_name : string;
  occ_subject : string;
  occ_year : string;
  occ_section : string;
  occ_teacher : string;
  occ_duration : nat
}.

(** The constraints posted on the model.  A solution is the value of every
    start variable; the end variable and the Boolean [start_at] literals
    are functions of it ([end = start + dur], [b <-> start == s]). *)
Inductive constraint :=
| VarDomain (o : nat) (vals : list nat)
    (* [NewIntVarFromDomain(Domain.FromValues(vals))] *)
| IntervalVar (o : nat) (dur lo hi : nat)
    (* [NewIntVar(lo, hi)] and [NewIntervalVar(start, dur, end)] *)
| NoOverlap (intervals : list (nat * nat))
    (* [AddNoOverlap], intervals as (occurrence, duration) *)
| AtMostOne (o1 s1 o2 s2 : nat).
    (* [Add(start_at[o1, s1] + start_at[o2, s2] <= 1)] *)

Definition cp_model : Type := list constraint.

Definition overlap (s1 d1 s2 d2 : nat) : bool :=
  negb ((s1 + d1 <=? s2)%nat || (s2 + d2 <=? s1)%nat).

Fixpoint pairwise {A : Type} (f : A -> A -> bool) (l : list A) : bool :=
  match l with
  | [] => true
  | x :: l' => forallb (f x) l' && pairwise f l'
  end.

(** Whether the start values [a] satisfy one constraint. *)
Definition sat (a : nat -> nat) (c : constraint) : bool :=
  match c with
  | VarDomain o vals => existsb (Nat.eqb (a o)) vals
  | IntervalVar o dur lo hi => (lo <=? a o + dur)%nat && (a o + dur <=? hi)%nat
  | NoOverlap ivs =>
      pairwise (fun x y => negb (overlap (a (fst x)) (snd x)
                                         (a (fst y)) (snd y))) ivs
  | AtMostOne o1 s1 o2 s2 => negb ((a o1 =? s1)%nat && (a o2 =? s2)%nat)
  end.

Definition model_sat (a : nat -> nat) (m : cp_model) : bool :=
  forallb (sat a) m.

Record build_state := {
  b_model : cp_model;
  b_occs : list occ;              (* [occ_metadata] *)
  b_start_at : list (nat * nat);  (* the keys of [start_at] *)
  b_next : nat                    (* [occ_id] *)
}.

Definition list_min (l : list nat) : nat :=
  match l with [] => 0%nat | x :: l' => fold_left Nat.min l' x end.

Definition list_max (l : list nat) : nat :=
  match l with [] => 0%nat | x :: l' => fold_left Nat.max l' x end.

(** The entry appended to [occ_metadata]. *)
Definition mk_occ (c : pcourse) (o : nat) : occ :=
  {| occ_id := o; occ_name := pc_name c; occ_subject := pc_subject c;
     occ_year := pc_year c; occ_section := pc_section c;
     occ_teacher := pc_teacher c; occ_duration := pc_duration c |}.

(** The start, end and interval variables of one occurrence. *)
Definition occ_vars (c : pcourse) (vals : list nat) (o : nat)
  : list constraint :=
  [VarDomain o vals;
   IntervalVar o (pc_duration c) (list_min vals + pc_duration c)
               (list_max vals + pc_duration c)].

(** One iteration of [for k in range(course['lectures'])]. *)
Definition add_occurrence (c : pcourse) (vals : list nat)
  (st : build_state) (k : nat) : build_state :=
  let o := b_next st in
  {| b_model := (b_model st ++ occ_vars c vals o)%list;
     b_occs := (b_occs st ++ [mk_occ c o])%list;
     b_start_at := (b_start_at st ++ map (pair o) vals)%list;
     b_next := S o |}.

Definition no_slots_message (c : pcourse) : string :=
  "No feasible slots for " ++ pc_subject c ++ " (Year " ++ pc_year c
  ++ ", Section " ++ pc_section c ++ ").".

(** One iteration of [for course in processed_courses]: the error message
    of the early [return], or the extended state. *)
Definition add_course (T : slot_tables) (num_slots : nat)
  (st : build_state) (c : pcourse) : string + build_state :=
  let vals := allowed_vals T num_slots c in
  if (match vals with [] => true | _ => false end)
     && (0 <? pc_lectures c)%nat
  then inl (no_slots_message c)
  else inr (fold_left (add_occurrence c vals) (seq 0 (pc_lectures c)) st).

Fixpoint build_courses (T : slot_tables) (num_slots : nat)
  (cs : list pcourse) (st : build_state) : string + build_state :=
  match cs with
  | [] => inr st
  | c :: cs' =>
      match add_course T num_slots st c with
      | inl e => inl e
      | inr st' => build_courses T num_slots cs' st'
      end
  end.

Definition empty_build : build_state :=
  {| b_model := []; b_occs := []; b_start_at := []; b_next := 0 |}.

(** [d[key].append(o)], creating the list on the first use of [key]. *)
Definition group_add (key : occ -> string) (d : dict string (list occ))
  (o : occ) : dict string (list occ) :=
  dict_set (key o) (dict_get_or (key o) [] d ++ [o])%list d.

Definition group_by (key : occ -> string) (occs : list occ)
  : dict string (list occ) :=
  fold_left (group_add key) occs [].

Definition pair_mem (p : nat * nat) (l : list (nat * nat)) : bool :=
  existsb (fun q => (fst p =? fst q)%nat && (snd p =? snd q)%nat) l.

(** The two innermost loops over [s1] and [s2], for one pair of
    occurrences. *)
Definition conflict_pairs (num_slots : nat) (start_at : list (nat * nat))
  (occ1 occ2 : occ) : list constraint :=
  flat_map
    (fun s1 =>
       if negb (pair_mem (occ_id occ1, s1) start_at) then []
       else
         flat_map
           (fun s2 =>
              if negb (pair_mem (occ_id occ2, s2) start_at) then []
              else if overlap s1 (occ_duration occ1) s2 (occ_duration occ2)
                   then [AtMostOne (occ_id occ1) s1 (occ_id occ2) s2]
                   else [])
           (seq 0 num_slots))
    (seq 0 num_slots).

(** [for i in range(len(l)): for j in range(i + 1, len(l))] *)
Fixpoint all_pairs (f : occ -> occ -> list constraint) (l : list occ)
  : list constraint :=
  match l with
  | [] => []
  | o :: l' => (flat_map (f o) l' ++ all_pairs f l')%list
  end.

Definition group_constraints (num_slots : nat) (start_at : list (nat * nat))
  (groups : dict string (list occ)) : list constraint :=
  flat_map
    (fun g =>
       if (length (snd g) <=? 1)%nat then []
       else all_pairs (conflict_pairs num_slots start_at) (snd g))
    groups.

Definition apply_teacher_conflict_constraint (occ_metadata : list occ)
  (start_at : list (nat * nat)) (num_slots : nat) : list constraint :=
  group_constraints num_slots start_at (group_by occ_teacher occ_metadata).

Definition apply_section_constraint (occ_metadata : list occ)
  (start_at : list (nat * nat)) (num_slots : nat) : list constraint :=
  group_constraints num_slots start_at
    (group_by (fun o => section_key (occ_year o) (occ_section o))
              occ_metadata).

(** [AddNoOverlap] on the intervals of each section. *)
Definition section_no_overlap (occ_metadata : list occ) : list constraint :=
  map (fun g => NoOverlap (map (fun o => (occ_id o, occ_duration o)) (snd g)))
      (group_by (fun o => section_key (occ_year o) (occ_section o))
                occ_metadata).

(** The model as it stands when [solver.Solve] is called. *)
Definition full_model (num_slots : nat) (st : build_state) : cp_model :=
  (b_model st
   ++ section_no_overlap (b_occs st)
   ++ apply_teacher_conflict_constraint (b_occs st) (b_start_at st) num_slots
   ++ apply_section_constraint (b_occs st) (b_start_at st) num_slots)%list.

(** ** The solver *)

(** The status returned by [solver.Solve]. *)
Inductive cp_status := UNKNOWN | MODEL_INVALID | FEASIBLE | INFEASIBLE | OPTIMAL.

(** What the engine reads back from the solver: the status and
    [solver.Value(occ['start'])] for every occurrence. *)
Record solver_result := {
  status : cp_status;
  value : nat -> nat
}.

(** [solver.Solve(model)] under [max_time_in_seconds]. *)
Definition solver_t : Type := Z -> cp_model -> solver_result.

(** [result in (cp_model.OPTIMAL, cp_model.FEASIBLE)] *)
Definition has_solution (s : cp_status) : bool :=
  match s with OPTIMAL | FEASIBLE => true | _ => false end.

(** ** The response *)

(** One entry of a day's list.  The dictionary of the source stores the two
    hours as text; [start_time] and [end_time] give that text. *)
Record entry := {
  e_slot : string;
  e_subject : string;
  e_teacher : string;
  e_section : string;
  e_room : string;
  e_start_hr : Z;
  e_end_hr : Z
}.

(** [f"{start_hr:02d}:00"] *)
Definition start_time (e : entry) : string := fmt02d (e_start_hr e) ++ ":00".
Definition end_time (e : entry) : string := fmt02d (e_end_hr e) ++ ":00".

Definition day_map : Type := dict string (list entry).
Definition response : Type := dict string (dict string day_map).

Definition WEEK : list string :=
  ["Monday"; "Tuesday"; "Wednesday"; "Thursday"; "Friday"; "Saturday";
   "Sunday"].

(** [{day.lower(): [] for day in [...]}] *)
Definition empty_week : day_map := map (fun day => (lower day, [])) WEEK.

(** The first loop over the years: one dictionary per year, one empty week
    per section. *)
Definition init_year (sections : sections_t) (r : response) (year : string)
  : response :=
  fold_left
    (fun r section_name =>
       dict_set year
                (dict_set section_name empty_week (dict_get_or year [] r)) r)
    (dict_keys (year_sections sections year))
    (dict_set year [] r).

Definition init_response (sections : sections_t) : response :=
  fold_left (init_year sections) YEARS [].

(** The room looked up in [sections]. *)
Definition room_of (sections : sections_t) (year section : string) : string :=
  match dict_get year sections with
  | Some secs =>
      match dict_get section secs with
      | Some info => match si_room info with Some r => r | None => "" end
      | None => ""
      end
  | None => ""
  end.

(** The first half of the body of [for occ in occ_metadata]: the day and
    the entry of an occurrence.  [None] is an uncaught [IndexError] or
    [KeyError] of one of the three table lookups. *)
Definition placed (T : slot_tables) (sections : sections_t)
  (val : nat -> nat) (o : occ) : option (string * entry) :=
  let start_idx := val (occ_id o) in
  match nth_error (slot_names T) start_idx with
  | None => None
  | Some slot_name =>
      match dict_get slot_name (slot_to_day T),
            dict_get start_idx (slot_time T) with
      | Some day, Some start_hr =>
          Some (day,
                {| e_slot := slot_name;
                   e_subject := occ_subject o;
                   e_teacher := occ_teacher o;
                   e_section := occ_section o;
                   e_room := room_of sections (occ_year o) (occ_section o);
                   e_start_hr := start_hr;
                   e_end_hr := (start_hr + Z.of_nat (occ_duration o))%Z |})
      | _, _ => None
      end
  end.

(** One iteration of [for occ in occ_metadata]: the entry is appended when
    the year and the section are keys of the response; a day that is not a
    key of the section's week is an uncaught [KeyError]. *)
Definition add_entry (T : slot_tables) (sections : sections_t)
  (val : nat -> nat) (acc : option response) (o : occ) : option response :=
  match acc with
  | None => None
  | Some r =>
      match placed T sections val o with
      | None => None
      | Some (day, e) =>
          match dict_get (occ_year o) r with
          | None => Some r
          | Some secs =>
              match dict_get (occ_section o) secs with
              | None => Some r
              | Some days =>
                  match dict_get day days with
                  | None => None
                  | Some bucket =>
                      Some (dict_set (occ_year o)
                              (dict_set (occ_section o)
                                 (dict_set day (bucket ++ [e])%list days)
                                 secs)
                              r)
                  end
              end
          end
      end
  end.

(** [list.sort(key=...)]: a stable sort, here by insertion. *)
Fixpoint insert_by {A : Type} (key : A -> string) (x : A) (l : list A)
  : list A :=
  match l with
  | [] => [x]
  | y :: l' =>
      if String.leb (key x) (key y) then x :: y :: l'
      else y :: insert_by key x l'
  end.

Definition sort_by {A : Type} (key : A -> string) (l : list A) : list A :=
  fold_right (insert_by key) [] l.

(** The same dictionary with [f] applied to every value. *)
Definition map_values {V W : Type} (f : V -> W) (d : dict string V)
  : dict string W :=
  map (fun kv => (fst kv, f (snd kv))) d.

(** The last loop: the list of every year, section and day sorted by
    ['start_time']. *)
Definition sort_response (r : response) : response :=
  map_values (map_values (map_values (sort_by start_time))) r.

Definition assemble (T : slot_tables) (sections : sections_t)
  (val : nat -> nat) (occ_metadata : list occ) : option response :=
  option_map sort_response
    (fold_left (add_entry T sections val) occ_metadata
               (Some (init_response sections))).

(** ** [generate_college_timetable_with_sections] *)

Inductive outcome :=
| Error (message : string)      (* [{'error': message}] *)
| Schedule (r : response)       (* [response_data] *)
| Raise.                        (* an uncaught exception *)

Definition no_timetable_message : string :=
  "No valid timetable found. Try adjusting constraints or reducing conflicts.".

(** The model and the occurrences built from the input, or the message of
    the early return. *)
Definition build (T : slot_tables) (teachers : teachers_t)
  (sections : sections_t) (courses : list course) (allow_free : bool)
  : string + build_state :=
  let num_slots := length (slot_names T) in
  build_courses T num_slots
    (all_courses teachers sections courses allow_free num_slots) empty_build.

Definition generate_college_timetable_with_sections (solve : solver_t)
  (constraints : constraints_t) (courses : list course)
  (teachers : teachers_t) (sections : sections_t)
  (allow_free : bool) (max_time_seconds : Z) : outcome :=
  match constraints, courses with
  | None, _ | _, [] => Error "No constraints or courses provided."
  | Some [], _ => Error "No working days configured."
  | Some working_days, _ =>
      match time_slots_of working_days with
      | None => Raise
      | Some T =>
          let num_slots := length (slot_names T) in
          match build T teachers sections courses allow_free with
          | inl message => Error message
          | inr st =>
              let result := solve max_time_seconds (full_model num_slots st) in
              if negb (has_solution (status result))
              then Error no_timetable_message
              else
                match assemble T sections (value result) (b_occs st) with
                | None => Raise
                | Some r => Schedule r
                end
          end
      end
  end.

(** ** Definitions used to state the properties *)

(** The clock hour of the [j]-th slot of a day that starts at [start]: the
    hours run on from [start], one hour later from noon on. *)
Definition slot_hour (start : Z) (j : nat) : Z :=
  if (start <=? 12)%Z && (12 <=? start + Z.of_nat j)%Z
  then (start + Z.of_nat j + 1)%Z
  else (start + Z.of_nat j)%Z.

(** The days as [get_time_slots] iterates over them: a day, its start hour
    and its number of slots. *)
Definition cal_of (slot_dict : dict string nat) (start_times : dict string Z)
  : list (string * Z * nat) :=
  map (fun item => (fst item, dict_get_or (fst item) 0%Z start_times, snd item))
      slot_dict.

Definition calendar (wds : list working_day) : list (string * Z * nat) :=
  cal_of (slot_counts_by_day wds) (start_times_of wds).

Definition block_names (d : string * Z * nat) : list string :=
  map (slot_name_of (abbrev_of (fst (fst d)))) (seq 0 (snd d)).

Definition block_hours (d : string * Z * nat) : list Z :=
  map (slot_hour (snd (fst d))) (seq 0 (snd d)).

Definition block_labels (d : string * Z * nat) : list string :=
  repeat (lower (fst (fst d))) (snd d).

(** A course whose early [return] fires: no allowed start and at least one
    lecture. *)
Definition offending (T : slot_tables) (num_slots : nat) (c : pcourse) : bool :=
  (match allowed_vals T num_slots c with [] => true | _ => false end)
  && (0 <? pc_lectures c)%nat.

(** The occurrences of a list of courses, each with its course, numbered
    from [next]. *)
Fixpoint expand (cs : list pcourse) (next : nat) : list (pcourse * nat) :=
  match cs with
  | [] => []
  | c :: cs' =>
      (map (pair c) (seq next (pc_lectures c))
       ++ expand cs' (next + pc_lectures c))%list
  end.

(** The build state after the occurrences [items] have been added. *)
Definition extend (T : slot_tables) (num_slots : nat) (st : build_state)
  (items : list (pcourse * nat)) : build_state :=
  {| b_model :=
       (b_model st
        ++ flat_map (fun ci => occ_vars (fst ci)
                                 (allowed_vals T num_slots (fst ci)) (snd ci))
                    items)%list;
     b_occs := (b_occs st ++ map (fun ci => mk_occ (fst ci) (snd ci)) items)%list;
     b_start_at :=
       (b_start_at st
        ++ flat_map (fun ci => map (pair (snd ci))
                                 (allowed_vals T num_slots (fst ci)))
                    items)%list;
     b_next := (b_next st + length items)%nat |}.

(** The availability window read from [teachers]. *)
Definition teacher_start (teachers : teachers_t) (t : string) : Z :=
  match dict_get t teachers with
  | Some i => match ti_start_hr i with Some h => h | None => 9%Z end
  | None => 9%Z
  end.

Definition teacher_end (teachers : teachers_t) (t : string) : Z :=
  match dict_get t teachers with
  | Some i => match ti_end_hr i with Some h => h | None => 17%Z end
  | None => 17%Z
  end.

(** Sample inputs on which the statements are exercised. *)
Definition sample_week : list working_day :=
  [{| wd_day := "Monday"; wd_start_hr := 9; wd_total_hours := 8 |};
   {| wd_day := "Tuesday"; wd_start_hr := 12; wd_total_hours := 2 |}].

Definition sample_teachers : teachers_t :=
  [("T1", {| ti_start_hr := Some 9%Z; ti_end_hr := Some 17%Z |})].

Definition sample_sections : sections_t :=
  [("Year1", [("A", {| si_room := Some "R1" |})]);
   ("Year2", []); ("Year3", []); ("Year4", [])].

Definition sample_course : course :=
  {| c_subject := "Math"; c_year := "Year1"; c_section := Some "A";
     c_teacher := "T1"; c_lectures := 2; c_duration := 2 |}.

(** [get_time_slots] on [sample_week]. *)
Definition sample_tables : slot_tables :=
  Eval vm_compute in
    match time_slots_of sample_week with
    | Some T => T
    | None => empty_tables
    end.

(** The build state for [sample_course] on [sample_week], free periods
    included. *)
Definition sample_build : build_state :=
  Eval vm_compute in
    match build sample_tables sample_teachers sample_sections [sample_course]
                true with
    | inr st => st
    | inl _ => empty_build
    end.

Definition sample_occ : occ :=
  mk_occ (process_course sample_teachers sample_course) 0.

(** ** Solvers *)

(** What is assumed of [solver.Solve]: when it reports a solution, the
    values it returns satisfy every constraint of the model. *)
Definition solver_sound (solve : solver_t) : Prop :=
  forall max_time m,
    has_solution (status (solve max_time m)) = true ->
    model_sat (value (solve max_time m)) m = true.

(** A solver that proposes the start values [a] and checks them. *)
Definition checked_solver (a : nat -> nat) : solver_t :=
  fun _ m =>
    {| status := if model_sat a m then FEASIBLE else INFEASIBLE; value := a |}.

(** A solver that stops with the given status. *)
Definition stopped_solver (s : cp_status) : solver_t :=
  fun _ _ => {| status := s; value := fun _ => 0%nat |}.

(** A calendar whose only slot lies outside the clock range of the free
    periods. *)
Definition late_week : list working_day :=
  [{| wd_day := "Monday"; wd_start_hr := 24; wd_total_hours := 1 |}].

Definition late_teachers : teachers_t :=
  [("T1", {| ti_start_hr := Some 24%Z; ti_end_hr := Some 25%Z |})].

Definition two_sections : sections_t :=
  [("Year1", [("A", {| si_room := Some "R1" |})]);
   ("Year2", [("A", {| si_room := Some "R2" |})]);
   ("Year3", []); ("Year4", [])].

Definition one_lecture : course :=
  {| c_subject := "Math"; c_year := "Year1"; c_section := Some "A";
     c_teacher := "T1"; c_lectures := 1; c_duration := 1 |}.

Definition late_tables : slot_tables :=
  Eval vm_compute in
    match time_slots_of late_week with
    | Some T => T
    | None => empty_tables
    end.

(** One Monday slot at 9 and two courses of the same teacher. *)
Definition one_slot_week : list working_day :=
  [{| wd_day := "Monday"; wd_start_hr := 9; wd_total_hours := 1 |}].

Definition other_lecture : course :=
  {| c_subject := "Physics"; c_year := "Year2"; c_section := Some "A";
     c_teacher := "T1"; c_lectures := 1; c_duration := 1 |}.

(** A two-hour course whose teacher is available for one hour only. *)
Definition three_slot_day : working_day :=
  {| wd_day := "Monday"; wd_start_hr := 9; wd_total_hours := 3 |}.

Definition short_teachers : teachers_t :=
  [("T1", {| ti_start_hr := Some 9%Z; ti_end_hr := Some 10%Z |})].

Definition long_course : course :=
  {| c_subject := "Math"; c_year := "Year1"; c_section := Some "A";
     c_teacher := "T1"; c_lectures := 1; c_duration := 2 |}.

Definition three_slot_tables : slot_tables :=
  Eval vm_compute in
    match time_slots_of [three_slot_day] with
    | Some T => T
    | None => empty_tables
    end.

Definition one_slot_tables : slot_tables :=
  Eval vm_compute in
    match time_slots_of one_slot_week with
    | Some T => T
    | None => empty_tables
    end.

(** The build state for two lectures of one teacher on [one_slot_week]. *)
Definition clash_build : build_state :=
  Eval vm_compute in
    match build one_slot_tables sample_teachers two_sections
                [one_lecture; other_lecture] false with
    | inr st => st
    | inl _ => empty_build
    end.

(** Only Year1 has a section of its own; the other years fall back on the
    default section. *)
Definition year1_only : sections_t :=
  [("Year1", [("A", {| si_room := Some "R1" |})])].

(** The build states for [one_lecture] on [one_slot_week], without and with
    free periods. *)
Definition plain_build : build_state :=
  Eval vm_compute in
    match build one_slot_tables sample_teachers year1_only [one_lecture]
                false with
    | inr st => st
    | inl _ => empty_build
    end.

Definition padded_build : build_state :=
  Eval vm_compute in
    match build one_slot_tables sample_teachers year1_only [one_lecture]
                true with
    | inr st => st
    | inl _ => empty_build
    end.

(** ** Reading the response *)

(** [response_data[year][section][day]] *)
Definition bucket (r : response) (year section day : string)
  : option (list entry) :=
  match dict_get year r with
  | Some secs =>
      match dict_get section secs with
      | Some days => dict_get day days
      | None => None
      end
  | None => None
  end.

(** The keys of every section's week. *)
Definition week_keys : list string := map lower WEEK.

(** Whether the response has a week for the year and section of [o]: the
    year is one of [YEARS] and the section is a key of
    [sections.get(year, {'A': {}})]. *)
Definition in_response (sections : sections_t) (o : occ) : bool :=
  existsb (String.eqb (occ_year o)) YEARS
  && dict_mem (occ_section o) (year_sections sections (occ_year o)).

(** The entries that the occurrences [occs] contribute to one day of one
    section, in the order of [occs]. *)
Definition hits (T : slot_tables) (sections : sections_t) (val : nat -> nat)
  (year section day : string) (occs : list occ) : list entry :=
  flat_map
    (fun o =>
       match placed T sections val o with
       | Some (d, e) =>
           if String.eqb (occ_year o) year && String.eqb (occ_section o) section
              && String.eqb d day
           then [e] else []
       | None => []
       end)
    occs.

(** The keys of a response built for [sections]: the four years, under each
    the sections of that year, under each the seven days. *)
Definition resp_inv (sections : sections_t) (r : response) : Prop :=
  forall y,
    match dict_get y r with
    | None => ~ In y YEARS
    | Some secs =>
        In y YEARS
        /\ forall s,
             match dict_get s secs with
             | None => dict_mem s (year_sections sections y) = false
             | Some days =>
                 dict_mem s (year_sections sections y) = true
                 /\ dict_keys days = week_keys
             end
    end.

(** Whether the text of the hours 0..99 is ordered as the hours are. *)
Definition two_digit_order_check : bool :=
  forallb
    (fun a =>
       forallb
         (fun b =>
            implb (String.leb (fmt02d (Z.of_nat a) ++ ":00")
                              (fmt02d (Z.of_nat b) ++ ":00"))
                  (a <=? b)%nat)
         (seq 0 100))
    (seq 0 100).

(** A course of a section that [year1_only] does not list. *)
Definition stray_lecture : course :=
  {| c_subject := "Art"; c_year := "Year1"; c_section := Some "B";
     c_teacher := "T1"; c_lectures := 1; c_duration := 1 |}.

Definition stray_build : build_state :=
  Eval vm_compute in
    match build one_slot_tables sample_teachers year1_only [stray_lecture]
                false with
    | inr st => st
    | inl _ => empty_build
    end.

(** The schedule returned for [stray_lecture]. *)
Definition stray_schedule : response :=
  Eval vm_compute in
    match generate_college_timetable_with_sections
            (checked_solver (fun _ => 0%nat)) (Some one_slot_week)
            [stray_lecture] sample_teachers year1_only false 30 with
    | Schedule r => r
    | _ => []
    end.

(** The order of a list sorted by [key]: Python's order on strings. *)
Definition key_le {A : Type} (key : A -> string) (x y : A) : Prop :=
  String.leb (key x) (key y) = true.

(** Start slots for the occurrences of [sample_build]: the two lectures on
    Monday at 13 and 9, the free periods in the slots that remain. *)
Definition sample_values (o : nat) : nat :=
  match o with
  | 0 => 3 | 1 => 0 | 2 => 2 | 3 => 5 | 4 => 6 | 5 => 7 | 6 => 8
  | _ => 9
  end%nat.

Definition sample_schedule : response :=
  Eval vm_compute in
    match generate_college_timetable_with_sections
            (checked_solver sample_values) (Some sample_week)
            [sample_course] sample_teachers sample_sections true 30 with
    | Schedule r => r
    | _ => []
    end.

Definition sample_monday : list entry :=
  Eval vm_compute in
    match bucket sample_schedule "Year1" "A" "monday" with
    | Some b => b
    | None => []
    end.

(** ** Exclusion *)

(** Two occurrences with the same [key] do not overlap in slot indices
    under the start values [a]. *)
Definition excl (a : nat -> nat) (key : occ -> string) (o1 o2 : occ) : Prop :=
  key o1 = key o2 ->
  overlap (a (occ_id o1)) (occ_duration o1) (a (occ_id o2)) (occ_duration o2)
  = false.

Definition occ_section_key (o : occ) : string :=
  section_key (occ_year o) (occ_section o).

(** ** Calendars of weekdays *)

(** Every working day carries one of the seven weekday names. *)
Definition weekday_names (wds : list working_day) : Prop :=
  Forall (fun w => In (wd_day w) WEEK) wds.

Definition is_digit (c : ascii) : bool :=
  let n := nat_of_ascii c in (48 <=? n)%nat && (n <=? 57)%nat.

(** A text that starts with a digit. *)
Definition digit_headed (x : string) : Prop :=
  match x with
  | EmptyString => False
  | String c _ => is_digit c = true
  end.

Definition cal_day (d : string * Z * nat) : string := fst (fst d).

(** Two entries whose clock intervals [start, end) do not overlap. *)
Definition clock_disjoint (e1 e2 : entry) : Prop :=
  (e_end_hr e1 <= e_start_hr e2 \/ e_end_hr e2 <= e_start_hr e1)%Z.

(** Two entries of one teacher do not overlap. *)
Definition teacher_free (e1 e2 : entry) : Prop :=
  e_teacher e1 = e_teacher e2 -> clock_disjoint e1 e2.

(** The claim speaks of overlap: two half-open intervals overlap iff not
    (one ends before the other starts). *)
Definition clock_overlap (e1 e2 : entry) : Prop :=
  ~ (e_end_hr e1 <= e_start_hr e2 \/ e_end_hr e2 <= e_start_hr e1)%Z.

(** ** Sums *)

Definition zsum {A : Type} (f : A -> Z) (l : list A) : Z :=
  fold_right (fun x acc => (f x + acc)%Z) 0%Z l.

(** The entries of a week, day after day. *)
Definition week_entries (days : day_map) : list entry := flat_map snd days.

(** The length of an entry in hours. *)
Definition entry_hours (e : entry) : Z := (e_end_hr e - e_start_hr e)%Z.

(** Whether an occurrence, or a course, belongs to a year and section. *)
Definition occ_in (year section : string) (o : occ) : bool :=
  String.eqb (occ_year o) year && String.eqb (occ_section o) section.

Definition pc_in (year section : string) (c : pcourse) : bool :=
  String.eqb (pc_year c) year && String.eqb (pc_section c) section.

(** [course.get("section", "A")] *)
Definition section_of (c : course) : string :=
  match c_section c with Some s => s | None => "A" end.

(** A Monday of two slots, filled by one lecture of two hours. *)
Definition two_slot_week : list working_day :=
  [{| wd_day := "Monday"; wd_start_hr := 9; wd_total_hours := 2 |}].

Definition two_slot_tables : slot_tables :=
  Eval vm_compute in
    match time_slots_of two_slot_week with
    | Some T => T
    | None => empty_tables
    end.

Definition long_schedule : response :=
  Eval vm_compute in
    match generate_college_timetable_with_sections
            (checked_solver (fun _ => 0%nat)) (Some two_slot_week)
            [long_course] sample_teachers sample_sections true 30 with
    | Schedule r => r
    | _ => []
    end.

(** ** The teacher workload preview of [main] *)

(** One value of [teacher_workload]: ['courses'], ['hours'] and the set
    ['sections'], of which the size and the sorted elements are shown. *)
Record workload := {
  w_courses : nat;
  w_hours : nat;
  w_sections : list string
}.

Definition no_workload : workload :=
  {| w_courses := 0; w_hours := 0; w_sections := [] |}.

(** [set.add] *)
Definition set_add (x : string) (l : list string) : list string :=
  if existsb (String.eqb x) l then l else (l ++ [x])%list.

(** One iteration of [for course in st.session_state.courses];
    [course['section']] raises [KeyError] on a course without that key. *)
Definition workload_step (acc : option (dict string workload)) (c : course)
  : option (dict string workload) :=
  match acc with
  | None => None
  | Some d =>
      let teacher := c_teacher c in
      let d1 := if dict_mem teacher d then d
                else dict_set teacher no_workload d in
      match dict_get teacher d1, c_section c with
      | Some w, Some section =>
          Some (dict_set teacher
                  {| w_courses := w_courses w + 1;
                     w_hours := w_hours w + c_lectures c * c_duration c;
                     w_sections :=
                       set_add (c_year c ++ "-" ++ section) (w_sections w) |}
                  d1)
      | _, _ => None
      end
  end.

Definition teacher_workload (courses : list course)
  : option (dict string workload) :=
  fold_left workload_step courses (Some []).

(** The hours that the courses of teacher [t] ask for. *)
Definition declared_hours (t : string) (courses : list course) : Z :=
  zsum (fun c => if String.eqb (c_teacher c) t
                 then Z.of_nat (c_lectures c * c_duration c) else 0%Z)
       courses.

(** Two courses of one teacher in two sections, for the preview. *)
Definition second_course : course :=
  {| c_subject := "Physics"; c_year := "Year1"; c_section := Some "B";
     c_teacher := "T1"; c_lectures := 3; c_duration := 1 |}.

Definition sample_preview : dict string workload :=
  Eval vm_compute in
    match teacher_workload [sample_course; second_course] with
    | Some d => d
    | None => []
    end.

(** ** The section analysis of [main] *)

(** The five accumulators of the analysis of one section's week. *)
Record analysis := {
  total_classes : nat;
  free_periods : nat;
  subjects_count : dict string nat;
  teachers_count : dict string nat;
  daily_classes : dict string nat
}.

Definition empty_analysis : analysis :=
  {| total_classes := 0; free_periods := 0; subjects_count := [];
     teachers_count := []; daily_classes := [] |}.

(** [item['subject'].startswith('Free')] *)
Definition is_free (item : entry) : bool :=
  String.prefix "Free" (e_subject item).

(** [d[k] = d.get(k, 0) + 1] *)
Definition bump (k : string) (d : dict string nat) : dict string nat :=
  dict_set k (dict_get_or k 0%nat d + 1)%nat d.

(** One iteration of [for item in schedule]. *)
Definition count_item (a : analysis) (item : entry) : analysis :=
  if is_free item
  then {| total_classes := total_classes a + 1;
          free_periods := free_periods a + 1;
          subjects_count := subjects_count a;
          teachers_count := teachers_count a;
          daily_classes := daily_classes a |}
  else {| total_classes := total_classes a + 1;
          free_periods := free_periods a;
          subjects_count := bump (e_subject item) (subjects_count a);
          teachers_count := bump (e_teacher item) (teachers_count a);
          daily_classes := daily_classes a |}.

(** One iteration of [for day, schedule in section_schedule.items()]. *)
Definition analyse_day (a : analysis) (kv : string * list entry) : analysis :=
  fold_left count_item (snd kv)
    {| total_classes := total_classes a;
       free_periods := free_periods a;
       subjects_count := subjects_count a;
       teachers_count := teachers_count a;
       daily_classes :=
         dict_set (fst kv)
                  (length (filter (fun item => negb (is_free item)) (snd kv)))
                  (daily_classes a) |}.

Definition section_analysis (section_schedule : day_map) : analysis :=
  fold_left analyse_day section_schedule empty_analysis.

(** The sum of the values of a dictionary of counts. *)
Definition count_total (d : dict string nat) : Z :=
  zsum (fun kv => Z.of_nat (snd kv)) d.

Definition sample_analysis : analysis :=
  Eval vm_compute in
    match dict_get "Year1" sample_schedule with
    | Some secs =>
        match dict_get "A" secs with
        | Some days => section_analysis days
        | None => empty_analysis
        end
    | None => empty_analysis
    end.

(** ** The timetable loop of [create_sqlite_database] *)

(** Python values as the loop meets them: text, lists and dictionaries
    with text keys. *)
Local Unset Elimination Schemes.
Inductive pyval :=
| PStr (s : string)
| PList (l : list pyval)
| PDict (d : list (string * pyval)).
Local Set Elimination Schemes.

(** The response of the engine as a Python value. *)
Definition entry_value (e : entry) : pyval :=
  PDict [("slot", PStr (e_slot e)); ("subject", PStr (e_subject e));
         ("teacher", PStr (e_teacher e)); ("section", PStr (e_section e));
         ("room", PStr (e_room e)); ("start_time", PStr (start_time e));
         ("end_time", PStr (end_time e))].

Definition week_value (days : day_map) : pyval :=
  PDict (map_values (fun b => PList (map entry_value b)) days).


(** [v.items()]; [None] is the [AttributeError] of a value that is no
    dictionary. *)
Definition py_items (v : pyval) : option (list (string * pyval)) :=
  match v with
  | PDict d => Some d
  | _ => None
  end.

(** [for item in v]: the elements of a list, the keys of a dictionary,
    the characters of a text. *)
Definition py_iter (v : pyval) : list pyval :=
  match v with
  | PList l => l
  | PDict d => map (fun kv => PStr (fst kv)) d
  | PStr s => map (fun c => PStr (String c EmptyString)) (list_ascii_of_string s)
  end.

(** [v[k]] for a text key [k]; [None] is the [KeyError] of a dictionary
    or the [TypeError] of a text or a list. *)
Definition py_getitem (k : string) (v : pyval) : option pyval :=
  match v with
  | PDict d => dict_get k d
  | _ => None
  end.

(** [v.get(k, dflt)]; [None] is the [AttributeError] of a value that is
    no dictionary. *)
Definition py_get (k : string) (dflt : pyval) (v : pyval) : option pyval :=
  match v with
  | PDict d => Some (dict_get_or k dflt d)
  | _ => None
  end.

(** [str.capitalize()] on ASCII text. *)
Definition upper_ascii (c : ascii) : ascii :=
  let n := nat_of_ascii c in
  if (97 <=? n)%nat && (n <=? 122)%nat then ascii_of_nat (n - 32) else c.

Definition capitalize (s : string) : string :=
  match s with
  | EmptyString => EmptyString
  | String c s' => String (upper_ascii c) (lower s')
  end.

(** The tuple handed to [INSERT INTO timetable]. *)
Record timetable_row := {
  row_course_id : option nat;
  row_year : string;
  row_section_name : pyval;
  row_day_of_week : string;
  row_start_time : pyval;
  row_end_time : pyval;
  row_slot_name : pyval;
  row_subject_name : pyval;
  row_teacher_name : pyval;
  row_room_number : pyval
}.

(** The body of [for item in day_schedule], with the rows inserted so
    far; [fmt] is the text of a value inside an f-string and
    [course_id_map] the dictionary filled by the loop over the courses. *)
Definition insert_item (fmt : pyval -> string)
  (course_id_map : dict string nat) (year day : string)
  (acc : option (list timetable_row)) (item : pyval)
  : option (list timetable_row) :=
  match acc with
  | None => None
  | Some rows =>
      match py_getitem "subject" item, py_getitem "teacher" item with
      | Some subject, Some teacher =>
          let course_key := fmt subject ++ "_" ++ year ++ "_" ++ fmt teacher in
          let course_id := dict_get course_key course_id_map in
          match py_get "section" (PStr "A") item,
                py_getitem "start_time" item, py_getitem "end_time" item,
                py_getitem "slot" item, py_get "room" (PStr "") item with
          | Some section_name, Some start, Some stop, Some slot, Some room =>
              Some (rows ++ [{| row_course_id := course_id;
                                row_year := year;
                                row_section_name := section_name;
                                row_day_of_week := capitalize day;
                                row_start_time := start;
                                row_end_time := stop;
                                row_slot_name := slot;
                                row_subject_name := subject;
                                row_teacher_name := teacher;
                                row_room_number := room |}])%list
          | _, _, _, _, _ => None
          end
      | _, _ => None
      end
  end.

(** The body of [for day, day_schedule in year_data.items()]. *)
Definition insert_day (fmt : pyval -> string)
  (course_id_map : dict string nat) (year : string)
  (acc : option (list timetable_row)) (kv : string * pyval)
  : option (list timetable_row) :=
  fold_left (insert_item fmt course_id_map year (fst kv)) (py_iter (snd kv))
            acc.

(** The body of [for year, year_data in timetable_data.items()]. *)
Definition insert_year (fmt : pyval -> string)
  (course_id_map : dict string nat)
  (acc : option (list timetable_row)) (kv : string * pyval)
  : option (list timetable_row) :=
  match acc with
  | None => None
  | Some _ =>
      match py_items (snd kv) with
      | None => None
      | Some days =>
          fold_left (insert_day fmt course_id_map (fst kv)) days acc
      end
  end.

(** The rows of the loop "Insert timetable data", or [None] when it
    raises. *)
Definition insert_timetable (fmt : pyval -> string)
  (course_id_map : dict string nat) (timetable_data : pyval)
  : option (list timetable_row) :=
  match py_items timetable_data with
  | None => None
  | Some years => fold_left (insert_year fmt course_id_map) years (Some [])
  end.

(** A timetable of the shape that the loop reads: under each year the
    days, under each day the list of entries. *)
Definition flat_value (t : dict string day_map) : pyval :=
  PDict (map_values week_value t).

Definition row_of (course_id_map : dict string nat) (year day : string)
  (e : entry) : timetable_row :=
  {| row_course_id :=
       dict_get (e_subject e ++ "_" ++ year ++ "_" ++ e_teacher e)
                course_id_map;
     row_year := year;
     row_section_name := PStr (e_section e);
     row_day_of_week := capitalize day;
     row_start_time := PStr (start_time e);
     row_end_time := PStr (end_time e);
     row_slot_name := PStr (e_slot e);
     row_subject_name := PStr (e_subject e);
     row_teacher_name := PStr (e_teacher e);
     row_room_number := PStr (e_room e) |}.

Definition flat_rows (course_id_map : dict string nat)
  (t : dict string day_map) : list timetable_row :=
  flat_map
    (fun yd =>
       flat_map (fun db => map (row_of course_id_map (fst yd) (fst db)) (snd db))
                (snd yd))
    t.

(** ** Inputs outside the amended claims *)

(** Two working days whose names differ in letter case only, and a course
    with two lectures. *)
Definition case_week : list working_day :=
  [{| wd_day := "Monday"; wd_start_hr := 9; wd_total_hours := 1 |};
   {| wd_day := "MONDAY"; wd_start_hr := 9; wd_total_hours := 1 |}].

Definition twice_course : course :=
  {| c_subject := "Math"; c_year := "Year1"; c_section := Some "A";
     c_teacher := "T1"; c_lectures := 2; c_duration := 1 |}.

Definition case_tables : slot_tables :=
  Eval vm_compute in
    match time_slots_of case_week with
    | Some T => T
    | None => empty_tables
    end.

Definition case_schedule : response :=
  Eval vm_compute in
    match generate_college_timetable_with_sections
            (checked_solver (fun o => o)) (Some case_week) [twice_course]
            sample_teachers year1_only false 30 with
    | Schedule r => r
    | _ => []
    end.

Definition first_monday : entry :=
  {| e_slot := "M1"; e_subject := "Math"; e_teacher := "T1";
     e_section := "A"; e_room := "R1"; e_start_hr := 9; e_end_hr := 10 |}.

Definition second_monday : entry :=
  {| e_slot := "MO1"; e_subject := "Math"; e_teacher := "T1";
     e_section := "A"; e_room := "R1"; e_start_hr := 9; e_end_hr := 10 |}.

(** An evening of twelve slots from hour 20 on, and a teacher for its
    first two hours. *)
Definition evening_week : list working_day :=
  [{| wd_day := "Monday"; wd_start_hr := 20; wd_total_hours := 12 |}].

Definition evening_teachers : teachers_t :=
  [("T1", {| ti_start_hr := Some 20%Z; ti_end_hr := Some 22%Z |})].

Definition evening_tables : slot_tables :=
  Eval vm_compute in
    match time_slots_of evening_week with
    | Some T => T
    | None => empty_tables
    end.

Definition evening_build : build_state :=
  Eval vm_compute in
    match build evening_tables evening_teachers year1_only [one_lecture]
                true with
    | inr st => st
    | inl _ => empty_build
    end.

(** A course of duration 0. *)
Definition zero_course : course :=
  {| c_subject := "Math"; c_year := "Year1"; c_section := Some "A";
     c_teacher := "T1"; c_lectures := 1; c_duration := 0 |}.

Definition zero_build : build_state :=
  Eval vm_compute in
    match build one_slot_tables sample_teachers year1_only [zero_course]
                false with
    | inr st => st
    | inl _ => empty_build
    end.

(** A day whose four slots have the hours 98 to 101, and four lectures of
    a teacher available then. *)
Definition far_week : list working_day :=
  [{| wd_day := "Monday"; wd_start_hr := 98; wd_total_hours := 4 |}].

Definition far_teachers : teachers_t :=
  [("T1", {| ti_start_hr := Some 90%Z; ti_end_hr := Some 110%Z |})].

Definition four_lectures : course :=
  {| c_subject := "Math"; c_year := "Year1"; c_section := Some "A";
     c_teacher := "T1"; c_lectures := 4; c_duration := 1 |}.

Definition far_schedule : response :=
  Eval vm_compute in
    match generate_college_timetable_with_sections
            (checked_solver (fun o => o)) (Some far_week) [four_lectures]
            far_teachers year1_only false 30 with
    | Schedule r => r
    | _ => []
    end.

(** * Properties *)

(** ** Dictionaries *)

Section DictFacts.
Context {K V : Type} `{Key K}.

Lemma keyb_refl (k : K) : keyb k k = true.
Proof. destruct (keyb_spec k k); congruence. Qed.

Lemma keyb_eq (k k' : K) : keyb k k' = true <-> k = k'.
Proof. destruct (keyb_spec k k'); split; congruence. Qed.

Lemma keyb_neq (k k' : K) : keyb k k' = false <-> k <> k'.
Proof. destruct (keyb_spec k k'); split; congruence. Qed.

Lemma dict_get_set_same (k : K) (v : V) (d : dict K V) :
  dict_get k (dict_set k v d) = Some v.
Proof.
  induction d as [|[k' v'] d IH]; simpl.
  - now rewrite keyb_refl.
  - destruct (keyb k k') eqn:E; simpl; rewrite E; auto.
Qed.

Lemma dict_get_set_other (k k0 : K) (v : V) (d : dict K V) :
  k0 <> k -> dict_get k0 (dict_set k v d) = dict_get k0 d.
Proof.
  intros Hne. induction d as [|[k' v'] d IH]; simpl.
  - apply keyb_neq in Hne. now rewrite Hne.
  - destruct (keyb_spec k k') as [<-|Hk]; simpl.
    + apply keyb_neq in Hne. now rewrite Hne.
    + now rewrite IH.
Qed.

Lemma dict_get_None (k : K) (d : dict K V) :
  dict_get k d = None <-> ~ In k (dict_keys d).
Proof.
  induction d as [|[k' v'] d IH]; simpl.
  - tauto.
  - destruct (keyb_spec k k') as [->|Hne].
    + split; [discriminate | tauto].
    + rewrite IH. split; [intros Hn [Heq|Hin]; congruence || tauto | tauto].
Qed.

Lemma dict_get_In (k : K) (v : V) (d : dict K V) :
  dict_get k d = Some v -> In (k, v) d.
Proof.
  induction d as [|[k' v'] d IH]; simpl; [discriminate|].
  destruct (keyb_spec k k') as [->|Hne].
  - intros [= ->]. now left.
  - intros Hg. right. auto.
Qed.

Lemma dict_set_fresh (k : K) (v : V) (d : dict K V) :
  ~ In k (dict_keys d) -> dict_set k v d = (d ++ [(k, v)])%list.
Proof.
  induction d as [|[k' v'] d IH]; simpl; intros Hn; [reflexivity|].
  destruct (keyb_spec k k') as [->|Hne]; [tauto|].
  rewrite IH; tauto.
Qed.

Lemma dict_keys_set (k : K) (v : V) (d : dict K V) :
  dict_keys (dict_set k v d) =
  if dict_mem k d then dict_keys d else (dict_keys d ++ [k])%list.
Proof.
  unfold dict_mem. induction d as [|[k' v'] d IH]; simpl; [reflexivity|].
  destruct (keyb_spec k k') as [->|Hne]; simpl; [reflexivity|].
  rewrite IH. now destruct (dict_get k d).
Qed.

Lemma dict_keys_set_NoDup (k : K) (v : V) (d : dict K V) :
  NoDup (dict_keys d) -> NoDup (dict_keys (dict_set k v d)).
Proof.
  intros Hnd. rewrite dict_keys_set. unfold dict_mem.
  destruct (dict_get k d) eqn:E; [assumption|].
  apply dict_get_None in E.
  apply NoDup_rev in Hnd. rewrite <- (rev_involutive (_ ++ _)).
  apply NoDup_rev. rewrite rev_app_distr. simpl. constructor; auto.
  now rewrite <- in_rev.
Qed.

(** A first-match lookup in a list with distinct keys finds every pair. *)
Lemma dict_get_NoDup (k : K) (v : V) (d : dict K V) :
  NoDup (dict_keys d) -> In (k, v) d -> dict_get k d = Some v.
Proof.
  induction d as [|[k' v'] d IH]; simpl; [tauto|].
  intros Hnd [Heq|Hin].
  - injection Heq as -> ->. now rewrite keyb_refl.
  - inversion Hnd as [|? ? Hni Hnd']; subst.
    destruct (keyb_spec k k') as [->|Hne].
    + exfalso. apply Hni. apply (in_map fst) in Hin. exact Hin.
    + auto.
Qed.
End DictFacts.

Lemma dict_mem_keys {K V1 V2 : Type} `{Key K} (k : K)
  (d1 : dict K V1) (d2 : dict K V2) :
  dict_keys d1 = dict_keys d2 -> dict_mem k d1 = dict_mem k d2.
Proof.
  revert d2. induction d1 as [|[k1 v1] d1 IH]; intros [|[k2 v2] d2];
    simpl; try discriminate; [reflexivity|].
  intros [= -> Hk]. unfold dict_mem in *. simpl.
  destruct (keyb k k2); [reflexivity | now apply IH].
Qed.

(** ** List facts *)

Lemma combine_app {A B : Type} (l1 l2 : list A) (m1 m2 : list B) :
  length l1 = length m1 ->
  combine (l1 ++ l2) (m1 ++ m2) = (combine l1 m1 ++ combine l2 m2)%list.
Proof.
  revert m1. induction l1 as [|a l1 IH]; intros [|b m1]; simpl;
    try discriminate; [reflexivity|].
  intros [= Hl]. now rewrite IH.
Qed.

Lemma map_fst_combine {A B : Type} (l : list A) (m : list B) :
  length l = length m -> map fst (combine l m) = l.
Proof.
  revert m. induction l as [|a l IH]; intros [|b m]; simpl;
    try discriminate; [reflexivity|].
  intros [= Hl]. now rewrite IH.
Qed.

Lemma map_snd_combine {A B : Type} (l : list A) (m : list B) :
  length l = length m -> map snd (combine l m) = m.
Proof.
  revert m. induction l as [|a l IH]; intros [|b m]; simpl;
    try discriminate; [reflexivity|].
  intros [= Hl]. now rewrite IH.
Qed.

(** ** The calendar builder *)

Ltac split_leb :=
  repeat match goal with
         | |- context [(?a <=? ?b)%Z] => destruct (Z.leb_spec a b)
         | |- context [(?a <? ?b)%Z] => destruct (Z.ltb_spec a b)
         | |- context [(?a >=? ?b)%Z] => rewrite (Z.geb_leb a b)
         | |- context [(?a =? ?b)%Z] => destruct (Z.eqb_spec a b)
         end.

Lemma slot_hour_0 (start : Z) : slot_hour start 0 = skip_lunch start.
Proof. unfold slot_hour, skip_lunch. split_leb; cbn [andb]; lia. Qed.

Lemma slot_hour_S (start : Z) (j : nat) :
  slot_hour start (S j) = slot_hour (skip_lunch start + 1) j.
Proof. unfold slot_hour, skip_lunch. split_leb; cbn [andb]; lia. Qed.

Lemma slot_hour_not_noon (start : Z) (j : nat) : slot_hour start j <> 12%Z.
Proof. unfold slot_hour. split_leb; cbn [andb]; lia. Qed.

(** Within a day the clock hour grows by at least one per slot. *)
Lemma slot_hour_mono (start : Z) (i j : nat) :
  (i <= j)%nat ->
  (slot_hour start i + Z.of_nat (j - i) <= slot_hour start j)%Z.
Proof. intros Hij. unfold slot_hour. split_leb; cbn [andb]; lia. Qed.

(** The inner loop of [get_time_slots], run for a whole day. *)
Lemma slot_loop (abbrev day : string) (hours : nat) :
  forall j0 idx start cnt T,
    dict_keys (slot_time T) = seq 0 idx ->
    exists start',
      fold_left (slot_step abbrev day) (seq j0 hours) (idx, start, cnt, T) =
      ((idx + hours)%nat, start', (cnt + hours)%nat,
       {| slot_names :=
            (slot_names T
             ++ map (slot_name_of abbrev) (seq j0 hours))%list;
          slot_time :=
            (slot_time T
             ++ combine (seq idx hours)
                        (map (slot_hour start) (seq 0 hours)))%list;
          slot_to_day :=
            fold_left (fun d n => dict_set n (lower day) d)
                      (map (slot_name_of abbrev) (seq j0 hours))
                      (slot_to_day T);
          day_slot_counts := day_slot_counts T |}).
Proof.
  induction hours as [|hours IH]; intros j0 idx start cnt T Hk.
  - exists start. simpl. rewrite !Nat.add_0_r, !app_nil_r.
    now destruct T.
  - cbn [seq fold_left]. unfold slot_step at 2.
    match goal with
    | |- context [fold_left _ _ (?i, ?s, ?c, ?T1)] =>
        destruct (IH (S j0) i s c T1) as [start' Hfold]
    end.
    { cbn [slot_time]. rewrite dict_set_fresh.
      - unfold dict_keys in *. rewrite map_app, Hk.
        change (map fst [(idx, skip_lunch start)]) with [(0 + idx)%nat].
        now rewrite <- seq_S.
      - rewrite Hk, in_seq. lia. }
    exists start'. rewrite Hfold. cbn [slot_names slot_time slot_to_day
      day_slot_counts]. f_equal; [f_equal; [f_equal; lia | lia]|].
    f_equal.
    + now rewrite <- app_assoc.
    + rewrite dict_set_fresh by (rewrite Hk, in_seq; lia).
      rewrite <- app_assoc. f_equal. cbn [map combine app].
      rewrite slot_hour_0. f_equal.
      rewrite <- (seq_shift hours 0), map_map. f_equal.
      apply map_ext. intros j. now rewrite slot_hour_S.
Qed.

Lemma fold_set_repeat (v : string) (names : list string)
  (d : dict string string) :
  fold_left (fun d n => dict_set n v d) names d =
  fold_left (fun d nl => dict_set (fst nl) (snd nl) d)
            (combine names (repeat v (length names))) d.
Proof.
  revert d. induction names as [|n names IH]; intros d; simpl; auto.
Qed.

Lemma block_names_length d : length (block_names d) = snd d.
Proof. unfold block_names. now rewrite length_map, length_seq. Qed.

Lemma block_hours_length d : length (block_hours d) = snd d.
Proof. unfold block_hours. now rewrite length_map, length_seq. Qed.

Lemma block_labels_length d : length (block_labels d) = snd d.
Proof. unfold block_labels. now rewrite repeat_length. Qed.

(** The outer loop of [get_time_slots]. *)
Lemma day_loop (st : dict string Z) :
  forall items idx T,
    dict_keys (slot_time T) = seq 0 idx ->
    (forall item, In item items -> dict_mem (fst item) st = true) ->
    let cal := cal_of items st in
    exists T',
      fold_left (day_step st) items (Some (idx, T)) =
        Some ((idx + length (flat_map block_names cal))%nat, T')
      /\ slot_names T' = (slot_names T ++ flat_map block_names cal)%list
      /\ slot_time T' =
           (slot_time T
            ++ combine (seq idx (length (flat_map block_names cal)))
                       (flat_map block_hours cal))%list
      /\ slot_to_day T' =
           fold_left (fun d nl => dict_set (fst nl) (snd nl) d)
                     (combine (flat_map block_names cal)
                              (flat_map block_labels cal))
                     (slot_to_day T).
Proof.
  induction items as [|[day hours] items IH]; intros idx T Hk Hst cal.
  - exists T. simpl. rewrite Nat.add_0_r, !app_nil_r. auto.
  - subst cal. cbn [fold_left day_step cal_of map flat_map fst snd].
    assert (Hm : dict_mem day st = true) by (apply (Hst (day, hours)); now left).
    unfold dict_mem in Hm. fold (cal_of items st).
    destruct (dict_get day st) as [start|] eqn:Hget; [clear Hm|discriminate].
    replace (dict_get_or day 0%Z st) with start
      by (unfold dict_get_or; now rewrite Hget).
    destruct (slot_loop (abbrev_of day) day hours 0 idx start 0 T Hk)
      as [start' Hfold].
    rewrite Hfold.
    match goal with
    | |- context [fold_left _ items (Some (?i, ?T1))] =>
        destruct (IH i T1) as [T' (Hf & Hn & Ht & Hd)]
    end.
    { cbn [slot_time]. unfold dict_keys. rewrite map_app, map_fst_combine.
      - unfold dict_keys in Hk. rewrite Hk. now rewrite <- seq_app.
      - now rewrite length_seq, length_map, length_seq. }
    { intros item Hin. apply Hst. now right. }
    exists T'. cbn [slot_names slot_time slot_to_day] in Hn, Ht, Hd.
    set (d := (day, start, hours)).
    change (map (slot_name_of (abbrev_of day)) (seq 0 hours))
      with (block_names d) in *.
    change (map (slot_hour start) (seq 0 hours)) with (block_hours d) in *.
    rewrite length_app, block_names_length. cbn [snd d].
    split; [|split; [|split]].
    + rewrite Hf. f_equal. f_equal. lia.
    + rewrite Hn. now rewrite app_assoc.
    + rewrite Ht, <- app_assoc. f_equal.
      rewrite seq_app, combine_app.
      * reflexivity.
      * now rewrite length_seq, block_hours_length.
    + rewrite Hd. rewrite combine_app by
        now rewrite block_names_length, block_labels_length.
      rewrite fold_left_app. f_equal.
      rewrite fold_set_repeat. unfold block_labels. cbn [fst snd d].
      now rewrite block_names_length.
Qed.

Lemma working_days_keys (wds : list working_day) :
  forall (d1 : dict string nat) (d2 : dict string Z),
    dict_keys d1 = dict_keys d2 ->
    dict_keys (fold_left (fun d w => dict_set (wd_day w) (wd_total_hours w) d)
                         wds d1) =
    dict_keys (fold_left (fun d w => dict_set (wd_day w) (wd_start_hr w) d)
                         wds d2).
Proof.
  induction wds as [|w wds IH]; intros d1 d2 Hk; simpl; [assumption|].
  apply IH. rewrite !dict_keys_set, (dict_mem_keys _ d1 d2 Hk), Hk.
  reflexivity.
Qed.

Lemma working_days_fresh {V : Type} (f : working_day -> V)
  (wds : list working_day) :
  forall d : dict string V,
    NoDup (dict_keys d ++ map wd_day wds) ->
    fold_left (fun d w => dict_set (wd_day w) (f w) d) wds d =
    (d ++ map (fun w => (wd_day w, f w)) wds)%list.
Proof.
  induction wds as [|w wds IH]; intros d Hnd; simpl.
  - now rewrite app_nil_r.
  - rewrite dict_set_fresh.
    + rewrite IH.
      * now rewrite <- app_assoc.
      * unfold dict_keys in *. rewrite map_app, <- app_assoc. exact Hnd.
    + apply NoDup_remove_2 in Hnd. intros Hin. apply Hnd.
      apply in_or_app. now left.
Qed.

(** What [get_time_slots] returns on the dictionaries of the working days:
    the slots of the days one after the other, numbered from 0. *)
Lemma time_slots_spec (wds : list working_day) :
  exists T,
    time_slots_of wds = Some T
    /\ slot_names T = flat_map block_names (calendar wds)
    /\ slot_time T =
         combine (seq 0 (length (slot_names T)))
                 (flat_map block_hours (calendar wds))
    /\ slot_to_day T =
         fold_left (fun d nl => dict_set (fst nl) (snd nl) d)
                   (combine (flat_map block_names (calendar wds))
                            (flat_map block_labels (calendar wds)))
                   [].
Proof.
  unfold time_slots_of, get_time_slots, calendar.
  destruct (day_loop (start_times_of wds) (slot_counts_by_day wds) 0
                     empty_tables eq_refl) as [T (Hf & Hn & Ht & Hd)].
  { intros [day hours] Hin. cbn [fst].
    rewrite <- (dict_mem_keys day (slot_counts_by_day wds)).
    - unfold dict_mem.
      destruct (dict_get day (slot_counts_by_day wds)) eqn:E; [reflexivity|].
      apply dict_get_None in E. exfalso. apply E.
      apply (in_map fst) in Hin. exact Hin.
    - now apply working_days_keys. }
  exists T. rewrite Hf. cbn [option_map snd]. simpl in Hn, Ht, Hd.
  repeat split; try assumption.
  rewrite Ht, Hn. reflexivity.
Qed.

Lemma calendar_distinct_days (wds : list working_day) :
  NoDup (map wd_day wds) ->
  calendar wds =
  map (fun w => (wd_day w, wd_start_hr w, wd_total_hours w)) wds.
Proof.
  intros Hnd. unfold calendar, cal_of, slot_counts_by_day, start_times_of.
  rewrite !working_days_fresh by exact Hnd. simpl. rewrite map_map.
  apply map_ext_in. intros w Hin. cbn [fst snd]. unfold dict_get_or.
  rewrite (dict_get_NoDup (wd_day w) (wd_start_hr w)); [reflexivity| |].
  - unfold dict_keys. now rewrite map_map.
  - apply in_map_iff. now exists w.
Qed.

(** ** Building the model *)

Lemma extend_nil T N st : extend T N st [] = st.
Proof.
  unfold extend. simpl. rewrite !app_nil_r, Nat.add_0_r. now destruct st.
Qed.

Lemma extend_app T N st l1 l2 :
  extend T N (extend T N st l1) l2 = extend T N st (l1 ++ l2).
Proof.
  unfold extend. cbn [b_model b_occs b_start_at b_next].
  rewrite !flat_map_app, map_app, length_app, <- !app_assoc.
  f_equal. lia.
Qed.

(** The loop over the lectures of one course. *)
Lemma add_occurrences T N (c : pcourse) (n : nat) :
  forall k0 st,
    fold_left (add_occurrence c (allowed_vals T N c)) (seq k0 n) st =
    extend T N st (map (pair c) (seq (b_next st) n)).
Proof.
  induction n as [|n IH]; intros k0 st.
  - simpl. now rewrite extend_nil.
  - cbn [seq fold_left map]. rewrite IH.
    change (c, b_next st) with ((fun i => (c, i)) (b_next st)).
    change (?x :: ?l) with ([x] ++ l)%list.
    rewrite <- extend_app. f_equal.
    unfold extend, add_occurrence. cbn [flat_map map fst snd length].
    rewrite !app_nil_r. f_equal. lia.
Qed.

(** The loop over the courses: the message of the first offending course,
    or the state extended by every occurrence. *)
Lemma build_courses_spec T N (cs : list pcourse) :
  forall st,
    build_courses T N cs st =
    match find (offending T N) cs with
    | Some c => inl (no_slots_message c)
    | None => inr (extend T N st (expand cs (b_next st)))
    end.
Proof.
  induction cs as [|c cs IH]; intros st.
  - simpl. now rewrite extend_nil.
  - cbn [build_courses find expand]. unfold add_course.
    fold (offending T N c). destruct (offending T N c); [reflexivity|].
    rewrite IH, (add_occurrences T N c _ 0 st).
    destruct (find (offending T N) cs); [reflexivity|].
    rewrite extend_app. cbn [extend b_next]. now rewrite length_map, length_seq.
Qed.

Lemma expand_ids (cs : list pcourse) :
  forall next, map snd (expand cs next) = seq next (length (expand cs next)).
Proof.
  induction cs as [|c cs IH]; intros next; [reflexivity|].
  cbn [expand]. rewrite map_app, length_app, seq_app, IH, map_map.
  cbn [snd]. rewrite map_id, length_map, length_seq. reflexivity.
Qed.

Lemma expand_course (cs : list pcourse) :
  forall next c i, In (c, i) (expand cs next) -> In c cs.
Proof.
  induction cs as [|c0 cs IH]; intros next c i; [contradiction|].
  cbn [expand]. rewrite in_app_iff, in_map_iff.
  intros [(j & [= -> ->] & _)|Hin]; [now left | right; eauto].
Qed.

(** C5.  The Calendar Builder never labels a slot with hour 12, every day
    contributes exactly its declared number of slots (from noon on its
    hours sit one later), and the slots are numbered 0, 1, 2, ... across
    the days in their order.  [calendar wds] lists the days as the builder
    visits them; they are the declared days when the day names are
    pairwise distinct. *)
Theorem calendar_skips_noon_and_keeps_counts (wds : list working_day) :
  exists T,
    time_slots_of wds = Some T
    /\ slot_names T = flat_map block_names (calendar wds)
    /\ slot_time T =
         combine (seq 0 (length (slot_names T)))
                 (flat_map block_hours (calendar wds))
    /\ (forall i h, hour_at T i = Some h -> h <> 12%Z)
    /\ (forall d, In d (calendar wds) ->
          length (block_names d) = snd d
          /\ block_hours d = map (slot_hour (snd (fst d))) (seq 0 (snd d))
          /\ ~ In 12%Z (block_hours d))
    /\ length (slot_names T) = list_sum (map snd (calendar wds))
    /\ (NoDup (map wd_day wds) ->
        calendar wds =
        map (fun w => (wd_day w, wd_start_hr w, wd_total_hours w)) wds).
Proof.
  destruct (time_slots_spec wds) as [T (Hs & Hn & Ht & _)].
  assert (Hnoon : forall d, ~ In 12%Z (block_hours d)).
  { intros d Hin. unfold block_hours in Hin. apply in_map_iff in Hin.
    destruct Hin as (j & Hj & _). now apply slot_hour_not_noon in Hj. }
  exists T. repeat split; try assumption.
  - intros i h Hh. unfold hour_at in Hh. apply dict_get_In in Hh.
    rewrite Ht in Hh. apply in_combine_r in Hh.
    apply in_flat_map in Hh. destruct Hh as (d & _ & Hin).
    intros ->. now apply (Hnoon d).
  - apply block_names_length.
  - apply Hnoon.
  - rewrite Hn, length_flat_map. f_equal. apply map_ext.
    intros d. apply block_names_length.
  - apply calendar_distinct_days.
Qed.

Lemma calendar_skips_noon_and_keeps_counts_witness :
  NoDup (map wd_day sample_week)
  /\ calendar sample_week = [("Monday", 9%Z, 8%nat); ("Tuesday", 12%Z, 2%nat)].
Proof.
  assert (Hnd : NoDup (map wd_day sample_week)).
  { repeat constructor; simpl; intuition discriminate. }
  split; [exact Hnd|].
  destruct (calendar_skips_noon_and_keeps_counts sample_week)
    as (T & _ & _ & _ & _ & _ & _ & Hcal).
  rewrite (Hcal Hnd). reflexivity.
Defined.

(** ** The domain calculator *)

Lemma option_eqb_eq (a b : option string) : option_eqb a b = true <-> a = b.
Proof.
  destruct a as [x|], b as [y|]; simpl; try (split; congruence).
  rewrite String.eqb_eq. split; congruence.
Qed.

Lemma start_allowed_spec T N (c : pcourse) (s : nat) :
  (1 <= pc_duration c)%nat ->
  start_allowed T N c s = true <->
  (s + pc_duration c - 1 < N)%nat
  /\ day_label T (Z.of_nat s) = day_label T (Z.of_nat (s + pc_duration c - 1))
  /\ (forall t, (s <= t <= s + pc_duration c - 1)%nat ->
        exists h, hour_at T t = Some h
                  /\ (pc_start_hr c <= h < pc_end_hr c)%Z).
Proof.
  intros Hd. unfold start_allowed.
  replace (Z.of_nat s + Z.of_nat (pc_duration c) - 1)%Z
    with (Z.of_nat (s + pc_duration c - 1)) by lia.
  set (e := (s + pc_duration c - 1)%nat).
  rewrite Z.geb_leb.
  destruct (Z.leb_spec (Z.of_nat N) (Z.of_nat e)) as [Hge|Hlt].
  { split; [discriminate | intros (Hlt & _); lia]. }
  destruct (option_eqb (day_label T (Z.of_nat s)) (day_label T (Z.of_nat e)))
    eqn:Hday; cbn [negb].
  2:{ split; [discriminate|]. intros (_ & Heq & _).
      apply option_eqb_eq in Heq. congruence. }
  apply option_eqb_eq in Hday. rewrite forallb_forall.
  unfold py_range.
  replace (Z.to_nat (Z.of_nat e + 1 - Z.of_nat s)) with (pc_duration c)
    by (subst e; lia).
  split.
  - intros Hall. split; [lia|]. split; [assumption|].
    intros t Ht. specialize (Hall t). rewrite in_seq in Hall.
    destruct (hour_at T t) as [h|]; [|discriminate Hall; subst e; lia].
    exists h. split; [reflexivity|].
    assert (Hb : negb ((h <? pc_start_hr c)%Z || (h >=? pc_end_hr c)%Z) = true)
      by (apply Hall; subst e; lia).
    rewrite Z.geb_leb in Hb.
    destruct (Z.ltb_spec h (pc_start_hr c)), (Z.leb_spec (pc_end_hr c) h);
      simpl in Hb; try discriminate; lia.
  - intros (_ & _ & Hall) t Ht. rewrite in_seq in Ht.
    destruct (Hall t) as (h & -> & Hh); [subst e; lia|].
    rewrite Z.geb_leb.
    destruct (Z.ltb_spec h (pc_start_hr c)), (Z.leb_spec (pc_end_hr c) h);
      simpl; try reflexivity; lia.
Qed.

Lemma allowed_vals_spec T N (c : pcourse) (s : nat) :
  (1 <= pc_duration c)%nat ->
  In s (allowed_vals T N c) <->
  (s + pc_duration c - 1 < N)%nat
  /\ day_label T (Z.of_nat s) = day_label T (Z.of_nat (s + pc_duration c - 1))
  /\ (forall t, (s <= t <= s + pc_duration c - 1)%nat ->
        exists h, hour_at T t = Some h
                  /\ (pc_start_hr c <= h < pc_end_hr c)%Z).
Proof.
  intros Hd. unfold allowed_vals.
  rewrite filter_In, in_seq, (start_allowed_spec T N c s Hd).
  split; [tauto|]. intros H. split; [lia | exact H].
Qed.

Lemma process_course_window (teachers : teachers_t) (c0 : course) :
  pc_start_hr (process_course teachers c0) = teacher_start teachers (c_teacher c0)
  /\ pc_end_hr (process_course teachers c0) = teacher_end teachers (c_teacher c0).
Proof.
  unfold process_course, teacher_start, teacher_end, dict_get_or. simpl.
  destruct (dict_get (c_teacher c0) teachers); auto.
Qed.

Lemma free_courses_shape sections reqs N (c : pcourse) :
  In c (free_courses sections reqs N) ->
  exists year section_name,
    In year YEARS
    /\ In section_name (dict_keys (year_sections sections year))
    /\ (dict_get_or (section_key year section_name) 0 reqs < N)%nat
    /\ c = free_course year section_name
             (N - dict_get_or (section_key year section_name) 0 reqs).
Proof.
  unfold free_courses. rewrite in_flat_map. intros (year & Hy & Hin).
  rewrite in_flat_map in Hin. destruct Hin as (sn & Hs & Hin).
  unfold free_for in Hin.
  destruct (Nat.ltb_spec (dict_get_or (section_key year sn) 0 reqs) N);
    [|contradiction].
  destruct Hin as [<-|[]]. exists year, sn. auto.
Qed.

(** The courses the model is built from: declared ones, whose window is the
    teacher's, and free periods, whose window is the whole clock. *)
Lemma all_courses_window teachers sections courses allow_free N c :
  In c (all_courses teachers sections courses allow_free N) ->
  (exists c0, In c0 courses /\ c = process_course teachers c0
              /\ pc_start_hr c = teacher_start teachers (pc_teacher c)
              /\ pc_end_hr c = teacher_end teachers (pc_teacher c))
  \/ (allow_free = true
      /\ (exists year section_name k, c = free_course year section_name k)
      /\ pc_start_hr c = 0%Z /\ pc_end_hr c = 24%Z).
Proof.
  unfold all_courses, processed_courses. intros Hin.
  assert (Huser : In c (map (process_course teachers) courses) ->
                  exists c0, In c0 courses /\ c = process_course teachers c0
                    /\ pc_start_hr c = teacher_start teachers (pc_teacher c)
                    /\ pc_end_hr c = teacher_end teachers (pc_teacher c)).
  { rewrite in_map_iff. intros (c0 & <- & Hc0). exists c0.
    destruct (process_course_window teachers c0). auto. }
  destruct allow_free.
  - apply in_app_or in Hin. destruct Hin as [Hin|Hin]; [left; auto|].
    right. apply free_courses_shape in Hin.
    destruct Hin as (y & sn & _ & _ & _ & ->). split; [reflexivity|].
    split; [eauto | split; reflexivity].
  - left. auto.
Qed.

(** The state on which the solver is called, when no course is rejected. *)
Lemma build_inr T teachers sections courses allow_free st :
  build T teachers sections courses allow_free = inr st ->
  let N := length (slot_names T) in
  let cs := all_courses teachers sections courses allow_free N in
  find (offending T N) cs = None
  /\ st = extend T N empty_build (expand cs 0).
Proof.
  unfold build. rewrite build_courses_spec. cbn [b_next empty_build].
  destruct (find _ _); [discriminate|]. intros [= <-]. auto.
Qed.

(** C6, as the code has it.  The domain computed for an occurrence of duration [d >= 1]: [s]
    belongs to it exactly when [s + d - 1] is a slot index, the slots [s]
    and [s + d - 1] carry the same day label, and every slot from [s] to
    [s + d - 1] has a clock hour inside the window of the occurrence: the
    teacher's window [teacher_start, teacher_end) for a declared course,
    the whole clock [0, 24) for a free period. *)
Theorem domain_characterisation T teachers sections courses allow_free st o :
  build T teachers sections courses allow_free = inr st ->
  In o (b_occs st) ->
  (1 <= occ_duration o)%nat ->
  let N := length (slot_names T) in
  let d := occ_duration o in
  exists vals lo hi,
    In (VarDomain (occ_id o) vals) (b_model st)
    /\ ((lo = teacher_start teachers (occ_teacher o)
         /\ hi = teacher_end teachers (occ_teacher o)
         /\ exists c0, In c0 courses
                       /\ o = mk_occ (process_course teachers c0) (occ_id o))
        \/ (lo = 0%Z /\ hi = 24%Z /\ allow_free = true
            /\ exists year section_name k,
                 o = mk_occ (free_course year section_name k) (occ_id o)))
    /\ forall s,
         In s vals <->
         (s + d - 1 < N)%nat
         /\ day_label T (Z.of_nat s) = day_label T (Z.of_nat (s + d - 1))
         /\ (forall t, (s <= t <= s + d - 1)%nat ->
               exists h, hour_at T t = Some h /\ (lo <= h < hi)%Z).
Proof.
  intros Hb Ho Hd N d. apply build_inr in Hb. destruct Hb as (_ & ->).
  cbn [extend b_occs b_model empty_build app] in *.
  apply in_map_iff in Ho. destruct Ho as ([c i] & <- & Hin).
  cbn [fst snd mk_occ occ_id occ_duration occ_teacher] in *.
  exists (allowed_vals T N c), (pc_start_hr c), (pc_end_hr c).
  split; [|split].
  - apply in_flat_map. exists (c, i). split; [exact Hin|]. now left.
  - apply expand_course in Hin. apply all_courses_window in Hin.
    destruct Hin as [(c0 & Hc0 & -> & Hs & He)|(Hf & (y & sn & k & ->) & Hs & He)].
    + left. split; [exact Hs|]. split; [exact He|]. now exists c0.
    + right. repeat split; try assumption. now exists y, sn, k.
  - intros s. now apply allowed_vals_spec.
Qed.

Lemma domain_characterisation_witness :
  exists vals lo hi,
    In (VarDomain 0 vals) (b_model sample_build)
    /\ ((lo = teacher_start sample_teachers "T1"
         /\ hi = teacher_end sample_teachers "T1"
         /\ exists c0, In c0 [sample_course]
                       /\ sample_occ = mk_occ (process_course sample_teachers c0) 0)
        \/ (lo = 0%Z /\ hi = 24%Z /\ true = true
            /\ exists year section_name k,
                 sample_occ = mk_occ (free_course year section_name k) 0))
    /\ forall s,
         In s vals <->
         (s + 2 - 1 < 10)%nat
         /\ day_label sample_tables (Z.of_nat s)
            = day_label sample_tables (Z.of_nat (s + 2 - 1))
         /\ (forall t, (s <= t <= s + 2 - 1)%nat ->
               exists h, hour_at sample_tables t = Some h /\ (lo <= h < hi)%Z).
Proof.
  apply (domain_characterisation sample_tables sample_teachers sample_sections
           [sample_course] true sample_build sample_occ).
  - vm_compute. reflexivity.
  - vm_compute. left. reflexivity.
  - vm_compute. lia.
Defined.

(** C6, as stated, fails in two places.  The window of a free period is
    [0, 24), not unrestricted: on an evening of twelve slots from hour 20
    on, slot 4 is a slot index, a slot of the same day, its hour is 24,
    and it is not in the domain of the free periods.  And for a duration
    of 0 the domain holds slot 0 although [s + d - 1] is then -1, no slot
    index: the code reads the label of the last slot there. *)
Lemma domain_outside_the_claim :
  build evening_tables evening_teachers year1_only [one_lecture] true
  = inr evening_build
  /\ In (mk_occ (free_course "Year1" "A" 11) 1) (b_occs evening_build)
  /\ In (VarDomain 1 [0; 1; 2; 3]%nat) (b_model evening_build)
  /\ (4 + 1 - 1 < length (slot_names evening_tables))%nat
  /\ day_label evening_tables 4 = day_label evening_tables (4 + 1 - 1)
  /\ hour_at evening_tables 4 = Some 24%Z
  /\ ~ In 4%nat [0; 1; 2; 3]%nat
  /\ build one_slot_tables sample_teachers year1_only [zero_course] false
     = inr zero_build
  /\ b_occs zero_build
     = [mk_occ (process_course sample_teachers zero_course) 0]
  /\ occ_duration (mk_occ (process_course sample_teachers zero_course) 0)
     = 0%nat
  /\ In (VarDomain 0 [0%nat]) (b_model zero_build)
  /\ ~ (0 <= 0 + 0 - 1)%Z.
Proof.
  repeat split;
    first [ vm_compute; reflexivity
          | vm_compute; tauto
          | vm_compute; lia
          | cbn [In]; lia ].
Qed.

(** ** Failures *)

Lemma find_app {A : Type} (f : A -> bool) (l1 l2 : list A) :
  find f (l1 ++ l2) =
  match find f l1 with Some x => Some x | None => find f l2 end.
Proof.
  induction l1 as [|x l1 IH]; simpl; [reflexivity|].
  now destruct (f x).
Qed.

Lemma find_exists {A : Type} (f : A -> bool) (l : list A) (x : A) :
  In x l -> f x = true -> exists y, find f l = Some y.
Proof.
  intros Hin Hf. destruct (find f l) as [y|] eqn:E; [eauto|].
  rewrite (find_none f l E x Hin) in Hf. discriminate.
Qed.

Lemma offending_spec T N c :
  offending T N c = true <->
  allowed_vals T N c = [] /\ (0 < pc_lectures c)%nat.
Proof.
  unfold offending. rewrite andb_true_iff, Nat.ltb_lt.
  destruct (allowed_vals T N c); split; intros []; try discriminate; auto.
Qed.

(** The run up to the call of the solver. *)
Lemma generate_unfold solve wd wds c0 courses teachers sections allow_free
  max_time T :
  time_slots_of (wd :: wds) = Some T ->
  generate_college_timetable_with_sections solve (Some (wd :: wds))
    (c0 :: courses) teachers sections allow_free max_time =
  match build T teachers sections (c0 :: courses) allow_free with
  | inl message => Error message
  | inr st =>
      let result := solve max_time (full_model (length (slot_names T)) st) in
      if negb (has_solution (status result)) then Error no_timetable_message
      else match assemble T sections (value result) (b_occs st) with
           | None => Raise
           | Some r => Schedule r
           end
  end.
Proof.
  intros HT. unfold generate_college_timetable_with_sections.
  now rewrite HT.
Qed.

(** C7, as the code has it.  When some course with at least one lecture
    has an empty domain, the engine returns, whatever the solver would do,
    the error that names subject, year and section of the first such course
    in processing order.  A declared course is named whenever one is at
    fault; when none is, the course named is a free period: the check is
    not waived for idle occurrences. *)
Theorem infeasible_domain_error solve wd wds c0 courses teachers sections
  allow_free max_time T c :
  time_slots_of (wd :: wds) = Some T ->
  let N := length (slot_names T) in
  let cs := all_courses teachers sections (c0 :: courses) allow_free N in
  In c cs ->
  allowed_vals T N c = [] ->
  (0 < pc_lectures c)%nat ->
  exists c',
    find (offending T N) cs = Some c'
    /\ allowed_vals T N c' = [] /\ (0 < pc_lectures c')%nat
    /\ generate_college_timetable_with_sections solve (Some (wd :: wds))
         (c0 :: courses) teachers sections allow_free max_time
       = Error ("No feasible slots for " ++ pc_subject c' ++ " (Year "
                ++ pc_year c' ++ ", Section " ++ pc_section c' ++ ").")
    /\ (In c (processed_courses teachers (c0 :: courses)) ->
        In c' (processed_courses teachers (c0 :: courses)))
    /\ ((forall u, In u (processed_courses teachers (c0 :: courses)) ->
                   offending T N u = false) ->
        allow_free = true
        /\ exists year section_name k, c' = free_course year section_name k).
Proof.
  intros HT N cs Hin Hvals Hlect.
  assert (Hoff : offending T N c = true) by (apply offending_spec; auto).
  destruct (find_exists _ _ _ Hin Hoff) as [c' Hfind].
  exists c'. destruct (find_some _ _ Hfind) as [Hin' Hoff'].
  apply offending_spec in Hoff'. destruct Hoff' as [Hv' Hl'].
  split; [exact Hfind|]. split; [exact Hv'|]. split; [exact Hl'|].
  split; [|split].
  - rewrite (generate_unfold _ _ _ _ _ _ _ _ _ T HT). unfold build.
    rewrite build_courses_spec. fold N. fold cs. rewrite Hfind. reflexivity.
  - intros Hu. subst cs. unfold all_courses in Hfind.
    destruct (find_exists _ _ _ Hu Hoff) as [u Hfu].
    destruct allow_free.
    + rewrite find_app, Hfu in Hfind. injection Hfind as <-.
      now destruct (find_some _ _ Hfu).
    + exact Hin'.
  - intros Hnone. subst cs.
    apply all_courses_window in Hin'.
    destruct Hin' as [(u0 & Hu0 & Hc' & _)|(Hf & Hshape & _)].
    + exfalso.
      assert (Hoff' : offending T N c' = true) by (apply offending_spec; auto).
      rewrite Hnone in Hoff'; [discriminate|].
      rewrite Hc'. unfold processed_courses. now apply in_map.
    + auto.
Qed.

Lemma infeasible_domain_error_witness :
  generate_college_timetable_with_sections (stopped_solver OPTIMAL)
    (Some [three_slot_day]) [long_course] short_teachers sample_sections
    false 30
  = Error "No feasible slots for Math (Year Year1, Section A).".
Proof.
  destruct (infeasible_domain_error (stopped_solver OPTIMAL) three_slot_day []
              long_course [] short_teachers sample_sections false 30%Z
              three_slot_tables (process_course short_teachers long_course))
    as (c' & Hfind & _ & _ & Hgen & _).
  - vm_compute. reflexivity.
  - vm_compute. left. reflexivity.
  - vm_compute. reflexivity.
  - vm_compute. lia.
  - vm_compute in Hfind. injection Hfind as <-. exact Hgen.
Defined.

(** C7, the part the code does not have: a free period with an empty
    domain does raise the error.  The only slot is at hour 24, the declared
    course fits its teacher's window, and the free period of the other
    section has no allowed start. *)
Lemma idle_empty_domain_raises_error :
  (forall u, In u (processed_courses late_teachers [one_lecture]) ->
             allowed_vals late_tables 1 u <> [])
  /\ allowed_vals late_tables 1 (free_course "Year2" "A" 1) = []
  /\ generate_college_timetable_with_sections (stopped_solver OPTIMAL)
       (Some late_week) [one_lecture] late_teachers two_sections true 30
     = Error "No feasible slots for Free (Year Year2, Section A).".
Proof.
  split; [|split].
  - intros u [<-|[]]. vm_compute. discriminate.
  - vm_compute. reflexivity.
  - vm_compute. reflexivity.
Qed.

(** C3, as the code has it.  A solver that stops at the deadline without
    an answer (status [UNKNOWN]) and a solver that proves the model
    infeasible lead to the same error descriptor. *)
Theorem deadline_reported_as_infeasible solve wd wds c0 courses teachers
  sections allow_free max_time T st :
  time_slots_of (wd :: wds) = Some T ->
  build T teachers sections (c0 :: courses) allow_free = inr st ->
  status (solve max_time (full_model (length (slot_names T)) st)) = UNKNOWN
  \/ status (solve max_time (full_model (length (slot_names T)) st))
     = INFEASIBLE ->
  generate_college_timetable_with_sections solve (Some (wd :: wds))
    (c0 :: courses) teachers sections allow_free max_time
  = Error
      "No valid timetable found. Try adjusting constraints or reducing conflicts.".
Proof.
  intros HT Hb Hs.
  rewrite (generate_unfold _ _ _ _ _ _ _ _ _ T HT), Hb. cbv zeta.
  destruct Hs as [-> | ->]; reflexivity.
Qed.

Lemma deadline_reported_as_infeasible_witness :
  generate_college_timetable_with_sections (stopped_solver UNKNOWN)
    (Some one_slot_week) [one_lecture; other_lecture] sample_teachers
    two_sections false 30
  = Error
      "No valid timetable found. Try adjusting constraints or reducing conflicts.".
Proof.
  apply (deadline_reported_as_infeasible (stopped_solver UNKNOWN)
           {| wd_day := "Monday"; wd_start_hr := 9; wd_total_hours := 1 |} []
           one_lecture [other_lecture] sample_teachers two_sections false
           30%Z one_slot_tables clash_build).
  - vm_compute. reflexivity.
  - vm_compute. reflexivity.
  - left. reflexivity.
Defined.

(** C3, as stated, fails: on the same input (two lectures of one teacher
    and a single slot, a model without solution) the outcome at the
    deadline and the outcome of a proof of infeasibility are one
    descriptor. *)
Lemma timeout_and_infeasible_same_descriptor :
  generate_college_timetable_with_sections (stopped_solver UNKNOWN)
    (Some one_slot_week) [one_lecture; other_lecture] sample_teachers
    two_sections false 30
  = generate_college_timetable_with_sections (stopped_solver INFEASIBLE)
      (Some one_slot_week) [one_lecture; other_lecture] sample_teachers
      two_sections false 30
  /\ generate_college_timetable_with_sections (stopped_solver UNKNOWN)
       (Some one_slot_week) [one_lecture; other_lecture] sample_teachers
       two_sections false 30
     = Error
         "No valid timetable found. Try adjusting constraints or reducing conflicts.".
Proof. split; vm_compute; reflexivity. Qed.

(** ** Free periods and the teacher constraint *)

Lemma model_sat_In a m c : model_sat a m = true -> In c m -> sat a c = true.
Proof. unfold model_sat. rewrite forallb_forall. auto. Qed.

Lemma checked_solver_sound a : solver_sound (checked_solver a).
Proof.
  intros mt m. unfold checked_solver. cbn [status value].
  destruct (model_sat a m); [reflexivity | discriminate].
Qed.

(** C4 fails on the code.  One Monday slot, one lecture for Year1/A, and
    the default section of the three other years: without free periods the
    model has a solution; with them it has none, because the free periods
    of Year2/A and Year3/A share the teacher name ["None"] and the teacher
    constraint forbids them the same slot. *)
Theorem free_periods_exclude_each_other :
  time_slots_of one_slot_week = Some one_slot_tables
  /\ build one_slot_tables sample_teachers year1_only [one_lecture] false
     = inr plain_build
  /\ build one_slot_tables sample_teachers year1_only [one_lecture] true
     = inr padded_build
  /\ model_sat (fun _ => 0%nat) (full_model 1 plain_build) = true
  /\ (forall a, model_sat a (full_model 1 padded_build) = false)
  /\ map (fun o => (occ_id o, occ_subject o, occ_year o, occ_section o,
                    occ_teacher o))
         (b_occs padded_build)
     = [(0%nat, "Math", "Year1", "A", "T1");
        (1%nat, "Free", "Year2", "A", "None");
        (2%nat, "Free", "Year3", "A", "None");
        (3%nat, "Free", "Year4", "A", "None")]
  /\ In (AtMostOne 1 0 2 0) (full_model 1 padded_build)
  /\ (forall solve, solver_sound solve ->
        generate_college_timetable_with_sections solve (Some one_slot_week)
          [one_lecture] sample_teachers year1_only true 30
        = Error no_timetable_message)
  /\ generate_college_timetable_with_sections
       (checked_solver (fun _ => 0%nat)) (Some one_slot_week) [one_lecture]
       sample_teachers year1_only false 30
     = Schedule
         [("Year1",
           [("A",
             [("monday",
               [{| e_slot := "M1"; e_subject := "Math"; e_teacher := "T1";
                   e_section := "A"; e_room := "R1"; e_start_hr := 9;
                   e_end_hr := 10 |}]);
              ("tuesday", []); ("wednesday", []); ("thursday", []);
              ("friday", []); ("saturday", []); ("sunday", [])])]);
          ("Year2", [("A", empty_week)]);
          ("Year3", [("A", empty_week)]);
          ("Year4", [("A", empty_week)])].
Proof.
  assert (Hunsat : forall a, model_sat a (full_model 1 padded_build) = false).
  { intros a. destruct (model_sat a (full_model 1 padded_build)) eqn:Hsat;
      [exfalso | reflexivity].
    assert (H1 : sat a (VarDomain 1 [0%nat]) = true)
      by (apply (model_sat_In _ _ _ Hsat); vm_compute; tauto).
    assert (H2 : sat a (VarDomain 2 [0%nat]) = true)
      by (apply (model_sat_In _ _ _ Hsat); vm_compute; tauto).
    assert (H12 : sat a (AtMostOne 1 0 2 0) = true)
      by (apply (model_sat_In _ _ _ Hsat); vm_compute; tauto).
    cbn [sat existsb] in H1, H2, H12.
    rewrite orb_false_r in H1, H2. rewrite H1, H2 in H12. discriminate. }
  repeat split; try (vm_compute; reflexivity); try exact Hunsat.
  - vm_compute. tauto.
  - intros solve Hsound.
    assert (HT : time_slots_of one_slot_week = Some one_slot_tables)
      by (vm_compute; reflexivity).
    unfold one_slot_week in *.
    rewrite (generate_unfold _ _ _ _ _ _ _ _ _ one_slot_tables HT).
    change (build one_slot_tables sample_teachers year1_only [one_lecture] true)
      with (@inr string _ padded_build).
    cbv zeta.
    destruct (has_solution (status (solve 30%Z
                (full_model (length (slot_names one_slot_tables))
                            padded_build)))) eqn:Hs;
      [|rewrite Hs; reflexivity].
    apply Hsound in Hs. change (length (slot_names one_slot_tables)) with 1%nat in Hs.
    rewrite Hunsat in Hs. discriminate.
Qed.

Lemma free_periods_exclude_each_other_witness :
  generate_college_timetable_with_sections (checked_solver (fun _ => 0%nat))
    (Some one_slot_week) [one_lecture] sample_teachers year1_only true 30
  = Error no_timetable_message.
Proof.
  destruct free_periods_exclude_each_other
    as (_ & _ & _ & _ & _ & _ & _ & Hpad & _).
  apply Hpad. apply checked_solver_sound.
Defined.

(** ** The result assembler *)

Lemma dict_get_fold_set {V : Type} (v : V) (ks : list string) :
  forall (d : dict string V) (k : string),
    dict_get k (fold_left (fun d k' => dict_set k' v d) ks d) =
    if existsb (String.eqb k) ks then Some v else dict_get k d.
Proof.
  induction ks as [|k0 ks IH]; intros d k; simpl; [reflexivity|].
  rewrite IH. destruct (existsb (String.eqb k) ks).
  - now rewrite orb_true_r.
  - rewrite orb_false_r. destruct (String.eqb_spec k k0) as [->|Hne].
    + apply dict_get_set_same.
    + now apply dict_get_set_other.
Qed.

Lemma dict_get_map_values {V W : Type} (f : V -> W) (k : string)
  (d : dict string V) :
  dict_get k (map_values f d) = option_map f (dict_get k d).
Proof.
  unfold map_values. induction d as [|[k' v] d IH]; simpl; [reflexivity|].
  destruct (String.eqb k k'); [reflexivity | exact IH].
Qed.

Lemma dict_keys_set_present {V : Type} (k : string) (v v' : V)
  (d : dict string V) :
  dict_get k d = Some v -> dict_keys (dict_set k v' d) = dict_keys d.
Proof.
  intros Hg. rewrite dict_keys_set. unfold dict_mem. now rewrite Hg.
Qed.

Lemma existsb_eqb_In (k : string) (ks : list string) :
  existsb (String.eqb k) ks = true <-> In k ks.
Proof.
  rewrite existsb_exists. split.
  - intros (x & Hin & Heq). apply String.eqb_eq in Heq. now subst.
  - intros Hin. exists k. split; [assumption | apply String.eqb_refl].
Qed.

Lemma dict_mem_existsb {V : Type} (k : string) (d : dict string V) :
  dict_mem k d = existsb (String.eqb k) (dict_keys d).
Proof.
  unfold dict_mem. induction d as [|[k' v] d IH]; simpl; [reflexivity|].
  destruct (String.eqb k k'); [reflexivity | exact IH].
Qed.

Lemma dict_get_const {A V : Type} (f : A -> string) (v : V) (k : string)
  (l : list A) :
  dict_get k (map (fun a => (f a, v)) l) =
  if existsb (String.eqb k) (map f l) then Some v else None.
Proof.
  induction l as [|a l IH]; simpl; [reflexivity|].
  destruct (String.eqb k (f a)); [reflexivity | exact IH].
Qed.

(** The inner loop of the initialisation, for one year. *)
Lemma init_year_get (sections : sections_t) (year : string) (r : response)
  (y : string) :
  dict_get y (init_year sections r year) =
  if String.eqb y year
  then Some (fold_left (fun secs sn => dict_set sn empty_week secs)
                       (dict_keys (year_sections sections year)) [])
  else dict_get y r.
Proof.
  unfold init_year.
  set (ks := dict_keys (year_sections sections year)).
  assert (Hgen : forall r0 secs0,
             dict_get year r0 = Some secs0 ->
             dict_get y
               (fold_left
                  (fun r sn =>
                     dict_set year
                       (dict_set sn empty_week (dict_get_or year [] r)) r)
                  ks r0) =
             if String.eqb y year
             then Some (fold_left (fun secs sn => dict_set sn empty_week secs)
                                  ks secs0)
             else dict_get y r0).
  { induction ks as [|sn ks IH]; intros r0 secs0 Hg; simpl.
    - destruct (String.eqb_spec y year) as [->|]; [exact Hg | reflexivity].
    - rewrite (IH _ (dict_set sn empty_week secs0)).
      + destruct (String.eqb_spec y year) as [->|Hne]; [reflexivity|].
        now apply dict_get_set_other.
      + unfold dict_get_or. rewrite Hg. apply dict_get_set_same. }
  rewrite (Hgen _ []) by apply dict_get_set_same.
  destruct (String.eqb_spec y year) as [->|Hne]; [reflexivity|].
  now apply dict_get_set_other.
Qed.

Lemma init_response_get (sections : sections_t) (y : string) :
  dict_get y (init_response sections) =
  if existsb (String.eqb y) YEARS
  then Some (fold_left (fun secs sn => dict_set sn empty_week secs)
                       (dict_keys (year_sections sections y)) [])
  else None.
Proof.
  unfold init_response, YEARS. cbn [fold_left existsb].
  rewrite !init_year_get. cbn [dict_get].
  destruct (String.eqb_spec y "Year4") as [->|]; [reflexivity|].
  destruct (String.eqb_spec y "Year3") as [->|]; [reflexivity|].
  destruct (String.eqb_spec y "Year2") as [->|]; [reflexivity|].
  destruct (String.eqb_spec y "Year1") as [->|]; reflexivity.
Qed.

Lemma init_bucket (sections : sections_t) (y s d : string) :
  bucket (init_response sections) y s d =
  if existsb (String.eqb y) YEARS
     && dict_mem s (year_sections sections y)
     && existsb (String.eqb d) week_keys
  then Some [] else None.
Proof.
  unfold bucket. rewrite init_response_get.
  destruct (existsb (String.eqb y) YEARS); [|reflexivity].
  rewrite dict_get_fold_set, <- dict_mem_existsb. cbn [andb dict_get].
  destruct (dict_mem s (year_sections sections y)); [|reflexivity].
  cbn [andb]. unfold empty_week, week_keys. apply dict_get_const.
Qed.

Lemma init_resp_inv (sections : sections_t) :
  resp_inv sections (init_response sections).
Proof.
  intros y. rewrite init_response_get.
  destruct (existsb (String.eqb y) YEARS) eqn:Hy.
  - apply existsb_eqb_In in Hy. split; [exact Hy|]. intros s.
    rewrite dict_get_fold_set, <- dict_mem_existsb. cbn [dict_get].
    destruct (dict_mem s (year_sections sections y)); auto.
  - intros Hin. apply existsb_eqb_In in Hin. congruence.
Qed.

Lemma option_map_app_nil {A : Type} (x : option (list A)) :
  option_map (fun b => (b ++ [])%list) x = x.
Proof. destruct x; simpl; [now rewrite app_nil_r | reflexivity]. Qed.

Lemma hits_one T sections val y s d o :
  hits T sections val y s d [o] =
  match placed T sections val o with
  | Some (day, e) =>
      if String.eqb (occ_year o) y && String.eqb (occ_section o) s
         && String.eqb day d
      then [e] else []
  | None => []
  end.
Proof.
  unfold hits. cbn [flat_map]. rewrite app_nil_r. reflexivity.
Qed.

Lemma hits_app T sections val y s d l1 l2 :
  hits T sections val y s d (l1 ++ l2) =
  (hits T sections val y s d l1 ++ hits T sections val y s d l2)%list.
Proof. unfold hits. apply flat_map_app. Qed.

(** One occurrence: the keys of the response stay, and every day's list
    grows by the entries that the occurrence contributes to it. *)
Lemma add_entry_step T sections val r o r' :
  add_entry T sections val (Some r) o = Some r' ->
  resp_inv sections r ->
  resp_inv sections r'
  /\ forall y s d,
       bucket r' y s d =
       option_map (fun b => (b ++ hits T sections val y s d [o])%list)
                  (bucket r y s d).
Proof.
  intros Hadd Hinv. unfold add_entry in Hadd.
  assert (Hsame : forall y s d,
             (occ_year o = y -> occ_section o = s -> bucket r y s d = None) ->
             bucket r y s d =
             option_map (fun b => (b ++ hits T sections val y s d [o])%list)
                        (bucket r y s d)).
  { intros y s d Hnone. rewrite hits_one.
    destruct (placed T sections val o) as [[day e]|]; cbv iota;
      [|now rewrite option_map_app_nil].
    destruct (String.eqb_spec (occ_year o) y) as [Hy|]; cbn [andb];
      [|now rewrite option_map_app_nil].
    destruct (String.eqb_spec (occ_section o) s) as [Hs|]; cbn [andb];
      [|now rewrite option_map_app_nil].
    now rewrite (Hnone Hy Hs). }
  destruct (placed T sections val o) as [[day e]|] eqn:Hp; [|discriminate].
  destruct (dict_get (occ_year o) r) as [secs|] eqn:Hy.
  2:{ injection Hadd as <-. split; [exact Hinv|]. intros y s d.
      apply Hsame. intros <- _. unfold bucket. now rewrite Hy. }
  destruct (dict_get (occ_section o) secs) as [days|] eqn:Hs.
  2:{ injection Hadd as <-. split; [exact Hinv|]. intros y s d.
      apply Hsame. intros <- <-. unfold bucket. now rewrite Hy, Hs. }
  destruct (dict_get day days) as [bk|] eqn:Hd; [|discriminate].
  injection Hadd as <-. split.
  - intros y. destruct (String.eqb_spec y (occ_year o)) as [->|Hne].
    + rewrite dict_get_set_same. specialize (Hinv (occ_year o)).
      rewrite Hy in Hinv. destruct Hinv as [Hin Hsec]. split; [exact Hin|].
      intros s. destruct (String.eqb_spec s (occ_section o)) as [->|Hne].
      * rewrite dict_get_set_same. specialize (Hsec (occ_section o)).
        rewrite Hs in Hsec. destruct Hsec as [Hm Hk]. split; [exact Hm|].
        now rewrite (dict_keys_set_present _ bk).
      * rewrite dict_get_set_other by exact Hne. apply Hsec.
    + rewrite dict_get_set_other by exact Hne. apply Hinv.
  - intros y s d. rewrite hits_one, Hp. unfold bucket.
    destruct (String.eqb_spec (occ_year o) y) as [<-|Hne].
    2:{ rewrite dict_get_set_other by congruence. cbn [andb].
        apply eq_sym, option_map_app_nil. }
    rewrite dict_get_set_same, Hy.
    destruct (String.eqb_spec (occ_section o) s) as [<-|Hne].
    2:{ rewrite dict_get_set_other by congruence. cbn [andb].
        destruct (dict_get s secs); [|reflexivity].
        apply eq_sym, option_map_app_nil. }
    rewrite dict_get_set_same, Hs. cbn [andb].
    destruct (String.eqb_spec day d) as [<-|Hne].
    + now rewrite dict_get_set_same, Hd.
    + rewrite dict_get_set_other by congruence.
      apply eq_sym, option_map_app_nil.
Qed.

(** The loop over the occurrences. *)
Lemma add_entries T sections val occs :
  forall r r',
    fold_left (add_entry T sections val) occs (Some r) = Some r' ->
    resp_inv sections r ->
    resp_inv sections r'
    /\ forall y s d,
         bucket r' y s d =
         option_map (fun b => (b ++ hits T sections val y s d occs)%list)
                    (bucket r y s d).
Proof.
  induction occs as [|o occs IH]; intros r r' Hfold Hinv.
  - injection Hfold as <-. split; [exact Hinv|]. intros y s d.
    apply eq_sym, option_map_app_nil.
  - cbn [fold_left] in Hfold.
    destruct (add_entry T sections val (Some r) o) as [r1|] eqn:H1.
    2:{ exfalso. clear -Hfold. induction occs; simpl in Hfold;
          [discriminate | auto]. }
    destruct (add_entry_step _ _ _ _ _ _ H1 Hinv) as [Hinv1 Hb1].
    destruct (IH _ _ Hfold Hinv1) as [Hinv' Hb']. split; [exact Hinv'|].
    intros y s d. rewrite Hb', Hb1.
    change (o :: occs) with ([o] ++ occs)%list. rewrite hits_app.
    destruct (bucket r y s d); cbn [option_map];
      [now rewrite app_assoc | reflexivity].
Qed.

Lemma sort_response_bucket (r : response) (y s d : string) :
  bucket (sort_response r) y s d =
  option_map (sort_by start_time) (bucket r y s d).
Proof.
  unfold bucket, sort_response, response, day_map in *.
  rewrite dict_get_map_values.
  destruct (dict_get y r) as [secs|]; [|reflexivity]. cbn [option_map].
  rewrite dict_get_map_values.
  destruct (dict_get s secs) as [days|]; [|reflexivity]. cbn [option_map].
  apply dict_get_map_values.
Qed.

Lemma dict_keys_map_values {V W : Type} (f : V -> W) (d : dict string V) :
  dict_keys (map_values f d) = dict_keys d.
Proof. unfold dict_keys, map_values. rewrite map_map. reflexivity. Qed.

Lemma sort_response_inv sections (r : response) :
  resp_inv sections r -> resp_inv sections (sort_response r).
Proof.
  intros Hinv y. specialize (Hinv y).
  unfold sort_response, response, day_map in *.
  rewrite dict_get_map_values.
  destruct (dict_get y r) as [secs|]; [|exact Hinv]. cbn [option_map].
  destruct Hinv as [Hy Hsec]. split; [exact Hy|]. intros s.
  specialize (Hsec s). rewrite dict_get_map_values.
  destruct (dict_get s secs) as [days|]; [|exact Hsec]. cbn [option_map].
  destruct Hsec as [Hm Hk]. split; [exact Hm|].
  now rewrite dict_keys_map_values.
Qed.

(** What [assemble] returns: the keys are those of the initial response,
    and every day's list is the sorted list of the entries contributed to
    that day. *)
Lemma assemble_spec T sections val occs r :
  assemble T sections val occs = Some r ->
  resp_inv sections r
  /\ forall y s d,
       bucket r y s d =
       if existsb (String.eqb y) YEARS
          && dict_mem s (year_sections sections y)
          && existsb (String.eqb d) week_keys
       then Some (sort_by start_time (hits T sections val y s d occs))
       else None.
Proof.
  unfold assemble. intros Has.
  destruct (fold_left (add_entry T sections val) occs
                      (Some (init_response sections))) as [r0|] eqn:Hfold;
    [|discriminate].
  injection Has as <-.
  destruct (add_entries _ _ _ _ _ _ Hfold (init_resp_inv sections))
    as [Hinv Hb].
  split; [now apply sort_response_inv|].
  intros y s d. rewrite sort_response_bucket, Hb, init_bucket.
  destruct (_ && _ && _); reflexivity.
Qed.

(** What a returned schedule says about the run. *)
Lemma generate_schedule solve constraints courses teachers sections
  allow_free max_time r :
  generate_college_timetable_with_sections solve constraints courses teachers
    sections allow_free max_time = Schedule r ->
  exists wd wds c0 courses' T st,
    constraints = Some (wd :: wds) /\ courses = c0 :: courses'
    /\ time_slots_of (wd :: wds) = Some T
    /\ build T teachers sections courses allow_free = inr st
    /\ has_solution
         (status (solve max_time (full_model (length (slot_names T)) st)))
       = true
    /\ assemble T sections
         (value (solve max_time (full_model (length (slot_names T)) st)))
         (b_occs st) = Some r.
Proof.
  unfold generate_college_timetable_with_sections.
  destruct constraints as [[|wd wds]|], courses as [|c0 courses'];
    try discriminate.
  destruct (time_slots_of (wd :: wds)) as [T|] eqn:HT; [|discriminate].
  destruct (build T teachers sections (c0 :: courses') allow_free)
    as [msg|st] eqn:Hb; [discriminate|]. cbv zeta.
  destruct (has_solution _) eqn:Hs; cbn [negb]; [|discriminate].
  destruct (assemble _ _ _ _) as [r'|] eqn:Ha; [|discriminate].
  intros [= <-]. exists wd, wds, c0, courses', T, st. auto 10.
Qed.

Lemma fold_add_entry_None T sections val occs :
  fold_left (add_entry T sections val) occs None = None.
Proof. induction occs; simpl; auto. Qed.

Lemma in_response_spec sections o :
  in_response sections o = true <->
  In (occ_year o) YEARS
  /\ dict_mem (occ_section o) (year_sections sections (occ_year o)) = true.
Proof.
  unfold in_response. rewrite andb_true_iff, existsb_eqb_In. reflexivity.
Qed.

(** An occurrence outside the response leaves the response as it is. *)
Lemma add_entry_omitted T sections val r o r' :
  resp_inv sections r ->
  in_response sections o = false ->
  add_entry T sections val (Some r) o = Some r' ->
  r' = r.
Proof.
  intros Hinv Hout. unfold add_entry.
  destruct (placed T sections val o) as [[day e]|]; [|discriminate].
  specialize (Hinv (occ_year o)).
  destruct (dict_get (occ_year o) r) as [secs|]; [|congruence].
  destruct Hinv as [Hy Hsec]. specialize (Hsec (occ_section o)).
  destruct (dict_get (occ_section o) secs) as [days|]; [|congruence].
  destruct Hsec as [Hm _]. exfalso.
  assert (Hin : in_response sections o = true)
    by (apply in_response_spec; auto).
  congruence.
Qed.

Lemma assemble_omitted T sections val occs1 o occs2 r :
  assemble T sections val (occs1 ++ o :: occs2) = Some r ->
  in_response sections o = false ->
  assemble T sections val (occs1 ++ occs2) = Some r.
Proof.
  unfold assemble. rewrite !fold_left_app. cbn [fold_left].
  destruct (fold_left (add_entry T sections val) occs1
                      (Some (init_response sections))) as [r1|] eqn:H1.
  2:{ cbn [add_entry]. now rewrite fold_add_entry_None. }
  destruct (add_entries _ _ _ _ _ _ H1 (init_resp_inv sections)) as [Hinv _].
  destruct (add_entry T sections val (Some r1) o) as [r2|] eqn:H2.
  2:{ now rewrite fold_add_entry_None. }
  intros Has Hout. now rewrite (add_entry_omitted _ _ _ _ _ _ Hinv Hout H2) in Has.
Qed.

Lemma not_in_response sections o :
  ~ In (occ_year o) YEARS
  \/ ~ In (occ_section o) (dict_keys (year_sections sections (occ_year o))) ->
  in_response sections o = false.
Proof.
  intros Hout. destruct (in_response sections o) eqn:E; [|reflexivity].
  apply in_response_spec in E. destruct E as [Hy Hm].
  rewrite dict_mem_existsb in Hm. apply existsb_eqb_In in Hm. tauto.
Qed.

(** C10.  When a solve succeeds, an occurrence whose year is not one of
    Year1..Year4, or whose section is not a key of
    [sections.get(year, {'A': {}})], contributes nothing: the schedule
    returned is the one assembled without it, and it has no list for that
    year and section. *)
Theorem stray_occurrence_is_omitted solve constraints courses teachers
  sections allow_free max_time r :
  generate_college_timetable_with_sections solve constraints courses teachers
    sections allow_free max_time = Schedule r ->
  exists wds T st,
    constraints = Some wds
    /\ time_slots_of wds = Some T
    /\ build T teachers sections courses allow_free = inr st
    /\ forall occs1 o occs2,
         b_occs st = (occs1 ++ o :: occs2)%list ->
         ~ In (occ_year o) YEARS
         \/ ~ In (occ_section o)
                 (dict_keys (year_sections sections (occ_year o))) ->
         assemble T sections
           (value (solve max_time (full_model (length (slot_names T)) st)))
           (occs1 ++ occs2) = Some r
         /\ forall d, bucket r (occ_year o) (occ_section o) d = None.
Proof.
  intros Hgen. apply generate_schedule in Hgen.
  destruct Hgen as (wd & wds & c0 & cs & T & st & -> & -> & HT & Hb & _ & Ha).
  exists (wd :: wds), T, st. split; [reflexivity|]. split; [exact HT|].
  split; [exact Hb|].
  intros occs1 o occs2 Hocc Hout. apply not_in_response in Hout.
  rewrite Hocc in Ha. split.
  - now apply assemble_omitted with (o := o).
  - intros d. destruct (assemble_spec _ _ _ _ _ Ha) as [_ Hbk].
    rewrite Hbk. unfold in_response in Hout. rewrite Hout. reflexivity.
Qed.

Lemma stray_occurrence_is_omitted_witness :
  bucket stray_schedule "Year1" "B" "monday" = None
  /\ assemble one_slot_tables year1_only (fun _ => 0%nat) [] = Some stray_schedule.
Proof.
  destruct (stray_occurrence_is_omitted (checked_solver (fun _ => 0%nat))
              (Some one_slot_week) [stray_lecture] sample_teachers year1_only
              false 30%Z stray_schedule)
    as (wds & T & st & Hc & HT & Hb & H).
  - vm_compute. reflexivity.
  - injection Hc as <-. vm_compute in HT. injection HT as <-.
    vm_compute in Hb. injection Hb as <-.
    destruct (H [] (mk_occ (process_course sample_teachers stray_lecture) 0) [])
      as [Ha Hnone].
    + vm_compute. reflexivity.
    + right. vm_compute. intuition discriminate.
    + split; [apply (Hnone "monday") | exact Ha].
Defined.

(** ** Sorting *)

Lemma string_leb_trans (s1 s2 s3 : string) :
  String.leb s1 s2 = true -> String.leb s2 s3 = true ->
  String.leb s1 s3 = true.
Proof.
  unfold String.leb. revert s2 s3.
  induction s1 as [|a s1 IH]; intros [|b s2] [|c s3]; simpl;
    try reflexivity; try discriminate.
  unfold Ascii.compare.
  destruct (N.compare_spec (N_of_ascii a) (N_of_ascii b)) as [Hab|Hab|Hab],
           (N.compare_spec (N_of_ascii b) (N_of_ascii c)) as [Hbc|Hbc|Hbc],
           (N.compare_spec (N_of_ascii a) (N_of_ascii c)) as [Hac|Hac|Hac];
    try reflexivity; try discriminate; try lia.
  apply IH.
Qed.

Lemma string_leb_false (s1 s2 : string) :
  String.leb s1 s2 = false -> String.leb s2 s1 = true.
Proof.
  intros H. destruct (String.leb_total s1 s2); [congruence | assumption].
Qed.

Section SortBy.
Context {A : Type} (key : A -> string).

Lemma insert_by_perm (x : A) (l : list A) :
  Permutation (insert_by key x l) (x :: l).
Proof.
  induction l as [|y l IH]; simpl; [reflexivity|].
  destruct (String.leb (key x) (key y)); [reflexivity|].
  rewrite IH. apply perm_swap.
Qed.

Lemma sort_by_perm (l : list A) : Permutation (sort_by key l) l.
Proof.
  induction l as [|x l IH]; simpl; [reflexivity|].
  rewrite insert_by_perm. now constructor.
Qed.

Lemma insert_by_sorted (x : A) (l : list A) :
  StronglySorted (key_le key) l -> StronglySorted (key_le key) (insert_by key x l).
Proof.
  induction l as [|y l IH]; intros Hs; simpl.
  - repeat constructor.
  - inversion Hs as [|? ? Hs' Hall]; subst.
    destruct (String.leb (key x) (key y)) eqn:E.
    + constructor; [exact Hs|]. constructor; [exact E|].
      eapply Forall_impl; [|exact Hall]. intros z Hz.
      unfold key_le in *. eapply string_leb_trans; eassumption.
    + constructor; [now apply IH|].
      apply (Permutation_Forall (Permutation_sym (insert_by_perm x l))).
      constructor; [now apply string_leb_false | exact Hall].
Qed.

Lemma sort_by_sorted (l : list A) : StronglySorted (key_le key) (sort_by key l).
Proof.
  induction l as [|x l IH]; simpl; [constructor | now apply insert_by_sorted].
Qed.
End SortBy.

Lemma two_digit_order (a b : Z) :
  (0 <= a < 100)%Z -> (0 <= b < 100)%Z ->
  String.leb (fmt02d a ++ ":00") (fmt02d b ++ ":00") = true ->
  (a <= b)%Z.
Proof.
  intros Ha Hb Hle.
  assert (Hcheck : two_digit_order_check = true) by (vm_compute; reflexivity).
  unfold two_digit_order_check in Hcheck. rewrite forallb_forall in Hcheck.
  specialize (Hcheck (Z.to_nat a)). rewrite forallb_forall in Hcheck.
  specialize (Hcheck ltac:(apply in_seq; lia) (Z.to_nat b)
                     ltac:(apply in_seq; lia)).
  rewrite !Z2Nat.id in Hcheck by lia. rewrite Hle in Hcheck.
  cbn [implb] in Hcheck. apply Nat.leb_le in Hcheck. lia.
Qed.

(** C9, as the code has it.  In a returned schedule the week of every year and section has the
    seven days as its keys, lists without entries included, and every
    day's list is sorted by ['start_time']: in the order of the text
    "HH:00", which is the order of the start hours as long as they have
    two digits. *)
Theorem day_lists_sorted_and_week_complete solve constraints courses teachers
  sections allow_free max_time r :
  generate_college_timetable_with_sections solve constraints courses teachers
    sections allow_free max_time = Schedule r ->
  (forall y secs s days,
      dict_get y r = Some secs -> dict_get s secs = Some days ->
      dict_keys days =
      ["monday"; "tuesday"; "wednesday"; "thursday"; "friday"; "saturday";
       "sunday"])
  /\ (forall y s d b,
        bucket r y s d = Some b ->
        StronglySorted
          (fun e1 e2 => String.leb (start_time e1) (start_time e2) = true) b
        /\ ((forall e, In e b -> (0 <= e_start_hr e < 100)%Z) ->
            StronglySorted (fun e1 e2 => (e_start_hr e1 <= e_start_hr e2)%Z) b)).
Proof.
  intros Hgen. apply generate_schedule in Hgen.
  destruct Hgen as (wd & wds & c0 & cs & T & st & _ & _ & _ & _ & _ & Ha).
  destruct (assemble_spec _ _ _ _ _ Ha) as [Hinv Hbk]. split.
  - intros y secs s days Hy Hs. specialize (Hinv y). rewrite Hy in Hinv.
    destruct Hinv as [_ Hsec]. specialize (Hsec s). rewrite Hs in Hsec.
    destruct Hsec as [_ Hk]. exact Hk.
  - intros y s d b Hb. rewrite Hbk in Hb.
    destruct (_ && _ && _); [|discriminate]. injection Hb as <-.
    set (val := value _).
    assert (Hsorted := sort_by_sorted start_time
                         (hits T sections val y s d (b_occs st))).
    split; [exact Hsorted|]. intros Hrange.
    induction Hsorted as [|e l Hs IH Hall]; constructor.
    + apply IH. intros e' He'. apply Hrange. now right.
    + rewrite Forall_forall in *. intros e' He'.
      apply two_digit_order.
      * apply Hrange. now left.
      * apply Hrange. now right.
      * apply Hall, He'.
Qed.

Lemma day_lists_sorted_and_week_complete_witness :
  StronglySorted (fun e1 e2 => (e_start_hr e1 <= e_start_hr e2)%Z)
                 sample_monday.
Proof.
  destruct (day_lists_sorted_and_week_complete
              (checked_solver sample_values) (Some sample_week)
              [sample_course] sample_teachers sample_sections true 30%Z
              sample_schedule) as [_ H].
  - vm_compute. reflexivity.
  - destruct (H "Year1" "A" "monday" sample_monday) as [_ Hnum].
    + vm_compute. reflexivity.
    + apply Hnum. intros e He. vm_compute in He.
      repeat (destruct He as [<-|He]; [cbn [e_start_hr]; lia|]).
      destruct He.
Defined.

(** C9, as stated, fails: four lectures in the slots of hours 98, 99, 100
    and 101 of one day are listed in the order of the texts "100:00",
    "101:00", "98:00", "99:00", which is not the order of the hours. *)
Lemma three_digit_hours_out_of_order :
  generate_college_timetable_with_sections (checked_solver (fun o => o))
    (Some far_week) [four_lectures] far_teachers year1_only false 30
  = Schedule far_schedule
  /\ option_map (map start_time) (bucket far_schedule "Year1" "A" "monday")
     = Some ["100:00"; "101:00"; "98:00"; "99:00"]
  /\ option_map (map e_start_hr) (bucket far_schedule "Year1" "A" "monday")
     = Some [100; 101; 98; 99]%Z
  /\ ~ (101 <= 98)%Z.
Proof.
  repeat split; try (vm_compute; reflexivity). lia.
Qed.

(** ** The constraint model *)

Lemma pair_mem_In (p : nat * nat) (l : list (nat * nat)) :
  pair_mem p l = true <-> In p l.
Proof.
  unfold pair_mem. rewrite existsb_exists. split.
  - intros ([x y] & Hin & Heq). apply andb_true_iff in Heq.
    destruct Heq as [H1 H2]. apply Nat.eqb_eq in H1, H2. simpl in H1, H2.
    destruct p; simpl in *. now subst.
  - intros Hin. exists p. split; [exact Hin|].
    now rewrite !Nat.eqb_refl.
Qed.

(** [group_by] collects, under each key, the occurrences with that key in
    their order. *)
Lemma group_by_get (key : occ -> string) (occs : list occ) (k : string) :
  dict_get k (group_by key occs) =
  match filter (fun o => String.eqb (key o) k) occs with
  | [] => None
  | l => Some l
  end.
Proof.
  induction occs as [|o occs IH] using rev_ind; [reflexivity|].
  unfold group_by in *. rewrite fold_left_app. cbn [fold_left].
  unfold group_add at 1. rewrite filter_app. cbn [filter].
  destruct (String.eqb_spec (key o) k) as [->|Hne].
  - rewrite dict_get_set_same. unfold dict_get_or. rewrite IH.
    destruct (filter _ occs); reflexivity.
  - rewrite dict_get_set_other by congruence. rewrite IH, app_nil_r.
    reflexivity.
Qed.

Lemma all_pairs_In (f : occ -> occ -> list constraint) (c : constraint)
  (m1 m2 m3 : list occ) (x y : occ) :
  In c (f x y) -> In c (all_pairs f (m1 ++ x :: m2 ++ y :: m3)).
Proof.
  intros Hc. induction m1 as [|z m1 IH]; cbn [app all_pairs].
  - apply in_or_app. left. apply in_flat_map. exists y.
    split; [|exact Hc]. apply in_or_app. right. now left.
  - apply in_or_app. now right.
Qed.

Lemma conflict_pairs_In N start_at o1 o2 s1 s2 :
  (s1 < N)%nat -> (s2 < N)%nat ->
  In (occ_id o1, s1) start_at -> In (occ_id o2, s2) start_at ->
  overlap s1 (occ_duration o1) s2 (occ_duration o2) = true ->
  In (AtMostOne (occ_id o1) s1 (occ_id o2) s2)
     (conflict_pairs N start_at o1 o2).
Proof.
  intros H1 H2 Hin1 Hin2 Hov. unfold conflict_pairs.
  apply in_flat_map. exists s1. split; [apply in_seq; lia|].
  apply pair_mem_In in Hin1, Hin2. rewrite Hin1. cbn [negb].
  apply in_flat_map. exists s2. split; [apply in_seq; lia|].
  rewrite Hin2, Hov. now left.
Qed.

(** The constraints of a grouping forbid every overlap of two occurrences
    of one group. *)
Lemma group_exclusive (a : nat -> nat) (key : occ -> string) N start_at
  (l1 l2 l3 : list occ) (o1 o2 : occ) :
  (forall c,
      In c (group_constraints N start_at
              (group_by key (l1 ++ o1 :: l2 ++ o2 :: l3))) ->
      sat a c = true) ->
  (a (occ_id o1) < N)%nat -> (a (occ_id o2) < N)%nat ->
  In (occ_id o1, a (occ_id o1)) start_at ->
  In (occ_id o2, a (occ_id o2)) start_at ->
  excl a key o1 o2.
Proof.
  intros Hsat H1 H2 Hin1 Hin2 Hkey.
  destruct (overlap _ _ _ _) eqn:Hov; [exfalso | reflexivity].
  set (occs := (l1 ++ o1 :: l2 ++ o2 :: l3)%list) in *.
  set (p := fun o => String.eqb (key o) (key o1)).
  assert (Hp1 : p o1 = true) by apply String.eqb_refl.
  assert (Hp2 : p o2 = true) by (unfold p; rewrite Hkey; apply String.eqb_refl).
  assert (Hf : filter p occs =
               (filter p l1 ++ o1 :: filter p l2 ++ o2 :: filter p l3)%list).
  { subst occs. rewrite filter_app. cbn [filter]. rewrite Hp1, filter_app.
    cbn [filter]. now rewrite Hp2. }
  assert (Hg : dict_get (key o1) (group_by key occs) = Some (filter p occs)).
  { rewrite group_by_get. fold p. rewrite Hf.
    destruct (filter p l1); reflexivity. }
  apply dict_get_In in Hg.
  assert (Hc : sat a (AtMostOne (occ_id o1) (a (occ_id o1))
                               (occ_id o2) (a (occ_id o2))) = true).
  { apply Hsat. unfold group_constraints. apply in_flat_map.
    exists (key o1, filter p occs). split; [exact Hg|]. cbn [snd].
    rewrite Hf, length_app. cbn [length]. rewrite length_app. cbn [length].
    replace (_ <=? 1)%nat with false by (symmetry; apply Nat.leb_gt; lia).
    apply all_pairs_In. now apply conflict_pairs_In. }
  cbn [sat] in Hc. rewrite !Nat.eqb_refl in Hc. discriminate.
Qed.

Lemma ordered_pairs_intro {A : Type} (R : A -> A -> Prop) (l : list A) :
  (forall l1 x l2 y l3, l = (l1 ++ x :: l2 ++ y :: l3)%list -> R x y) ->
  ForallOrdPairs R l.
Proof.
  induction l as [|x l IH]; intros H; constructor.
  - apply Forall_forall. intros y Hy. apply in_split in Hy.
    destruct Hy as (l2 & l3 & ->). now apply (H [] x l2 y l3).
  - apply IH. intros l1 x' l2 y l3 ->. now apply (H (x :: l1) x' l2 y l3).
Qed.

Lemma allowed_vals_bound T N (c : pcourse) (s : nat) :
  In s (allowed_vals T N c) -> (s < N /\ s + pc_duration c <= N)%nat.
Proof.
  unfold allowed_vals. rewrite filter_In, in_seq. intros [Hs Hok].
  split; [lia|]. unfold start_allowed in Hok. rewrite Z.geb_leb in Hok.
  destruct (Z.leb_spec (Z.of_nat N)
              (Z.of_nat s + Z.of_nat (pc_duration c) - 1)); [discriminate|].
  lia.
Qed.

Section Solved.
Variables (T : slot_tables) (N : nat) (items : list (pcourse * nat)).
Variable a : nat -> nat.
Local Abbreviation st := (extend T N empty_build items).
Hypothesis Hsat : model_sat a (full_model N st) = true.

(** Every start value lies in the domain of its occurrence. *)
Lemma solved_in_domain (c : pcourse) (i : nat) :
  In (c, i) items -> In (a i) (allowed_vals T N c).
Proof.
  intros Hin.
  assert (Hc : sat a (VarDomain i (allowed_vals T N c)) = true).
  { apply (model_sat_In _ _ _ Hsat). unfold full_model. apply in_or_app. left.
    cbn [extend b_model empty_build app]. apply in_flat_map.
    exists (c, i). split; [exact Hin | now left]. }
  cbn [sat] in Hc. apply existsb_exists in Hc.
  destruct Hc as (s & Hs & Heq). apply Nat.eqb_eq in Heq. now rewrite Heq.
Qed.

Lemma solved_start_at (c : pcourse) (i : nat) :
  In (c, i) items -> In (i, a i) (b_start_at st).
Proof.
  intros Hin. cbn [extend b_start_at empty_build app].
  apply in_flat_map. exists (c, i). split; [exact Hin|].
  cbn [fst snd]. apply in_map. now apply solved_in_domain.
Qed.

Lemma solved_occ (o : occ) :
  In o (b_occs st) ->
  exists c, In (c, occ_id o) items /\ o = mk_occ c (occ_id o).
Proof.
  cbn [extend b_occs empty_build app]. rewrite in_map_iff.
  intros ([c i] & <- & Hin). exists c. split; [exact Hin | reflexivity].
Qed.

Lemma solved_exclusive_gen (key : occ -> string) :
  (forall c,
      In c (group_constraints N (b_start_at st) (group_by key (b_occs st))) ->
      In c (full_model N st)) ->
  ForallOrdPairs (excl a key) (b_occs st).
Proof.
  intros Hsub. apply ordered_pairs_intro. intros l1 o1 l2 o2 l3 Hocc.
  assert (Hin1 : In o1 (b_occs st))
    by (rewrite Hocc; apply in_or_app; right; now left).
  assert (Hin2 : In o2 (b_occs st)).
  { rewrite Hocc. apply in_or_app. right. right. apply in_or_app. right.
    now left. }
  destruct (solved_occ _ Hin1) as (c1 & Hc1 & _).
  destruct (solved_occ _ Hin2) as (c2 & Hc2 & _).
  apply (group_exclusive a key N (b_start_at st) l1 l2 l3).
  - intros c Hc. apply (model_sat_In _ _ _ Hsat). apply Hsub.
    now rewrite Hocc.
  - apply (allowed_vals_bound T N c1). now apply solved_in_domain.
  - apply (allowed_vals_bound T N c2). now apply solved_in_domain.
  - now apply solved_start_at with (c := c1).
  - now apply solved_start_at with (c := c2).
Qed.

(** No two occurrences of one teacher overlap in slot indices. *)
Lemma solved_teacher_exclusive :
  ForallOrdPairs (excl a occ_teacher) (b_occs st).
Proof.
  apply solved_exclusive_gen. intros c Hc. unfold full_model.
  apply in_or_app. right. apply in_or_app. right. apply in_or_app. now left.
Qed.

(** No two occurrences of one section overlap in slot indices. *)
Lemma solved_section_exclusive :
  ForallOrdPairs (excl a occ_section_key) (b_occs st).
Proof.
  apply solved_exclusive_gen. intros c Hc. unfold full_model.
  apply in_or_app. right. apply in_or_app. right. apply in_or_app. now right.
Qed.
End Solved.

(** ** Slot names and day labels of a weekday calendar *)

Lemma dec_inj (n m : nat) : dec n = dec m -> n = m.
Proof.
  unfold dec. intros H. apply Unsigned.to_uint_inj.
  assert (H' : NilEmpty.uint_of_string
                 (NilEmpty.string_of_uint (Nat.to_uint n)) =
               NilEmpty.uint_of_string
                 (NilEmpty.string_of_uint (Nat.to_uint m)))
    by now rewrite H.
  rewrite !NilEmpty.usu in H'. now injection H'.
Qed.

Lemma to_uint_not_nil (n : nat) : Nat.to_uint n <> Decimal.Nil.
Proof.
  intros H. assert (Hn := Unsigned.of_to n). rewrite H in Hn.
  change (Nat.of_uint Decimal.Nil) with 0%nat in Hn. subst n.
  vm_compute in H. discriminate.
Qed.

Lemma dec_digit_headed (n : nat) : digit_headed (dec n).
Proof.
  unfold dec. assert (Hn := to_uint_not_nil n).
  destruct (Nat.to_uint n); [congruence| | | | | | | | | |]; reflexivity.
Qed.

Lemma append_inj_l (s x y : string) : s ++ x = s ++ y -> x = y.
Proof. induction s; simpl; intros H; [exact H | injection H; auto]. Qed.

Lemma abbrev_append_inj (day1 day2 x1 x2 : string) :
  In day1 WEEK -> In day2 WEEK ->
  digit_headed x1 -> digit_headed x2 ->
  abbrev_of day1 ++ x1 = abbrev_of day2 ++ x2 ->
  day1 = day2 /\ x1 = x2.
Proof.
  intros H1 H2 Hd1 Hd2 Heq.
  destruct x1 as [|c1 s1], x2 as [|c2 s2]; try contradiction.
  cbn [digit_headed] in Hd1, Hd2.
  unfold WEEK in H1, H2. cbn [In] in H1, H2.
  repeat (destruct H1 as [<-|H1]; [|]); try contradiction;
    repeat (destruct H2 as [<-|H2]; [|]); try contradiction;
    vm_compute in Heq; try discriminate;
    injection Heq; intros; subst; try discriminate; auto.
Qed.

Lemma slot_name_inj (day1 day2 : string) (j1 j2 : nat) :
  In day1 WEEK -> In day2 WEEK ->
  slot_name_of (abbrev_of day1) j1 = slot_name_of (abbrev_of day2) j2 ->
  day1 = day2 /\ j1 = j2.
Proof.
  intros H1 H2 Heq. unfold slot_name_of in Heq.
  destruct (abbrev_append_inj _ _ _ _ H1 H2 (dec_digit_headed _)
              (dec_digit_headed _) Heq) as [Hd Hx].
  split; [exact Hd|]. apply dec_inj in Hx. lia.
Qed.

Lemma lower_weekday_inj (day1 day2 : string) :
  In day1 WEEK -> In day2 WEEK -> lower day1 = lower day2 -> day1 = day2.
Proof.
  unfold WEEK. cbn [In]. intros H1 H2 Heq.
  repeat (destruct H1 as [<-|H1]; [|]); try contradiction;
    repeat (destruct H2 as [<-|H2]; [|]); try contradiction;
    vm_compute in Heq; try discriminate; reflexivity.
Qed.

Lemma calendar_days (wds : list working_day) :
  map cal_day (calendar wds) = dict_keys (slot_counts_by_day wds).
Proof.
  unfold calendar, cal_of, dict_keys. rewrite map_map. reflexivity.
Qed.

Lemma slot_counts_keys (wds : list working_day) :
  forall d : dict string nat,
    NoDup (dict_keys d) ->
    let d' := fold_left (fun d w => dict_set (wd_day w) (wd_total_hours w) d)
                        wds d in
    NoDup (dict_keys d')
    /\ forall day, In day (dict_keys d') ->
                   In day (dict_keys d) \/ In day (map wd_day wds).
Proof.
  induction wds as [|w wds IH]; intros d Hnd; cbn [fold_left map].
  - split; [exact Hnd | auto].
  - destruct (IH (dict_set (wd_day w) (wd_total_hours w) d)) as [Hn Hin].
    { now apply dict_keys_set_NoDup. }
    split; [exact Hn|]. intros day Hday. apply Hin in Hday.
    destruct Hday as [Hday|Hday]; [|right; now right].
    rewrite dict_keys_set in Hday. destruct (dict_mem (wd_day w) d).
    + now left.
    + apply in_app_or in Hday. destruct Hday as [Hday|[<-|[]]];
        [now left | right; now left].
Qed.

Lemma weekday_calendar (wds : list working_day) :
  weekday_names wds ->
  NoDup (map cal_day (calendar wds))
  /\ forall d, In d (calendar wds) -> In (cal_day d) WEEK.
Proof.
  intros Hw. rewrite calendar_days.
  destruct (slot_counts_keys wds [] (NoDup_nil _)) as [Hn Hin].
  split; [exact Hn|]. intros d Hd.
  apply (in_map cal_day) in Hd. rewrite calendar_days in Hd.
  apply Hin in Hd. destruct Hd as [[]|Hd].
  apply in_map_iff in Hd. destruct Hd as (w & <- & Hw').
  unfold weekday_names in Hw. rewrite Forall_forall in Hw. now apply Hw.
Qed.

Lemma block_names_In (d : string * Z * nat) (name : string) :
  In name (block_names d) ->
  exists j, name = slot_name_of (abbrev_of (cal_day d)) j.
Proof.
  unfold block_names. rewrite in_map_iff. intros (j & <- & _). now exists j.
Qed.

Lemma weekday_names_NoDup (cal : list (string * Z * nat)) :
  NoDup (map cal_day cal) ->
  (forall d, In d cal -> In (cal_day d) WEEK) ->
  NoDup (flat_map block_names cal).
Proof.
  induction cal as [|d cal IH]; intros Hnd Hweek; cbn [flat_map map] in *.
  - constructor.
  - inversion Hnd as [|? ? Hni Hnd']; subst. apply NoDup_app.
    + unfold block_names. apply NoDup_map_NoDup_ForallPairs.
      * intros j1 j2 _ _ Heq.
        now destruct (slot_name_inj _ _ _ _ (Hweek d (or_introl eq_refl))
                        (Hweek d (or_introl eq_refl)) Heq).
      * apply seq_NoDup.
    + apply IH; [exact Hnd' | intros d' Hd'; apply Hweek; now right].
    + intros name Hin Hin'. apply block_names_In in Hin.
      destruct Hin as [j ->]. apply in_flat_map in Hin'.
      destruct Hin' as (d' & Hd' & Hin'). apply block_names_In in Hin'.
      destruct Hin' as [j' Heq].
      destruct (slot_name_inj _ _ _ _ (Hweek d (or_introl eq_refl))
                  (Hweek d' (or_intror Hd')) Heq) as [Hday _].
      apply Hni. rewrite Hday. now apply in_map.
Qed.

Lemma weekday_labels_NoDup (cal : list (string * Z * nat)) :
  NoDup (map cal_day cal) ->
  (forall d, In d cal -> In (cal_day d) WEEK) ->
  NoDup (map (fun d => lower (cal_day d)) cal).
Proof.
  induction cal as [|d cal IH]; intros Hnd Hweek; cbn [map] in *.
  - constructor.
  - inversion Hnd as [|? ? Hni Hnd']; subst. constructor.
    + intros Hin. apply in_map_iff in Hin. destruct Hin as (d' & Heq & Hd').
      apply lower_weekday_inj in Heq;
        [|apply Hweek; now right | apply Hweek; now left].
      apply Hni. rewrite <- Heq. now apply in_map.
    + apply IH; [exact Hnd' | intros d' Hd'; apply Hweek; now right].
Qed.

(** Two slots with the same day label: the later one is at least as many
    hours later as it is slots later. *)
Lemma hours_mono (cal : list (string * Z * nat)) :
  NoDup (map (fun d => lower (cal_day d)) cal) ->
  forall p q lab hp hq,
    (p <= q)%nat ->
    nth_error (flat_map block_labels cal) p = Some lab ->
    nth_error (flat_map block_labels cal) q = Some lab ->
    nth_error (flat_map block_hours cal) p = Some hp ->
    nth_error (flat_map block_hours cal) q = Some hq ->
    (hp + Z.of_nat (q - p) <= hq)%Z.
Proof.
  induction cal as [|d cal IH]; intros Hnd p q lab hp hq Hpq Hlp Hlq Hhp Hhq.
  - destruct p; discriminate.
  - cbn [flat_map map] in *. inversion Hnd as [|? ? Hni Hnd']; subst.
    rewrite nth_error_app, block_labels_length in Hlp, Hlq.
    rewrite nth_error_app, block_hours_length in Hhp, Hhq.
    destruct (Nat.ltb_spec p (snd d)) as [Hp|Hp],
             (Nat.ltb_spec q (snd d)) as [Hq|Hq]; try lia.
    + unfold block_hours in Hhp, Hhq.
      rewrite nth_error_map, nth_error_seq in Hhp, Hhq.
      apply Nat.ltb_lt in Hp, Hq. rewrite Hp in Hhp. rewrite Hq in Hhq.
      cbn [option_map Nat.add] in Hhp, Hhq.
      injection Hhp as <-. injection Hhq as <-. now apply slot_hour_mono.
    + exfalso. apply nth_error_In in Hlp, Hlq.
      unfold block_labels in Hlp. apply repeat_spec in Hlp. subst lab.
      apply in_flat_map in Hlq. destruct Hlq as (d' & Hd' & Hin).
      unfold block_labels in Hin. apply repeat_spec in Hin.
      apply Hni. apply in_map_iff. exists d'.
      split; [symmetry; exact Hin | exact Hd'].
    + replace (q - p)%nat with ((q - snd d) - (p - snd d))%nat by lia.
      apply (IH Hnd' (p - snd d)%nat (q - snd d)%nat lab); try assumption.
      lia.
Qed.

Lemma fold_set_fresh_all {V : Type} (kvs : list (string * V)) :
  forall d : dict string V,
    NoDup (dict_keys d ++ map fst kvs) ->
    fold_left (fun d kv => dict_set (fst kv) (snd kv) d) kvs d
    = (d ++ kvs)%list.
Proof.
  induction kvs as [|[k v] kvs IH]; intros d Hnd; cbn [fold_left map fst snd] in *.
  - now rewrite app_nil_r.
  - rewrite dict_set_fresh.
    + rewrite IH; [now rewrite <- app_assoc|].
      unfold dict_keys in *. rewrite map_app, <- app_assoc. exact Hnd.
    + apply NoDup_remove_2 in Hnd. intros Hin. apply Hnd.
      apply in_or_app. now left.
Qed.

Lemma dict_get_combine_nth {K V : Type} `{Key K} (ks : list K) :
  forall (vs : list V) (p : nat) (k : K),
    NoDup ks -> nth_error ks p = Some k ->
    dict_get k (combine ks vs) = nth_error vs p.
Proof.
  induction ks as [|k0 ks IH]; intros vs p k Hnd Hp.
  - destruct p; discriminate.
  - inversion Hnd as [|? ? Hni Hnd']; subst. destruct p as [|p].
    + injection Hp as ->. destruct vs as [|v vs]; [reflexivity|].
      simpl. now rewrite keyb_refl.
    + cbn [nth_error] in Hp. destruct vs as [|v vs]; [reflexivity|].
      simpl. destruct (keyb_spec k k0) as [->|Hne].
      * exfalso. apply Hni. eapply nth_error_In. exact Hp.
      * now apply IH.
Qed.

Lemma fold_set_mem {V : Type} (kvs : list (string * V)) :
  forall (d : dict string V) (k : string),
    In k (map fst kvs) \/ dict_mem k d = true ->
    dict_mem k (fold_left (fun d kv => dict_set (fst kv) (snd kv) d) kvs d)
    = true.
Proof.
  induction kvs as [|[k0 v0] kvs IH]; intros d k Hk; cbn [fold_left map] in *.
  - destruct Hk as [[]|Hk]. exact Hk.
  - apply IH. cbn [fst snd] in *.
    destruct (String.eqb_spec k k0) as [->|Hne].
    + right. unfold dict_mem. now rewrite dict_get_set_same.
    + destruct Hk as [[Heq|Hin]|Hk]; [congruence | now left | right].
      unfold dict_mem in *. now rewrite dict_get_set_other.
Qed.

Lemma block_lengths (cal : list (string * Z * nat)) :
  length (flat_map block_hours cal) = length (flat_map block_names cal)
  /\ length (flat_map block_labels cal) = length (flat_map block_names cal).
Proof.
  rewrite !length_flat_map. split; f_equal; apply map_ext; intros d;
    now rewrite block_names_length, ?block_hours_length, ?block_labels_length.
Qed.

(** On the tables of [get_time_slots] the lookups of the domain
    calculator and of the assembler never fail: every slot index has a
    name, a day label and a clock hour. *)
Lemma time_slots_lookups (wds : list working_day) (T : slot_tables) (i : nat) :
  time_slots_of wds = Some T ->
  (i < length (slot_names T))%nat ->
  (exists lab, day_label T (Z.of_nat i) = Some lab)
  /\ (exists h, hour_at T i = Some h).
Proof.
  intros HT Hi.
  destruct (time_slots_spec wds) as [T' (HT' & Hn & Ht & Hd)].
  rewrite HT in HT'. injection HT' as <-.
  destruct (block_lengths (calendar wds)) as [Hlh Hll].
  destruct (nth_error (slot_names T) i) as [name|] eqn:Hname.
  2:{ apply nth_error_None in Hname. lia. }
  split.
  - unfold day_label, py_index.
    destruct (Z.leb_spec 0 (Z.of_nat i)); [|lia].
    rewrite Nat2Z.id, Hname.
    assert (Hm : dict_mem name (slot_to_day T) = true).
    { rewrite Hd. apply fold_set_mem. left.
      rewrite map_fst_combine by (symmetry; exact Hll).
      rewrite <- Hn. eapply nth_error_In. exact Hname. }
    unfold dict_mem in Hm.
    destruct (dict_get name (slot_to_day T)) as [lab|]; [eauto | discriminate].
  - unfold hour_at. rewrite Ht.
    rewrite (dict_get_combine_nth _ _ i i (seq_NoDup _ 0)).
    + destruct (nth_error (flat_map block_hours (calendar wds)) i) as [h|] eqn:E;
        [eauto|]. apply nth_error_None in E. rewrite Hlh, <- Hn in E. lia.
    + rewrite nth_error_seq. apply Nat.ltb_lt in Hi. now rewrite Hi.
Qed.

(** On a calendar of weekdays, the day and the start hour of an entry are
    those of the block of its start slot. *)
Lemma placed_weekday wds T sections val o day e :
  weekday_names wds ->
  time_slots_of wds = Some T ->
  placed T sections val o = Some (day, e) ->
  nth_error (flat_map block_labels (calendar wds)) (val (occ_id o)) = Some day
  /\ nth_error (flat_map block_hours (calendar wds)) (val (occ_id o))
     = Some (e_start_hr e)
  /\ e_end_hr e = (e_start_hr e + Z.of_nat (occ_duration o))%Z
  /\ e_teacher e = occ_teacher o.
Proof.
  intros Hw HT Hp.
  destruct (time_slots_spec wds) as [T' (HT' & Hn & Ht & Hd)].
  rewrite HT in HT'. injection HT' as <-.
  destruct (weekday_calendar wds Hw) as [Hnd Hweek].
  assert (Hnames : NoDup (slot_names T))
    by (rewrite Hn; now apply weekday_names_NoDup).
  unfold placed in Hp.
  destruct (nth_error (slot_names T) (val (occ_id o))) as [name|] eqn:Hname;
    [|discriminate].
  destruct (dict_get name (slot_to_day T)) as [day'|] eqn:Hday; [|discriminate].
  destruct (dict_get (val (occ_id o)) (slot_time T)) as [h|] eqn:Hh;
    [|discriminate].
  injection Hp as <- <-. cbn [e_start_hr e_end_hr e_teacher].
  assert (Hlen : length (flat_map block_names (calendar wds)) =
                 length (flat_map block_labels (calendar wds))).
  { rewrite !length_flat_map. f_equal. apply map_ext. intros d.
    now rewrite block_names_length, block_labels_length. }
  split; [|split; [|split; reflexivity]].
  - rewrite Hd, fold_set_fresh_all in Hday.
    + cbn [app] in Hday. rewrite <- Hn in Hday.
      now rewrite (dict_get_combine_nth _ _ _ _ Hnames Hname) in Hday.
    + cbn [dict_keys map app]. rewrite map_fst_combine by exact Hlen.
      now rewrite <- Hn.
  - rewrite Ht in Hh.
    assert (Hlt : (val (occ_id o) < length (slot_names T))%nat)
      by (apply nth_error_Some; congruence).
    rewrite (dict_get_combine_nth _ _ (val (occ_id o))) in Hh.
    + exact Hh.
    + apply seq_NoDup.
    + rewrite nth_error_seq. apply Nat.ltb_lt in Hlt. now rewrite Hlt.
Qed.

(** Index intervals that do not overlap give clock intervals that do not
    overlap, for two entries of one day. *)
Lemma weekday_clock_disjoint wds T sections val o1 o2 day e1 e2 :
  weekday_names wds ->
  time_slots_of wds = Some T ->
  placed T sections val o1 = Some (day, e1) ->
  placed T sections val o2 = Some (day, e2) ->
  overlap (val (occ_id o1)) (occ_duration o1)
          (val (occ_id o2)) (occ_duration o2) = false ->
  (e_end_hr e1 <= e_start_hr e2 \/ e_end_hr e2 <= e_start_hr e1)%Z.
Proof.
  intros Hw HT H1 H2 Hov.
  destruct (placed_weekday _ _ _ _ _ _ _ Hw HT H1) as (Hl1 & Hh1 & He1 & _).
  destruct (placed_weekday _ _ _ _ _ _ _ Hw HT H2) as (Hl2 & Hh2 & He2 & _).
  destruct (weekday_calendar wds Hw) as [Hnd Hweek].
  assert (Hlab := weekday_labels_NoDup _ Hnd Hweek).
  unfold overlap in Hov. apply negb_false_iff, orb_true_iff in Hov.
  rewrite !Nat.leb_le in Hov. rewrite He1, He2.
  destruct Hov as [Hle|Hle].
  - left.
    assert (Hpq : (val (occ_id o1) <= val (occ_id o2))%nat) by lia.
    assert (Hm := hours_mono _ Hlab _ _ _ _ _ Hpq Hl1 Hl2 Hh1 Hh2). lia.
  - right.
    assert (Hpq : (val (occ_id o2) <= val (occ_id o1))%nat) by lia.
    assert (Hm := hours_mono _ Hlab _ _ _ _ _ Hpq Hl2 Hl1 Hh2 Hh1). lia.
Qed.

(** ** Pairs of entries *)

Section OrdPairs.
Context {A : Type} (P : A -> A -> Prop).
Hypothesis P_sym : forall x y, P x y -> P y x.

Lemma ordered_pairs_perm (l l' : list A) :
  Permutation l l' -> ForallOrdPairs P l -> ForallOrdPairs P l'.
Proof.
  induction 1 as [|x l l' Hperm IH|x y l|l l' l'' _ IH1 _ IH2]; intros Hf.
  - constructor.
  - inversion Hf as [|? ? Hall Hf']; subst. constructor; [|auto].
    now apply (Permutation_Forall Hperm).
  - inversion Hf as [|? ? Hall Hf']; subst.
    inversion Hf' as [|? ? Hall' Hf'']; subst.
    inversion Hall as [|? ? Hyx Hall'']; subst.
    constructor; [|constructor; assumption].
    constructor; [now apply P_sym | assumption].
  - auto.
Qed.

Lemma ordered_pairs_nth (l : list A) :
  ForallOrdPairs P l ->
  forall i j x y,
    nth_error l i = Some x -> nth_error l j = Some y -> i <> j -> P x y.
Proof.
  induction 1 as [|x0 l Hall Hf IH]; intros i j x y Hi Hj Hne.
  - destruct i; discriminate.
  - rewrite Forall_forall in Hall. destruct i as [|i], j as [|j];
      cbn [nth_error] in Hi, Hj.
    + congruence.
    + injection Hi as <-. apply Hall. eapply nth_error_In; eassumption.
    + injection Hj as <-. apply P_sym, Hall. eapply nth_error_In; eassumption.
    + apply (IH i j); auto.
Qed.
End OrdPairs.

Lemma ordered_pairs_flat_map {A B : Type} (R : A -> A -> Prop)
  (P : B -> B -> Prop) (g : A -> list B) (l : list A) :
  (forall x, length (g x) <= 1)%nat ->
  (forall x y ex ey, R x y -> In ex (g x) -> In ey (g y) -> P ex ey) ->
  ForallOrdPairs R l -> ForallOrdPairs P (flat_map g l).
Proof.
  intros Hlen HRP. induction 1 as [|x l Hall Hf IH]; cbn [flat_map].
  - constructor.
  - specialize (Hlen x). destruct (g x) as [|ex [|? ?]] eqn:Hg;
      cbn [length] in Hlen; try lia; cbn [app]; [exact IH|].
    constructor; [|exact IH]. apply Forall_forall. intros ey Hey.
    apply in_flat_map in Hey. destruct Hey as (y & Hy & Hey).
    rewrite Forall_forall in Hall. apply (HRP x y); auto.
    rewrite Hg. now left.
Qed.

Lemma ordered_pairs_impl {A : Type} (R R' : A -> A -> Prop) (l : list A) :
  (forall x y, In x l -> In y l -> R x y -> R' x y) ->
  ForallOrdPairs R l -> ForallOrdPairs R' l.
Proof.
  intros Himp. induction 1 as [|x l Hall Hf IH]; constructor.
  - rewrite Forall_forall in *. intros y Hy. apply Himp; auto.
    + now left.
    + now right.
  - apply IH. intros x' y' Hx' Hy'. apply Himp; now right.
Qed.

Lemma placed_teacher T sections val o day e :
  placed T sections val o = Some (day, e) -> e_teacher e = occ_teacher o.
Proof.
  unfold placed.
  destruct (nth_error _ _); [|discriminate].
  destruct (dict_get _ _); [|discriminate].
  destruct (dict_get _ _); [|discriminate].
  now intros [= <- <-].
Qed.

Lemma hits_In T sections val y s d occs e :
  In e (hits T sections val y s d occs) <->
  exists o, In o occs /\ placed T sections val o = Some (d, e)
            /\ occ_year o = y /\ occ_section o = s.
Proof.
  unfold hits. rewrite in_flat_map. split.
  - intros (o & Ho & Hin). exists o. split; [exact Ho|].
    destruct (placed T sections val o) as [[day e']|]; [|contradiction].
    destruct (String.eqb_spec (occ_year o) y); [|contradiction].
    destruct (String.eqb_spec (occ_section o) s); [|contradiction].
    destruct (String.eqb_spec day d); [|contradiction].
    destruct Hin as [<-|[]]. subst. auto.
  - intros (o & Ho & Hp & <- & <-). exists o. split; [exact Ho|].
    rewrite Hp, !String.eqb_refl. now left.
Qed.

Lemma clock_disjoint_sym (e1 e2 : entry) :
  clock_disjoint e1 e2 -> clock_disjoint e2 e1.
Proof. unfold clock_disjoint. tauto. Qed.

Lemma teacher_free_sym (e1 e2 : entry) :
  teacher_free e1 e2 -> teacher_free e2 e1.
Proof.
  unfold teacher_free. intros H Heq. apply clock_disjoint_sym. auto.
Qed.

(** The entries of two occurrences of one teacher on one day do not
    overlap, on a calendar of weekdays. *)
Lemma solved_teacher_free wds T N items val sections :
  weekday_names wds ->
  time_slots_of wds = Some T ->
  model_sat val (full_model N (extend T N empty_build items)) = true ->
  ForallOrdPairs
    (fun o1 o2 =>
       forall day e1 e2,
         placed T sections val o1 = Some (day, e1) ->
         placed T sections val o2 = Some (day, e2) ->
         teacher_free e1 e2)
    (b_occs (extend T N empty_build items)).
Proof.
  intros Hw HT Hsat.
  apply (ordered_pairs_impl (excl val occ_teacher)).
  - intros o1 o2 _ _ Hex day e1 e2 H1 H2 Hteach.
    apply (weekday_clock_disjoint wds T sections val o1 o2 day); auto.
    apply Hex.
    now rewrite <- (placed_teacher _ _ _ _ _ _ H1),
                <- (placed_teacher _ _ _ _ _ _ H2).
  - now apply solved_teacher_exclusive.
Qed.

(** C1, as the code has it.  In a schedule returned for a calendar of weekdays by a solver
    whose solutions satisfy the model, two entries of one teacher on one
    day (in the lists of any years and sections, at different places) have
    clock intervals [start, end) that do not overlap: one ends before the
    other starts.  The days are weekdays because the response files an
    entry under the lower-cased name of its day, in one of seven lists
    named after the weekdays. *)
Theorem no_teacher_double_booking solve wds courses teachers sections
  allow_free max_time r :
  solver_sound solve ->
  weekday_names wds ->
  generate_college_timetable_with_sections solve (Some wds) courses teachers
    sections allow_free max_time = Schedule r ->
  forall y1 s1 y2 s2 d b1 b2 i1 i2 e1 e2,
    bucket r y1 s1 d = Some b1 ->
    bucket r y2 s2 d = Some b2 ->
    nth_error b1 i1 = Some e1 ->
    nth_error b2 i2 = Some e2 ->
    (y1, s1, i1) <> (y2, s2, i2) ->
    e_teacher e1 = e_teacher e2 ->
    ~ clock_overlap e1 e2
    /\ (e_end_hr e1 <= e_start_hr e2 \/ e_end_hr e2 <= e_start_hr e1)%Z.
Proof.
  intros Hsound Hw Hgen y1 s1 y2 s2 d b1 b2 i1 i2 e1 e2 Hb1 Hb2 Hn1 Hn2 Hne
         Hteach.
  enough (Hd : clock_disjoint e1 e2)
    by (split; [unfold clock_overlap; tauto | exact Hd]).
  apply generate_schedule in Hgen.
  destruct Hgen as (wd & wds' & c0 & cs & T & st & Hc & -> & HT & Hb & Hs & Ha).
  injection Hc as ->. destruct (build_inr _ _ _ _ _ _ Hb) as [_ Hst].
  apply Hsound in Hs. rewrite Hst in Hs, Ha.
  set (N := length (slot_names T)) in *.
  set (items := expand _ 0) in *.
  set (val := value _) in *.
  assert (HR := solved_teacher_free _ T N items val sections Hw HT Hs).
  set (occs := b_occs _) in *.
  destruct (assemble_spec _ _ _ _ _ Ha) as [_ Hbk].
  rewrite Hbk in Hb1, Hb2.
  destruct (_ && _ && _); [|discriminate].
  destruct (_ && _ && _); [|discriminate].
  injection Hb1 as <-. injection Hb2 as <-.
  destruct (string_dec y1 y2) as [<-|Hy]; [destruct (string_dec s1 s2) as [<-|Hsne]|].
  - (* one list: two different places *)
    assert (Hi : i1 <> i2) by congruence.
    refine (ordered_pairs_nth teacher_free teacher_free_sym _ _ i1 i2 e1 e2
              Hn1 Hn2 Hi Hteach).
    apply (ordered_pairs_perm teacher_free teacher_free_sym
             (hits T sections val y1 s1 d occs));
      [symmetry; apply sort_by_perm|].
    unfold hits.
    refine (ordered_pairs_flat_map _ teacher_free _ occs _ _ HR).
    + intros o. destruct (placed T sections val o) as [[day e]|]; [|simpl; lia].
      destruct (_ && _ && _); simpl; lia.
    + intros o1 o2 ex ey Ho Hx Hy.
      destruct (placed T sections val o1) as [[day1 e1']|] eqn:Hp1;
        [|contradiction].
      destruct (placed T sections val o2) as [[day2 e2']|] eqn:Hp2;
        [|contradiction].
      destruct (String.eqb (occ_year o1) y1 && String.eqb (occ_section o1) s1);
        [|contradiction].
      destruct (String.eqb (occ_year o2) y1 && String.eqb (occ_section o2) s1);
        [|contradiction].
      cbn [andb] in Hx, Hy.
      destruct (String.eqb_spec day1 d) as [->|]; [|contradiction].
      destruct (String.eqb_spec day2 d) as [->|]; [|contradiction].
      destruct Hx as [<-|[]]. destruct Hy as [<-|[]].
      now apply (Ho d).
  - (* two sections of one year *)
    apply nth_error_In in Hn1, Hn2.
    apply (Permutation_in _ (sort_by_perm _ _)) in Hn1, Hn2.
    apply hits_In in Hn1, Hn2.
    destruct Hn1 as (o1 & Ho1 & Hp1 & Hy1 & Hs1).
    destruct Hn2 as (o2 & Ho2 & Hp2 & Hy2 & Hs2).
    destruct (ForallOrdPairs_In HR o1 o2 Ho1 Ho2) as [Heq|[H12|H21]].
    + congruence.
    + now apply (H12 d).
    + apply clock_disjoint_sym. now apply (H21 d).
  - (* two years *)
    apply nth_error_In in Hn1, Hn2.
    apply (Permutation_in _ (sort_by_perm _ _)) in Hn1, Hn2.
    apply hits_In in Hn1, Hn2.
    destruct Hn1 as (o1 & Ho1 & Hp1 & Hy1 & Hs1).
    destruct Hn2 as (o2 & Ho2 & Hp2 & Hy2 & Hs2).
    destruct (ForallOrdPairs_In HR o1 o2 Ho1 Ho2) as [Heq|[H12|H21]].
    + congruence.
    + now apply (H12 d).
    + apply clock_disjoint_sym. now apply (H21 d).
Qed.

Lemma no_teacher_double_booking_witness :
  ~ clock_overlap
      {| e_slot := "M1"; e_subject := "Math"; e_teacher := "T1";
         e_section := "A"; e_room := "R1"; e_start_hr := 9; e_end_hr := 11 |}
      {| e_slot := "M4"; e_subject := "Math"; e_teacher := "T1";
         e_section := "A"; e_room := "R1"; e_start_hr := 13; e_end_hr := 15 |}.
Proof.
  apply (no_teacher_double_booking (checked_solver sample_values) sample_week
           [sample_course] sample_teachers sample_sections true 30%Z
           sample_schedule (checked_solver_sound sample_values)
           ltac:(repeat constructor; simpl; tauto)
           ltac:(vm_compute; reflexivity)
           "Year1" "A" "Year1" "A" "monday" sample_monday sample_monday 0 2).
  - vm_compute. reflexivity.
  - vm_compute. reflexivity.
  - reflexivity.
  - reflexivity.
  - discriminate.
  - reflexivity.
Defined.

(** C1, as stated, fails: on the working days "Monday" and "MONDAY" the
    slots M1 and MO1 both have hour 9 and both carry the label "monday".
    The two lectures of one teacher start in the two slots, which the
    teacher constraint allows since the slot indices differ, and the
    schedule returned has two entries of that teacher on monday from 9
    to 10. *)
Lemma case_variant_days_double_book :
  solver_sound (checked_solver (fun o => o))
  /\ time_slots_of case_week = Some case_tables
  /\ slot_names case_tables = ["M1"; "MO1"]
  /\ hour_at case_tables 0 = Some 9%Z
  /\ hour_at case_tables 1 = Some 9%Z
  /\ generate_college_timetable_with_sections (checked_solver (fun o => o))
       (Some case_week) [twice_course] sample_teachers year1_only false 30
     = Schedule case_schedule
  /\ bucket case_schedule "Year1" "A" "monday"
     = Some [first_monday; second_monday]
  /\ e_teacher first_monday = e_teacher second_monday
  /\ clock_overlap first_monday second_monday.
Proof.
  split; [apply checked_solver_sound|].
  repeat split; try (vm_compute; reflexivity).
  unfold clock_overlap. cbn [first_monday second_monday e_end_hr e_start_hr].
  lia.
Qed.

(** ** Sums over lists *)

Lemma zsum_cons {A : Type} (f : A -> Z) (x : A) (l : list A) :
  zsum f (x :: l) = (f x + zsum f l)%Z.
Proof. reflexivity. Qed.

Lemma zsum_app {A : Type} (f : A -> Z) (l1 l2 : list A) :
  zsum f (l1 ++ l2) = (zsum f l1 + zsum f l2)%Z.
Proof. induction l1; simpl; lia. Qed.

Lemma zsum_perm {A : Type} (f : A -> Z) (l1 l2 : list A) :
  Permutation l1 l2 -> zsum f l1 = zsum f l2.
Proof. induction 1; simpl; lia. Qed.

Lemma zsum_ext_in {A : Type} (f g : A -> Z) (l : list A) :
  (forall x, In x l -> f x = g x) -> zsum f l = zsum g l.
Proof.
  induction l as [|x l IH]; intros H; simpl; [reflexivity|].
  rewrite (H x) by now left. rewrite IH; [reflexivity|].
  intros y Hy. apply H. now right.
Qed.

Lemma zsum_flat_map {A B : Type} (f : B -> Z) (g : A -> list B) (l : list A) :
  zsum f (flat_map g l) = zsum (fun x => zsum f (g x)) l.
Proof. induction l; simpl; [reflexivity|]. rewrite zsum_app. lia. Qed.

Lemma zsum_map {A B : Type} (f : B -> Z) (g : A -> B) (l : list A) :
  zsum f (map g l) = zsum (fun x => f (g x)) l.
Proof. induction l; simpl; [reflexivity | lia]. Qed.

Lemma zsum_plus {A : Type} (f g : A -> Z) (l : list A) :
  zsum (fun x => (f x + g x)%Z) l = (zsum f l + zsum g l)%Z.
Proof. induction l; simpl; lia. Qed.

Lemma zsum_zero {A : Type} (f : A -> Z) (l : list A) :
  (forall x, In x l -> f x = 0%Z) -> zsum f l = 0%Z.
Proof.
  induction l as [|x l IH]; intros H; simpl; [reflexivity|].
  rewrite (H x) by now left. rewrite IH; [reflexivity|].
  intros y Hy. apply H. now right.
Qed.

Lemma zsum_const {A : Type} (c : Z) (l : list A) :
  zsum (fun _ => c) l = (Z.of_nat (length l) * c)%Z.
Proof. induction l; simpl length; simpl zsum; lia. Qed.

(** A sum in which one key only counts. *)
Lemma zsum_single (h : string -> Z) (ks : list string) (s : string) :
  NoDup ks -> In s ks -> (forall k, k <> s -> h k = 0%Z) ->
  zsum h ks = h s.
Proof.
  induction ks as [|k ks IH]; intros Hnd Hin Hz; [contradiction|].
  inversion Hnd as [|? ? Hni Hnd']; subst. simpl.
  destruct Hin as [->|Hin].
  - rewrite zsum_zero; [lia|]. intros k Hk. apply Hz. congruence.
  - rewrite (Hz k) by congruence. rewrite IH; auto.
Qed.

(** ** Counting the entries of a section *)

Lemma zsum_dict_values (m : entry -> Z) (d : day_map) :
  NoDup (dict_keys d) ->
  zsum m (week_entries d) =
  zsum (fun k => zsum m (match dict_get k d with Some b => b | None => [] end))
       (dict_keys d).
Proof.
  unfold week_entries. induction d as [|[k v] d IH]; intros Hnd;
    [reflexivity|].
  cbn [dict_keys map fst] in Hnd. inversion Hnd as [|? ? Hni Hnd']; subst.
  cbn [flat_map snd]. change (dict_keys ((k, v) :: d)) with (k :: dict_keys d).
  rewrite zsum_app, zsum_cons. cbn [dict_get keyb string_key].
  rewrite String.eqb_refl.
  f_equal. rewrite IH by exact Hnd'. apply zsum_ext_in. intros k' Hk'.
  cbn [dict_get keyb string_key].
  destruct (String.eqb_spec k' k) as [->|]; [contradiction | reflexivity].
Qed.

Lemma week_keys_NoDup : NoDup week_keys.
Proof.
  unfold week_keys, WEEK. cbn [map].
  repeat (constructor; [cbn [In]; vm_compute; intuition discriminate|]).
  constructor.
Qed.

(** An occurrence that is filed has a day among the seven. *)
Lemma add_entry_day T sections val r o r' :
  add_entry T sections val (Some r) o = Some r' ->
  resp_inv sections r ->
  exists day e,
    placed T sections val o = Some (day, e)
    /\ (in_response sections o = true -> In day week_keys).
Proof.
  intros Hadd Hinv. unfold add_entry in Hadd.
  destruct (placed T sections val o) as [[day e]|]; [|discriminate].
  exists day, e. split; [reflexivity|]. intros Hin.
  apply in_response_spec in Hin. destruct Hin as [Hy Hm].
  specialize (Hinv (occ_year o)).
  destruct (dict_get (occ_year o) r) as [secs|]; [|contradiction].
  destruct Hinv as [_ Hsec]. specialize (Hsec (occ_section o)).
  destruct (dict_get (occ_section o) secs) as [days|]; [|congruence].
  destruct Hsec as [_ Hk].
  destruct (dict_get day days) eqn:Hd; [|discriminate].
  rewrite <- Hk. destruct (in_dec string_dec day (dict_keys days)) as [|Hn];
    [assumption|].
  apply dict_get_None in Hn. congruence.
Qed.

Lemma add_entries_day T sections val occs :
  forall r r',
    fold_left (add_entry T sections val) occs (Some r) = Some r' ->
    resp_inv sections r ->
    forall o, In o occs ->
      exists day e,
        placed T sections val o = Some (day, e)
        /\ (in_response sections o = true -> In day week_keys).
Proof.
  induction occs as [|o0 occs IH]; intros r r' Hfold Hinv o Ho;
    [contradiction|].
  cbn [fold_left] in Hfold.
  destruct (add_entry T sections val (Some r) o0) as [r1|] eqn:H1.
  2:{ rewrite fold_add_entry_None in Hfold. discriminate. }
  destruct Ho as [<-|Ho].
  - eapply add_entry_day; eassumption.
  - destruct (add_entry_step _ _ _ _ _ _ H1 Hinv) as [Hinv1 _].
    eapply IH; eassumption.
Qed.

Lemma assemble_day T sections val occs r o :
  assemble T sections val occs = Some r ->
  In o occs ->
  exists day e,
    placed T sections val o = Some (day, e)
    /\ (in_response sections o = true -> In day week_keys).
Proof.
  unfold assemble. intros Ha Ho.
  destruct (fold_left _ _ _) as [r0|] eqn:Hfold; [|discriminate].
  eapply add_entries_day; eauto using init_resp_inv.
Qed.

(** Summed over the seven days, the entries of a section are the entries
    of its occurrences. *)
Lemma hits_week_sum T sections val (m : entry -> Z) (w : occ -> Z) y s occs :
  (forall o day e, placed T sections val o = Some (day, e) -> m e = w o) ->
  (forall o, In o occs -> occ_in y s o = true ->
     exists day e, placed T sections val o = Some (day, e)
                   /\ In day week_keys) ->
  zsum (fun k => zsum m (hits T sections val y s k occs)) week_keys =
  zsum (fun o => if occ_in y s o then w o else 0%Z) occs.
Proof.
  intros Hm. induction occs as [|o occs IH]; intros Hday.
  - cbn [hits flat_map zsum fold_right]. apply zsum_zero. reflexivity.
  - rewrite zsum_cons.
    rewrite <- IH by (intros o' Ho'; apply Hday; now right).
    assert (Hone :
      zsum (fun k => zsum m (hits T sections val y s k [o])) week_keys =
      if occ_in y s o then w o else 0%Z).
    { destruct (occ_in y s o) eqn:Hin.
      - destruct (Hday o (or_introl eq_refl) Hin) as (day & e & Hp & Hk).
        rewrite (zsum_single _ _ day week_keys_NoDup Hk).
        + rewrite hits_one, Hp. unfold occ_in in Hin. rewrite Hin.
          rewrite String.eqb_refl. cbn [andb zsum fold_right].
          rewrite (Hm _ _ _ Hp). lia.
        + intros k Hne. rewrite hits_one, Hp.
          destruct (String.eqb_spec day k); [congruence|].
          rewrite andb_false_r. reflexivity.
      - apply zsum_zero. intros k _. rewrite hits_one.
        destruct (placed T sections val o) as [[day e]|]; [|reflexivity].
        unfold occ_in in Hin. rewrite Hin. reflexivity. }
    rewrite <- Hone, <- zsum_plus. apply zsum_ext_in. intros k _.
    change (o :: occs) with ([o] ++ occs)%list.
    now rewrite hits_app, zsum_app.
Qed.

Lemma expand_zsum (G : pcourse -> Z) (cs : list pcourse) :
  forall next,
    zsum (fun ci => G (fst ci)) (expand cs next) =
    zsum (fun c => (Z.of_nat (pc_lectures c) * G c)%Z) cs.
Proof.
  induction cs as [|c cs IH]; intros next; [reflexivity|].
  cbn [expand]. rewrite zsum_app, zsum_cons, IH, zsum_map. cbn [fst].
  now rewrite zsum_const, length_seq.
Qed.

Lemma dict_get_or_set (k k0 : string) (v : nat) (d : dict string nat) :
  dict_get_or k 0%nat (dict_set k0 v d) =
  if String.eqb k k0 then v else dict_get_or k 0%nat d.
Proof.
  unfold dict_get_or. destruct (String.eqb_spec k k0) as [->|Hne].
  - now rewrite dict_get_set_same.
  - now rewrite dict_get_set_other.
Qed.

(** [section_requirements[key]]: the slots needed by the courses that have
    this key. *)
Lemma section_requirements_get (pcs : list pcourse) (k : string) :
  Z.of_nat (dict_get_or k 0%nat (section_requirements pcs)) =
  zsum (fun c =>
          if String.eqb (section_key (pc_year c) (pc_section c)) k
          then Z.of_nat (pc_lectures c * pc_duration c) else 0%Z) pcs.
Proof.
  unfold section_requirements.
  assert (Hgen : forall d,
    Z.of_nat (dict_get_or k 0%nat
      (fold_left
         (fun d pc =>
            let k' := section_key (pc_year pc) (pc_section pc) in
            dict_set k' (dict_get_or k' 0 d + pc_lectures pc * pc_duration pc)%nat
                     d) pcs d)) =
    (Z.of_nat (dict_get_or k 0%nat d)
     + zsum (fun c =>
               if String.eqb (section_key (pc_year c) (pc_section c)) k
               then Z.of_nat (pc_lectures c * pc_duration c) else 0%Z) pcs)%Z).
  { induction pcs as [|c pcs IH]; intros d; cbn [fold_left]; [simpl; lia|].
    rewrite IH, zsum_cons. cbv zeta. rewrite dict_get_or_set.
    rewrite (String.eqb_sym k).
    destruct (String.eqb_spec (section_key (pc_year c) (pc_section c)) k)
      as [->|]; lia. }
  rewrite Hgen. reflexivity.
Qed.

Lemma YEARS_NoDup : NoDup YEARS.
Proof.
  unfold YEARS.
  repeat (constructor; [cbn [In]; intuition discriminate|]). constructor.
Qed.

(** The free periods of one year and section: the slots that its courses
    leave. *)
Lemma free_courses_zsum sections reqs N year section :
  In year YEARS ->
  In section (dict_keys (year_sections sections year)) ->
  NoDup (dict_keys (year_sections sections year)) ->
  zsum (fun c => (Z.of_nat (pc_lectures c)
                  * (if pc_in year section c then 1 else 0))%Z)
       (free_courses sections reqs N) =
  let used := dict_get_or (section_key year section) 0%nat reqs in
  if (used <? N)%nat then Z.of_nat (N - used) else 0%Z.
Proof.
  intros Hy Hs Hnd. unfold free_courses. rewrite zsum_flat_map.
  rewrite (zsum_single _ _ year YEARS_NoDup Hy).
  - rewrite zsum_flat_map. rewrite (zsum_single _ _ section Hnd Hs).
    + unfold free_for. cbv zeta.
      destruct (_ <? _)%nat; [|reflexivity].
      unfold pc_in, free_course.
      cbn [zsum fold_right pc_lectures pc_year pc_section].
      rewrite !String.eqb_refl. cbn [andb]. lia.
    + intros sn Hne. unfold free_for.
      destruct (_ <? _)%nat; [|reflexivity].
      unfold pc_in, free_course.
      cbn [zsum fold_right pc_lectures pc_year pc_section].
      destruct (String.eqb_spec sn section); [congruence|].
      rewrite andb_false_r. lia.
  - intros y' Hne. rewrite zsum_flat_map. apply zsum_zero. intros sn _.
    unfold free_for. destruct (_ <? _)%nat; [|reflexivity].
    unfold pc_in, free_course.
    cbn [zsum fold_right pc_lectures pc_year pc_section].
    destruct (String.eqb_spec y' year); [congruence|]. cbn [andb]. lia.
Qed.

Lemma zsum_filter {A : Type} (f : A -> Z) (p : A -> bool) (l : list A) :
  zsum (fun x => if p x then f x else 0%Z) l = zsum f (filter p l).
Proof.
  induction l as [|x l IH]; [reflexivity|].
  rewrite zsum_cons. cbn [filter]. destruct (p x).
  - rewrite zsum_cons. lia.
  - lia.
Qed.

Lemma ordered_pairs_filter {A : Type} (R : A -> A -> Prop) (p : A -> bool)
  (l : list A) :
  ForallOrdPairs R l -> ForallOrdPairs R (filter p l).
Proof.
  induction 1 as [|x l Hall Hf IH]; cbn [filter]; [constructor|].
  destruct (p x); [|exact IH]. constructor; [|exact IH].
  rewrite Forall_forall in *. intros y Hy. apply filter_In in Hy. now apply Hall.
Qed.

(** Intervals of slots that do not overlap and lie below [N] have a total
    length of at most [N]. *)
Lemma disjoint_total (a : nat -> nat) (N : nat) (l : list occ) :
  ForallOrdPairs
    (fun o1 o2 =>
       overlap (a (occ_id o1)) (occ_duration o1)
               (a (occ_id o2)) (occ_duration o2) = false) l ->
  (forall o, In o l -> (a (occ_id o) + occ_duration o <= N)%nat) ->
  (zsum (fun o => Z.of_nat (occ_duration o)) l <= Z.of_nat N)%Z.
Proof.
  intros Hf Hb.
  set (cover := fun o => seq (a (occ_id o)) (occ_duration o)).
  assert (Hlen : zsum (fun o => Z.of_nat (occ_duration o)) l =
                 Z.of_nat (length (flat_map cover l))).
  { clear. induction l as [|o l IH]; [reflexivity|].
    rewrite zsum_cons. cbn [flat_map]. rewrite length_app, IH.
    assert (Hc : length (cover o) = occ_duration o) by apply length_seq.
    lia. }
  assert (Hnd : NoDup (flat_map cover l)).
  { clear Hb Hlen. induction Hf as [|o l Hall Hf IH]; cbn [flat_map];
      [constructor|].
    apply NoDup_app; [apply seq_NoDup | exact IH|].
    intros x Hx Hx'. apply in_flat_map in Hx'.
    destruct Hx' as (o' & Ho' & Hx'). rewrite Forall_forall in Hall.
    specialize (Hall o' Ho'). unfold cover in Hx, Hx'.
    rewrite in_seq in Hx, Hx'. unfold overlap in Hall.
    apply negb_false_iff, orb_true_iff in Hall.
    rewrite !Nat.leb_le in Hall. lia. }
  assert (Hincl : incl (flat_map cover l) (seq 0 N)).
  { intros x Hx. apply in_flat_map in Hx. destruct Hx as (o & Ho & Hx).
    unfold cover in Hx. rewrite in_seq in *. specialize (Hb o Ho). lia. }
  assert (Hle := NoDup_incl_length Hnd Hincl). rewrite length_seq in Hle.
  lia.
Qed.

(** The entries of the week of one section, weighed by [m]: the sum over
    its courses of the lectures times the weight of one lecture. *)
Lemma week_total T N sections val (cs : list pcourse) r year section
  (m : entry -> Z) (w : occ -> Z) (f : pcourse -> Z) :
  assemble T sections val (b_occs (extend T N empty_build (expand cs 0)))
  = Some r ->
  In year YEARS ->
  dict_mem section (year_sections sections year) = true ->
  (forall o day e, placed T sections val o = Some (day, e) -> m e = w o) ->
  (forall c i, w (mk_occ c i) = f c) ->
  exists secs days,
    dict_get year r = Some secs
    /\ dict_get section secs = Some days
    /\ zsum m (week_entries days) =
       zsum (fun c => (Z.of_nat (pc_lectures c)
                       * (if pc_in year section c then f c else 0))%Z) cs.
Proof.
  intros Ha Hy Hs Hm Hw.
  destruct (assemble_spec _ _ _ _ _ Ha) as [Hinv Hbk].
  assert (Hyb : existsb (String.eqb year) YEARS = true)
    by now apply existsb_eqb_In.
  specialize (Hinv year).
  destruct (dict_get year r) as [secs|] eqn:Hgy; [|contradiction].
  destruct Hinv as [_ Hsec]. specialize (Hsec section).
  destruct (dict_get section secs) as [days|] eqn:Hgs; [|congruence].
  destruct Hsec as [_ Hk]. exists secs, days.
  split; [first [reflexivity | exact Hgy]|].
  split; [first [reflexivity | exact Hgs]|].
  rewrite zsum_dict_values by (rewrite Hk; apply week_keys_NoDup).
  rewrite Hk.
  rewrite (zsum_ext_in _
             (fun k => zsum m (hits T sections val year section k
                          (b_occs (extend T N empty_build (expand cs 0)))))).
  2:{ intros k Hkin. specialize (Hbk year section k). unfold bucket in Hbk.
      rewrite Hgy, Hgs in Hbk. rewrite Hbk, Hyb, Hs.
      apply existsb_eqb_In in Hkin. rewrite Hkin. cbn [andb].
      apply zsum_perm, sort_by_perm. }
  assert (Hday : forall o,
             In o (b_occs (extend T N empty_build (expand cs 0))) ->
             occ_in year section o = true ->
             exists day e, placed T sections val o = Some (day, e)
                           /\ In day week_keys).
  { intros o Ho Hin.
    destruct (assemble_day _ _ _ _ _ _ Ha Ho) as (day & e & Hp & Hd).
    exists day, e. split; [exact Hp|]. apply Hd.
    unfold occ_in in Hin. apply andb_true_iff in Hin.
    destruct Hin as [H1 H2]. apply String.eqb_eq in H1, H2.
    unfold in_response. rewrite H1, H2, Hyb, Hs. reflexivity. }
  rewrite (hits_week_sum T sections val m w _ _ _ Hm Hday).
  cbn [extend b_occs empty_build app]. rewrite zsum_map.
  rewrite <- (expand_zsum
                (fun c => if pc_in year section c then f c else 0%Z) cs 0).
  apply zsum_ext_in. intros [c i] _. cbn [fst snd]. rewrite Hw. reflexivity.
Qed.

Lemma placed_hours T sections val o day e :
  placed T sections val o = Some (day, e) ->
  entry_hours e = Z.of_nat (occ_duration o).
Proof.
  unfold placed.
  destruct (nth_error _ _); [|discriminate].
  destruct (dict_get _ _); [|discriminate].
  destruct (dict_get _ _); [|discriminate].
  intros [= <- <-]. unfold entry_hours. cbn [e_end_hr e_start_hr]. lia.
Qed.

Lemma occs_total T N (cs : list pcourse) year section
  (w : occ -> Z) (f : pcourse -> Z) :
  (forall c i, w (mk_occ c i) = f c) ->
  zsum (fun o => if occ_in year section o then w o else 0%Z)
       (b_occs (extend T N empty_build (expand cs 0))) =
  zsum (fun c => (Z.of_nat (pc_lectures c)
                  * (if pc_in year section c then f c else 0))%Z) cs.
Proof.
  intros Hw. cbn [extend b_occs empty_build app]. rewrite zsum_map.
  rewrite <- (expand_zsum
                (fun c => if pc_in year section c then f c else 0%Z) cs 0).
  apply zsum_ext_in. intros [c i] _. cbn [fst snd]. rewrite Hw. reflexivity.
Qed.

(** The occurrences of one section fit into the week. *)
Lemma section_fits T N (cs : list pcourse) val year section :
  model_sat val (full_model N (extend T N empty_build (expand cs 0))) = true ->
  (zsum (fun c => (Z.of_nat (pc_lectures c)
                   * (if pc_in year section c
                      then Z.of_nat (pc_duration c) else 0))%Z) cs
   <= Z.of_nat N)%Z.
Proof.
  intros Hsat.
  rewrite <- (occs_total T N cs year section
                (fun o => Z.of_nat (occ_duration o))) by reflexivity.
  rewrite zsum_filter. apply (disjoint_total val).
  - apply (ordered_pairs_impl (excl val occ_section_key)).
    + intros o1 o2 H1 H2 Hex. apply Hex.
      apply filter_In in H1, H2. destruct H1 as [_ H1], H2 as [_ H2].
      unfold occ_in in H1, H2. apply andb_true_iff in H1, H2.
      destruct H1 as [Hy1 Hs1], H2 as [Hy2 Hs2].
      apply String.eqb_eq in Hy1, Hs1, Hy2, Hs2.
      unfold occ_section_key. congruence.
    + apply ordered_pairs_filter. now apply solved_section_exclusive.
  - intros o Ho. apply filter_In in Ho. destruct Ho as [Ho _].
    destruct (solved_occ T N _ o Ho) as (c & Hc & ->).
    cbn [mk_occ occ_id occ_duration].
    apply (allowed_vals_bound T N c).
    now apply (solved_in_domain T N (expand cs 0) val Hsat).
Qed.

(** Among the four years the key text identifies the year and the
    section. *)
Lemma section_key_inj (y1 s1 y2 s2 : string) :
  In y1 YEARS -> In y2 YEARS ->
  section_key y1 s1 = section_key y2 s2 -> y1 = y2 /\ s1 = s2.
Proof.
  unfold YEARS, section_key. cbn [In]. intros H1 H2 Heq.
  repeat (destruct H1 as [<-|H1]; [|]); try contradiction;
    repeat (destruct H2 as [<-|H2]; [|]); try contradiction;
    cbn [append] in Heq; try discriminate;
    injection Heq as ->; auto.
Qed.

(** C8, as the code has it.  With free periods enabled, in a schedule
    returned by a solver whose solutions satisfy the model, the entries of
    the week of every year and section of the response (courses and free
    periods together) last as many hours as the calendar has slots; they
    are as many as the slots when every course of that section has
    duration 1.  The year's sections are the keys of a dictionary, and no
    course of another year or section has the same key text
    "year_section" (none has when the years of the courses are among the
    four, see [section_key_inj]). *)
Theorem padding_fills_the_week solve wds courses teachers sections max_time r
  year section :
  solver_sound solve ->
  generate_college_timetable_with_sections solve (Some wds) courses teachers
    sections true max_time = Schedule r ->
  In year YEARS ->
  In section (dict_keys (year_sections sections year)) ->
  NoDup (dict_keys (year_sections sections year)) ->
  (forall c, In c courses ->
     section_key (c_year c) (section_of c) = section_key year section ->
     c_year c = year /\ section_of c = section) ->
  exists T secs days,
    time_slots_of wds = Some T
    /\ dict_get year r = Some secs
    /\ dict_get section secs = Some days
    /\ zsum entry_hours (week_entries days) = Z.of_nat (length (slot_names T))
    /\ ((forall c, In c courses -> c_year c = year -> section_of c = section ->
           c_duration c = 1%nat) ->
        length (week_entries days) = length (slot_names T)).
Proof.
  intros Hsound Hgen Hy Hs Hnd Hkey.
  apply generate_schedule in Hgen.
  destruct Hgen as (wd & wds' & c0 & cs0 & T & st & Hc & -> & HT & Hb & Hsol & Ha).
  injection Hc as ->. destruct (build_inr _ _ _ _ _ _ Hb) as [_ Hst].
  apply Hsound in Hsol. rewrite Hst in Hsol, Ha. clear Hst Hb st.
  set (N := length (slot_names T)) in *.
  set (courses := c0 :: cs0) in *.
  set (val := value _) in *.
  unfold all_courses in Hsol, Ha.
  set (pcs := processed_courses teachers courses) in *.
  set (free := free_courses sections (section_requirements pcs) N) in *.
  assert (Hmem : dict_mem section (year_sections sections year) = true)
    by (rewrite dict_mem_existsb; now apply existsb_eqb_In).
  destruct (week_total T N sections val (pcs ++ free) r year section
              entry_hours (fun o => Z.of_nat (occ_duration o))
              (fun c => Z.of_nat (pc_duration c)) Ha Hy Hmem)
    as (secs & days & Hgy & Hgs & Hdur).
  { intros o day e Hp. now apply placed_hours with (1 := Hp). }
  { reflexivity. }
  destruct (week_total T N sections val (pcs ++ free) r year section
              (fun _ => 1%Z) (fun _ => 1%Z) (fun _ => 1%Z) Ha Hy Hmem)
    as (secs' & days' & Hgy' & Hgs' & Hcnt); [reflexivity | reflexivity |].
  rewrite Hgy in Hgy'. injection Hgy' as <-.
  rewrite Hgs in Hgs'. injection Hgs' as <-.
  exists T, secs, days. split; [exact HT|]. split; [exact Hgy|].
  split; [exact Hgs|].
  assert (Hfit := section_fits T N (pcs ++ free) val year section Hsol).
  rewrite zsum_app in Hdur, Hcnt, Hfit.
  set (used := dict_get_or (section_key year section) 0%nat
                           (section_requirements pcs)).
  assert (Hfree1 :
    zsum (fun c => (Z.of_nat (pc_lectures c)
                    * (if pc_in year section c then 1 else 0))%Z) free =
    if (used <? N)%nat then Z.of_nat (N - used) else 0%Z)
    by now apply free_courses_zsum.
  assert (HfreeD :
    zsum (fun c => (Z.of_nat (pc_lectures c)
                    * (if pc_in year section c
                       then Z.of_nat (pc_duration c) else 0))%Z) free =
    if (used <? N)%nat then Z.of_nat (N - used) else 0%Z).
  { rewrite <- Hfree1. apply zsum_ext_in. intros c Hc.
    apply free_courses_shape in Hc. destruct Hc as (y' & s' & _ & _ & _ & ->).
    reflexivity. }
  assert (Hused :
    zsum (fun c => (Z.of_nat (pc_lectures c)
                    * (if pc_in year section c
                       then Z.of_nat (pc_duration c) else 0))%Z) pcs =
    Z.of_nat used).
  { unfold used. rewrite section_requirements_get. apply zsum_ext_in.
    intros c Hc. unfold pcs, processed_courses in Hc.
    apply in_map_iff in Hc. destruct Hc as (c1 & <- & Hc1).
    unfold pc_in. cbn [process_course pc_year pc_section pc_lectures pc_duration].
    fold (section_of c1).
    destruct (String.eqb_spec (section_key (c_year c1) (section_of c1))
                              (section_key year section)) as [Heq|Hne].
    - destruct (Hkey c1 Hc1 Heq) as [-> ->]. rewrite !String.eqb_refl.
      cbn [andb]. lia.
    - destruct (String.eqb_spec (c_year c1) year) as [Hy1|];
        [|cbn [andb]; lia].
      destruct (String.eqb_spec (section_of c1) section) as [Hs1|];
        [|cbn [andb]; lia].
      exfalso. apply Hne. now rewrite Hy1, Hs1. }
  rewrite HfreeD, Hused in Hdur, Hfit. rewrite Hfree1 in Hcnt.
  assert (Htotal : zsum entry_hours (week_entries days) = Z.of_nat N).
  { rewrite Hdur. destruct (Nat.ltb_spec used N); lia. }
  split; [exact Htotal|]. intros Hone.
  assert (Hpcs1 :
    zsum (fun c => (Z.of_nat (pc_lectures c)
                    * (if pc_in year section c then 1 else 0))%Z) pcs =
    Z.of_nat used).
  { rewrite <- Hused. apply zsum_ext_in. intros c Hc.
    unfold pcs, processed_courses in Hc.
    apply in_map_iff in Hc. destruct Hc as (c1 & <- & Hc1).
    unfold pc_in. cbn [process_course pc_year pc_section pc_lectures pc_duration].
    fold (section_of c1).
    destruct (String.eqb_spec (c_year c1) year) as [Hy1|]; [|reflexivity].
    destruct (String.eqb_spec (section_of c1) section) as [Hs1|];
      [|reflexivity].
    cbn [andb]. now rewrite (Hone c1 Hc1 Hy1 Hs1). }
  rewrite Hpcs1, zsum_const in Hcnt. rewrite Hdur in Htotal. lia.
Qed.

Lemma padding_fills_the_week_witness :
  exists T secs days,
    time_slots_of sample_week = Some T
    /\ dict_get "Year1" sample_schedule = Some secs
    /\ dict_get "A" secs = Some days
    /\ zsum entry_hours (week_entries days) = Z.of_nat (length (slot_names T))
    /\ ((forall c, In c [sample_course] -> c_year c = "Year1" ->
           section_of c = "A" -> c_duration c = 1%nat) ->
        length (week_entries days) = length (slot_names T)).
Proof.
  apply (padding_fills_the_week (checked_solver sample_values) sample_week
           [sample_course] sample_teachers sample_sections 30%Z
           sample_schedule "Year1" "A").
  - apply checked_solver_sound.
  - vm_compute. reflexivity.
  - now left.
  - now left.
  - repeat constructor. simpl. tauto.
  - intros c [<-|[]] _. split; reflexivity.
Defined.

(** C8, as stated, fails: with free periods enabled one lecture of two
    hours fills a week of two slots, and the section has one entry. *)
Lemma two_hour_lecture_counts_once :
  time_slots_of two_slot_week = Some two_slot_tables
  /\ length (slot_names two_slot_tables) = 2%nat
  /\ generate_college_timetable_with_sections
       (checked_solver (fun _ => 0%nat)) (Some two_slot_week) [long_course]
       sample_teachers sample_sections true 30
     = Schedule long_schedule
  /\ match dict_get "Year1" long_schedule with
     | Some secs =>
         match dict_get "A" secs with
         | Some days => length (week_entries days)
         | None => 0%nat
         end
     | None => 0%nat
     end = 1%nat.
Proof. repeat split; vm_compute; reflexivity. Qed.

(** * Further properties of the engine *)

(** ** The slot tables of a calendar of weekdays *)

(** The three tables read by slot index: the name, the day label and the
    clock hour of slot [i] are the [i]-th name, label and hour of the
    blocks of the calendar. *)
Lemma weekday_tables wds T :
  weekday_names wds ->
  time_slots_of wds = Some T ->
  NoDup (slot_names T)
  /\ slot_names T = flat_map block_names (calendar wds)
  /\ (forall i name,
        nth_error (slot_names T) i = Some name ->
        dict_get name (slot_to_day T)
        = nth_error (flat_map block_labels (calendar wds)) i)
  /\ (forall i, (i < length (slot_names T))%nat ->
        hour_at T i = nth_error (flat_map block_hours (calendar wds)) i).
Proof.
  intros Hw HT.
  destruct (time_slots_spec wds) as [T' (HT' & Hn & Ht & Hd)].
  rewrite HT in HT'. injection HT' as <-.
  destruct (weekday_calendar wds Hw) as [Hnd Hweek].
  destruct (block_lengths (calendar wds)) as [Hlh Hll].
  assert (Hnames : NoDup (slot_names T))
    by (rewrite Hn; now apply weekday_names_NoDup).
  split; [exact Hnames|]. split; [exact Hn|]. split.
  - intros i name Hname. rewrite Hd, fold_set_fresh_all.
    + cbn [app]. rewrite <- Hn.
      now apply dict_get_combine_nth.
    + cbn [dict_keys map app]. rewrite map_fst_combine by (symmetry; exact Hll).
      now rewrite <- Hn.
  - intros i Hi. unfold hour_at. rewrite Ht.
    apply dict_get_combine_nth; [apply seq_NoDup|].
    rewrite nth_error_seq. apply Nat.ltb_lt in Hi. now rewrite Hi.
Qed.

Lemma nth_error_flat_map_blocks {B : Type} (f : string * Z * nat -> list B)
  (cal : list (string * Z * nat)) :
  (forall d, length (f d) = snd d) ->
  forall i x,
    nth_error (flat_map f cal) i = Some x ->
    exists d j, In d cal /\ (j < snd d)%nat /\ nth_error (f d) j = Some x.
Proof.
  intros Hlen. induction cal as [|d cal IH]; intros i x Hi.
  - destruct i; discriminate.
  - cbn [flat_map] in Hi. rewrite nth_error_app, Hlen in Hi.
    destruct (Nat.ltb_spec i (snd d)).
    + exists d, i. split; [now left | auto].
    + destruct (IH _ _ Hi) as (d' & j & Hd' & Hj & Hx).
      exists d', j. split; [now right | auto].
Qed.

(** Every day label of a calendar of weekdays is one of the seven keys of
    a week of the response. *)
Lemma weekday_label_key wds i lab :
  weekday_names wds ->
  nth_error (flat_map block_labels (calendar wds)) i = Some lab ->
  In lab week_keys.
Proof.
  intros Hw Hi. destruct (weekday_calendar wds Hw) as [_ Hweek].
  apply nth_error_In, in_flat_map in Hi. destruct Hi as (d & Hd & Hin).
  unfold block_labels in Hin. apply repeat_spec in Hin. subst lab.
  unfold week_keys. apply in_map. now apply Hweek.
Qed.

Lemma In_combine_nth {A B : Type} (l1 : list A) (l2 : list B) :
  forall i a b,
    nth_error l1 i = Some a -> nth_error l2 i = Some b ->
    In (a, b) (combine l1 l2).
Proof.
  revert l2. induction l1 as [|x l1 IH]; intros [|y l2] [|i] a b H1 H2;
    try discriminate; cbn [nth_error] in *.
  - injection H1 as ->. injection H2 as ->. now left.
  - right. eapply IH; eassumption.
Qed.

Lemma combine_flat_map {A B C : Type} (f : A -> list B) (g : A -> list C)
  (l : list A) :
  (forall x, length (f x) = length (g x)) ->
  combine (flat_map f l) (flat_map g l) =
  flat_map (fun x => combine (f x) (g x)) l.
Proof.
  intros Hlen. induction l as [|x l IH]; [reflexivity|].
  cbn [flat_map]. rewrite combine_app by apply Hlen. now rewrite IH.
Qed.

Lemma weekday_slot_to_day wds T :
  weekday_names wds ->
  time_slots_of wds = Some T ->
  slot_to_day T =
  flat_map (fun d => combine (block_names d) (block_labels d)) (calendar wds).
Proof.
  intros Hw HT.
  destruct (time_slots_spec wds) as [T' (HT' & Hn & Ht & Hd)].
  rewrite HT in HT'. injection HT' as <-.
  destruct (weekday_calendar wds Hw) as [Hnd Hweek].
  destruct (block_lengths (calendar wds)) as [Hlh Hll].
  rewrite Hd, fold_set_fresh_all.
  - cbn [app]. apply combine_flat_map. intros d.
    now rewrite block_names_length, block_labels_length.
  - cbn [dict_keys map app]. rewrite map_fst_combine by (symmetry; exact Hll).
    now apply weekday_names_NoDup.
Qed.

(** X1.  On a calendar of weekdays the slot names are pairwise distinct,
    and looking up the name of the [j]-th slot of a day in [slot_to_day]
    gives the lower-cased name of that day. *)
Theorem slot_name_gives_its_day wds T :
  weekday_names wds ->
  time_slots_of wds = Some T ->
  NoDup (slot_names T)
  /\ forall day start hours j,
       In (day, start, hours) (calendar wds) ->
       (j < hours)%nat ->
       In (slot_name_of (abbrev_of day) j) (slot_names T)
       /\ dict_get (slot_name_of (abbrev_of day) j) (slot_to_day T)
          = Some (lower day).
Proof.
  intros Hw HT.
  destruct (weekday_tables wds T Hw HT) as (Hnd & Hn & _ & _).
  split; [exact Hnd|]. intros day start hours j Hd Hj.
  set (d := (day, start, hours)) in *.
  assert (Hname : nth_error (block_names d) j
                  = Some (slot_name_of (abbrev_of day) j)).
  { unfold block_names. rewrite nth_error_map, nth_error_seq.
    apply Nat.ltb_lt in Hj. cbn [snd d]. now rewrite Hj. }
  assert (Hlab : nth_error (block_labels d) j = Some (lower day)).
  { unfold block_labels. now apply nth_error_repeat. }
  split.
  - rewrite Hn. apply in_flat_map. exists d. split; [exact Hd|].
    eapply nth_error_In. exact Hname.
  - apply dict_get_NoDup.
    + rewrite (weekday_slot_to_day wds T Hw HT). unfold dict_keys.
      rewrite <- combine_flat_map
        by (intros x; now rewrite block_names_length, block_labels_length).
      rewrite map_fst_combine; [now rewrite <- Hn|].
      destruct (block_lengths (calendar wds)) as [_ Hll]. now symmetry.
    + rewrite (weekday_slot_to_day wds T Hw HT). apply in_flat_map.
      exists d. split; [exact Hd|]. eapply In_combine_nth; eassumption.
Qed.

Lemma slot_name_gives_its_day_witness :
  dict_get "M4" (slot_to_day sample_tables) = Some "monday".
Proof.
  destruct (slot_name_gives_its_day sample_week sample_tables) as [_ H].
  - repeat constructor; simpl; tauto.
  - vm_compute. reflexivity.
  - destruct (H "Monday" 9%Z 8%nat 3%nat) as [_ Hd].
    + vm_compute. left. reflexivity.
    + lia.
    + exact Hd.
Defined.

(** ** The lists of one section *)

(** The entries of two occurrences of one section on one day do not
    overlap, on a calendar of weekdays. *)
Lemma solved_section_free wds T N items val sections :
  weekday_names wds ->
  time_slots_of wds = Some T ->
  model_sat val (full_model N (extend T N empty_build items)) = true ->
  ForallOrdPairs
    (fun o1 o2 =>
       forall day e1 e2,
         placed T sections val o1 = Some (day, e1) ->
         placed T sections val o2 = Some (day, e2) ->
         occ_section_key o1 = occ_section_key o2 ->
         clock_disjoint e1 e2)
    (b_occs (extend T N empty_build items)).
Proof.
  intros Hw HT Hsat.
  apply (ordered_pairs_impl (excl val occ_section_key)).
  - intros o1 o2 _ _ Hex day e1 e2 H1 H2 Hkey.
    apply (weekday_clock_disjoint wds T sections val o1 o2 day); auto.
  - now apply solved_section_exclusive.
Qed.

(** Two entries at different places of one list of a returned schedule
    do not overlap. *)
Lemma bucket_disjoint solve wds courses teachers sections
  allow_free max_time r :
  solver_sound solve ->
  weekday_names wds ->
  generate_college_timetable_with_sections solve (Some wds) courses teachers
    sections allow_free max_time = Schedule r ->
  forall y s d b i1 i2 e1 e2,
    bucket r y s d = Some b ->
    nth_error b i1 = Some e1 ->
    nth_error b i2 = Some e2 ->
    i1 <> i2 ->
    (e_end_hr e1 <= e_start_hr e2 \/ e_end_hr e2 <= e_start_hr e1)%Z.
Proof.
  intros Hsound Hw Hgen y s d b i1 i2 e1 e2 Hb1 Hn1 Hn2 Hne.
  apply generate_schedule in Hgen.
  destruct Hgen as (wd & wds' & c0 & cs & T & st & Hc & -> & HT & Hb & Hs & Ha).
  injection Hc as ->. destruct (build_inr _ _ _ _ _ _ Hb) as [_ Hst].
  apply Hsound in Hs. rewrite Hst in Hs, Ha.
  set (N := length (slot_names T)) in *.
  set (items := expand _ 0) in *.
  set (val := value _) in *.
  assert (HR := solved_section_free _ T N items val sections Hw HT Hs).
  set (occs := b_occs _) in *.
  destruct (assemble_spec _ _ _ _ _ Ha) as [_ Hbk].
  rewrite Hbk in Hb1.
  destruct (_ && _ && _); [|discriminate].
  injection Hb1 as <-.
  refine (ordered_pairs_nth clock_disjoint clock_disjoint_sym _ _ i1 i2 e1 e2
            Hn1 Hn2 Hne).
  apply (ordered_pairs_perm clock_disjoint clock_disjoint_sym
           (hits T sections val y s d occs));
    [symmetry; apply sort_by_perm|].
  unfold hits.
  refine (ordered_pairs_flat_map _ clock_disjoint _ occs _ _ HR).
  - intros o. destruct (placed T sections val o) as [[day e]|]; [|simpl; lia].
    destruct (_ && _ && _); simpl; lia.
  - intros o1 o2 ex ey Ho Hx Hy.
    destruct (placed T sections val o1) as [[day1 e1']|] eqn:Hp1;
      [|contradiction].
    destruct (placed T sections val o2) as [[day2 e2']|] eqn:Hp2;
      [|contradiction].
    destruct (String.eqb_spec (occ_year o1) y) as [Hy1|]; [|contradiction].
    destruct (String.eqb_spec (occ_section o1) s) as [Hs1|]; [|contradiction].
    destruct (String.eqb_spec (occ_year o2) y) as [Hy2|]; [|contradiction].
    destruct (String.eqb_spec (occ_section o2) s) as [Hs2|]; [|contradiction].
    cbn [andb] in Hx, Hy.
    destruct (String.eqb_spec day1 d) as [->|]; [|contradiction].
    destruct (String.eqb_spec day2 d) as [->|]; [|contradiction].
    destruct Hx as [<-|[]]. destruct Hy as [<-|[]].
    apply (Ho d); auto. unfold occ_section_key. congruence.
Qed.

(** X2.  In a schedule returned for a calendar of weekdays by a solver
    whose solutions satisfy the model, two entries at different places of
    the list of one year, section and day have clock intervals
    [start, end) that do not overlap. *)
Theorem no_section_double_booking solve wds courses teachers sections
  allow_free max_time r :
  solver_sound solve ->
  weekday_names wds ->
  generate_college_timetable_with_sections solve (Some wds) courses teachers
    sections allow_free max_time = Schedule r ->
  forall y s d b i1 i2 e1 e2,
    bucket r y s d = Some b ->
    nth_error b i1 = Some e1 ->
    nth_error b i2 = Some e2 ->
    i1 <> i2 ->
    (e_end_hr e1 <= e_start_hr e2 \/ e_end_hr e2 <= e_start_hr e1)%Z.
Proof. apply bucket_disjoint. Qed.

Lemma no_section_double_booking_witness :
  (11 <= 11 \/ 12 <= 9)%Z.
Proof.
  apply (no_section_double_booking (checked_solver sample_values) sample_week
           [sample_course] sample_teachers sample_sections true 30%Z
           sample_schedule (checked_solver_sound sample_values)
           ltac:(repeat constructor; simpl; tauto)
           ltac:(vm_compute; reflexivity)
           "Year1" "A" "monday" sample_monday 0%nat 1%nat
           {| e_slot := "M1"; e_subject := "Math"; e_teacher := "T1";
              e_section := "A"; e_room := "R1"; e_start_hr := 9; e_end_hr := 11 |}
           {| e_slot := "M3"; e_subject := "Free"; e_teacher := "None";
              e_section := "A"; e_room := "R1"; e_start_hr := 11; e_end_hr := 12 |}).
  - vm_compute. reflexivity.
  - reflexivity.
  - reflexivity.
  - discriminate.
Defined.

(** ** Entries and the courses they come from *)

Lemma weekday_day_label wds T i :
  weekday_names wds ->
  time_slots_of wds = Some T ->
  (i < length (slot_names T))%nat ->
  day_label T (Z.of_nat i)
  = nth_error (flat_map block_labels (calendar wds)) i.
Proof.
  intros Hw HT Hi. destruct (weekday_tables wds T Hw HT) as (_ & _ & Hl & _).
  unfold day_label, py_index.
  destruct (Z.leb_spec 0 (Z.of_nat i)); [|lia]. rewrite Nat2Z.id.
  destruct (nth_error (slot_names T) i) as [name|] eqn:E.
  - now apply Hl.
  - apply nth_error_None in E. lia.
Qed.

(** What a returned schedule says about the run, with the state written
    out. *)
Lemma schedule_run solve wds courses teachers sections allow_free max_time r :
  generate_college_timetable_with_sections solve (Some wds) courses teachers
    sections allow_free max_time = Schedule r ->
  exists T val,
    time_slots_of wds = Some T
    /\ wds <> [] /\ courses <> []
    /\ (solver_sound solve ->
        model_sat val
          (full_model (length (slot_names T))
             (extend T (length (slot_names T)) empty_build
                (expand (all_courses teachers sections courses allow_free
                           (length (slot_names T))) 0))) = true)
    /\ assemble T sections val
         (b_occs
            (extend T (length (slot_names T)) empty_build
               (expand (all_courses teachers sections courses allow_free
                          (length (slot_names T))) 0))) = Some r.
Proof.
  intros Hgen. apply generate_schedule in Hgen.
  destruct Hgen as (wd & wds' & c0 & cs & T & st & Hc & -> & HT & Hb & Hs & Ha).
  injection Hc as ->. destruct (build_inr _ _ _ _ _ _ Hb) as [_ Hst].
  exists T, (value (solve max_time (full_model (length (slot_names T)) st))).
  split; [exact HT|]. split; [discriminate|]. split; [discriminate|].
  rewrite <- Hst. split; [|exact Ha]. intros Hsound. now apply Hsound.
Qed.

(** An entry of a list of the response comes from an occurrence of that
    year and section placed on that day. *)
Lemma bucket_entry T sections val occs r y s d b e :
  assemble T sections val occs = Some r ->
  bucket r y s d = Some b ->
  In e b ->
  In y YEARS
  /\ dict_mem s (year_sections sections y) = true
  /\ In d week_keys
  /\ exists o, In o occs /\ placed T sections val o = Some (d, e)
               /\ occ_year o = y /\ occ_section o = s.
Proof.
  intros Ha Hb He. destruct (assemble_spec _ _ _ _ _ Ha) as [_ Hbk].
  rewrite Hbk in Hb.
  destruct (existsb (String.eqb y) YEARS) eqn:Hy; [|discriminate].
  destruct (dict_mem s (year_sections sections y)) eqn:Hs; [|discriminate].
  destruct (existsb (String.eqb d) week_keys) eqn:Hd; [|discriminate].
  cbn [andb] in Hb. injection Hb as <-.
  apply existsb_eqb_In in Hy, Hd.
  split; [exact Hy|]. split; [reflexivity|]. split; [exact Hd|].
  apply (Permutation_in _ (sort_by_perm _ _)) in He.
  now apply hits_In in He.
Qed.

(** An entry whose start slot is in the domain of its course lies in the
    window of the course, on a calendar of weekdays. *)
Lemma placed_window wds T sections val c i day e :
  weekday_names wds ->
  time_slots_of wds = Some T ->
  (1 <= pc_duration c)%nat ->
  In (val i) (allowed_vals T (length (slot_names T)) c) ->
  placed T sections val (mk_occ c i) = Some (day, e) ->
  e_end_hr e = (e_start_hr e + Z.of_nat (pc_duration c))%Z
  /\ (pc_start_hr c <= e_start_hr e)%Z
  /\ (e_end_hr e <= pc_end_hr c)%Z.
Proof.
  intros Hw HT Hdur Hin Hp.
  apply (allowed_vals_spec T _ c (val i) Hdur) in Hin.
  destruct Hin as (Hlt & Hlab & Hall).
  destruct (placed_weekday _ _ _ _ _ _ _ Hw HT Hp) as (Hl & Hh & He & _).
  cbn [mk_occ occ_id occ_duration] in Hl, Hh, He.
  destruct (weekday_tables wds T Hw HT) as (_ & _ & _ & Hhour).
  destruct (weekday_calendar wds Hw) as [Hnd Hweek].
  assert (Hlabs := weekday_labels_NoDup _ Hnd Hweek).
  set (p := val i) in *. set (q := (p + pc_duration c - 1)%nat) in *.
  split; [exact He|].
  destruct (Hall p) as (hp & Hhp & Hwp); [lia|].
  destruct (Hall q) as (hq & Hhq & Hwq); [lia|].
  rewrite Hhour in Hhp, Hhq by lia.
  rewrite Hh in Hhp. injection Hhp as <-.
  rewrite !(weekday_day_label wds T) in Hlab by (auto; lia).
  rewrite Hl in Hlab. symmetry in Hlab.
  assert (Hpq : (p <= q)%nat) by lia.
  assert (Hm := hours_mono _ Hlabs p q day _ _ Hpq Hl Hlab Hh Hhq).
  split; [lia|]. rewrite He. subst q. lia.
Qed.

(** Where an entry of a returned schedule comes from, and the window it
    lies in. *)
Lemma entry_window solve wds courses teachers sections
  allow_free max_time r :
  solver_sound solve ->
  weekday_names wds ->
  (forall c, In c courses -> (1 <= c_duration c)%nat) ->
  generate_college_timetable_with_sections solve (Some wds) courses teachers
    sections allow_free max_time = Schedule r ->
  forall y s d b e,
    bucket r y s d = Some b ->
    In e b ->
    (exists c, In c courses /\ c_year c = y /\ section_of c = s
       /\ e_subject e = c_subject c /\ e_teacher e = c_teacher c
       /\ e_end_hr e = (e_start_hr e + Z.of_nat (c_duration c))%Z
       /\ (teacher_start teachers (c_teacher c) <= e_start_hr e)%Z
       /\ (e_end_hr e <= teacher_end teachers (c_teacher c))%Z)
    \/ (allow_free = true /\ e_subject e = "Free" /\ e_teacher e = "None"
        /\ e_end_hr e = (e_start_hr e + 1)%Z
        /\ (0 <= e_start_hr e)%Z /\ (e_end_hr e <= 24)%Z).
Proof.
  intros Hsound Hw Hdur Hgen y s d b e Hb He.
  destruct (schedule_run _ _ _ _ _ _ _ _ Hgen) as (T & val & HT & _ & _ & Hsat & Ha).
  specialize (Hsat Hsound).
  destruct (bucket_entry _ _ _ _ _ _ _ _ _ _ Ha Hb He)
    as (_ & _ & _ & o & Ho & Hp & Hy & Hs).
  destruct (solved_occ _ _ _ o Ho) as (c & Hc & Ho').
  assert (Hdom := solved_in_domain _ _ _ _ Hsat c (occ_id o) Hc).
  assert (Hcs := expand_course _ _ _ _ Hc).
  rewrite Ho' in Hp, Hy, Hs. cbn [mk_occ occ_year occ_section occ_id] in Hy, Hs.
  assert (Hsub : e_subject e = pc_subject c /\ e_teacher e = pc_teacher c).
  { unfold placed in Hp.
    destruct (nth_error _ _); [|discriminate].
    destruct (dict_get _ _); [|discriminate].
    destruct (dict_get _ _); [|discriminate].
    injection Hp as _ <-. split; reflexivity. }
  destruct Hsub as [Hsubj Hteach].
  destruct (all_courses_window _ _ _ _ _ _ Hcs)
    as [(c0 & Hc0 & Hpc & Hws & Hwe)|(Hfree & (y' & s' & k & Hpc) & Hws & Hwe)].
  - left. exists c0.
    assert (Hd1 : (1 <= pc_duration c)%nat)
      by (rewrite Hpc; cbn [process_course pc_duration]; now apply Hdur).
    destruct (placed_window wds T sections val c (occ_id o) d e Hw HT Hd1 Hdom Hp)
      as (Hend & Hlo & Hhi).
    rewrite Hws in Hlo. rewrite Hwe in Hhi.
    rewrite Hpc in *.
    cbn [process_course pc_year pc_section pc_subject pc_teacher pc_duration]
      in *.
    fold (section_of c0) in Hs. auto 10.
  - right.
    assert (Hd1 : (1 <= pc_duration c)%nat)
      by (rewrite Hpc; cbn [free_course pc_duration]; lia).
    destruct (placed_window wds T sections val c (occ_id o) d e Hw HT Hd1 Hdom Hp)
      as (Hend & Hlo & Hhi).
    rewrite Hws in Hlo. rewrite Hwe in Hhi.
    rewrite Hpc in Hsubj, Hteach, Hend.
    cbn [free_course pc_subject pc_teacher pc_duration] in *.
    split; [exact Hfree|]. repeat split; auto.
Qed.

(** X3.  In a schedule returned for a calendar of weekdays by a solver
    whose solutions satisfy the model, when every declared course lasts
    at least one slot, every entry is either a lecture of a declared
    course of that year and section, inside the availability window of
    its teacher (from the teacher's start hour, up to the end hour), or,
    with free periods enabled, a one-hour entry "Free" of teacher "None"
    inside 0 to 24. *)
Theorem entries_within_availability solve wds courses teachers sections
  allow_free max_time r :
  solver_sound solve ->
  weekday_names wds ->
  (forall c, In c courses -> (1 <= c_duration c)%nat) ->
  generate_college_timetable_with_sections solve (Some wds) courses teachers
    sections allow_free max_time = Schedule r ->
  forall y s d b e,
    bucket r y s d = Some b ->
    In e b ->
    (exists c, In c courses /\ c_year c = y /\ section_of c = s
       /\ e_subject e = c_subject c /\ e_teacher e = c_teacher c
       /\ e_end_hr e = (e_start_hr e + Z.of_nat (c_duration c))%Z
       /\ (teacher_start teachers (c_teacher c) <= e_start_hr e)%Z
       /\ (e_end_hr e <= teacher_end teachers (c_teacher c))%Z)
    \/ (allow_free = true /\ e_subject e = "Free" /\ e_teacher e = "None"
        /\ e_end_hr e = (e_start_hr e + 1)%Z
        /\ (0 <= e_start_hr e)%Z /\ (e_end_hr e <= 24)%Z).
Proof. apply entry_window. Qed.

Lemma entries_within_availability_witness :
  (exists c, In c [sample_course] /\ c_year c = "Year1" /\ section_of c = "A"
     /\ "Math" = c_subject c /\ "T1" = c_teacher c
     /\ 15%Z = (13 + Z.of_nat (c_duration c))%Z
     /\ (teacher_start sample_teachers (c_teacher c) <= 13)%Z
     /\ (15 <= teacher_end sample_teachers (c_teacher c))%Z)
  \/ (true = true /\ "Math" = "Free" /\ "T1" = "None"
      /\ 15%Z = (13 + 1)%Z /\ (0 <= 13)%Z /\ (15 <= 24)%Z).
Proof.
  apply (entries_within_availability (checked_solver sample_values)
           sample_week [sample_course] sample_teachers sample_sections true
           30%Z sample_schedule (checked_solver_sound sample_values)
           ltac:(repeat constructor; simpl; tauto)
           ltac:(intros c [<-|[]]; simpl; lia)
           ltac:(vm_compute; reflexivity)
           "Year1" "A" "monday" sample_monday
           {| e_slot := "M4"; e_subject := "Math"; e_teacher := "T1";
              e_section := "A"; e_room := "R1"; e_start_hr := 13;
              e_end_hr := 15 |}).
  - vm_compute. reflexivity.
  - right. right. left. reflexivity.
Defined.

(** The fields of the entry of an occurrence. *)
Lemma placed_inv T sections val o day e :
  placed T sections val o = Some (day, e) ->
  nth_error (slot_names T) (val (occ_id o)) = Some (e_slot e)
  /\ dict_get (e_slot e) (slot_to_day T) = Some day
  /\ hour_at T (val (occ_id o)) = Some (e_start_hr e)
  /\ e_subject e = occ_subject o
  /\ e_teacher e = occ_teacher o
  /\ e_section e = occ_section o
  /\ e_room e = room_of sections (occ_year o) (occ_section o)
  /\ e_end_hr e = (e_start_hr e + Z.of_nat (occ_duration o))%Z.
Proof.
  unfold placed, hour_at.
  destruct (nth_error _ _) as [name|]; [|discriminate].
  destruct (dict_get name _) as [day'|] eqn:Hd; [|discriminate].
  destruct (dict_get (val _) _) as [h|]; [|discriminate].
  intros [= <- <-]. cbn. auto 10.
Qed.

(** The slots between two slots of one day are slots of that day. *)
Lemma labels_contiguous (cal : list (string * Z * nat)) :
  NoDup (map (fun d => lower (cal_day d)) cal) ->
  forall p t q lab,
    (p <= t <= q)%nat ->
    nth_error (flat_map block_labels cal) p = Some lab ->
    nth_error (flat_map block_labels cal) q = Some lab ->
    nth_error (flat_map block_labels cal) t = Some lab.
Proof.
  induction cal as [|d cal IH]; intros Hnd p t q lab Hptq Hlp Hlq.
  - destruct p; discriminate.
  - cbn [flat_map map] in *. inversion Hnd as [|? ? Hni Hnd']; subst.
    rewrite nth_error_app, block_labels_length in Hlp, Hlq |- *.
    destruct (Nat.ltb_spec p (snd d)) as [Hp|Hp],
             (Nat.ltb_spec q (snd d)) as [Hq|Hq]; try lia.
    + destruct (Nat.ltb_spec t (snd d)); [|lia].
      apply nth_error_In in Hlp. unfold block_labels in *.
      apply repeat_spec in Hlp. subst lab. now apply nth_error_repeat.
    + exfalso. apply nth_error_In in Hlp, Hlq.
      unfold block_labels in Hlp. apply repeat_spec in Hlp. subst lab.
      apply in_flat_map in Hlq. destruct Hlq as (d' & Hd' & Hin).
      unfold block_labels in Hin. apply repeat_spec in Hin.
      apply Hni. apply in_map_iff. exists d'.
      split; [symmetry; exact Hin | exact Hd'].
    + destruct (Nat.ltb_spec t (snd d)); [lia|].
      apply (IH Hnd' (p - snd d)%nat (t - snd d)%nat (q - snd d)%nat lab);
        try assumption. lia.
Qed.

(** X4.  In a schedule returned for a calendar of weekdays by a solver
    whose solutions satisfy the model, when every declared course lasts
    at least one slot, the entry of a lecture names its first slot, and
    every slot the lecture occupies (as many as its hours, from that slot
    on) is a slot of the calendar that carries the day under which the
    entry is filed: no lecture runs into the next day. *)
Theorem lecture_stays_within_its_day solve wds courses teachers sections
  allow_free max_time r :
  solver_sound solve ->
  weekday_names wds ->
  (forall c, In c courses -> (1 <= c_duration c)%nat) ->
  generate_college_timetable_with_sections solve (Some wds) courses teachers
    sections allow_free max_time = Schedule r ->
  forall y s d b e,
    bucket r y s d = Some b ->
    In e b ->
    exists T i,
      time_slots_of wds = Some T
      /\ nth_error (slot_names T) i = Some (e_slot e)
      /\ hour_at T i = Some (e_start_hr e)
      /\ (1 <= entry_hours e)%Z
      /\ forall k, (Z.of_nat k < entry_hours e)%Z ->
           (i + k < length (slot_names T))%nat
           /\ day_label T (Z.of_nat (i + k)) = Some d.
Proof.
  intros Hsound Hw Hdur Hgen y s d b e Hb He.
  destruct (schedule_run _ _ _ _ _ _ _ _ Hgen) as (T & val & HT & _ & _ & Hsat & Ha).
  specialize (Hsat Hsound).
  destruct (bucket_entry _ _ _ _ _ _ _ _ _ _ Ha Hb He)
    as (_ & _ & _ & o & Ho & Hp & _ & _).
  destruct (solved_occ _ _ _ o Ho) as (c & Hc & Ho').
  assert (Hdom := solved_in_domain _ _ _ _ Hsat c (occ_id o) Hc).
  assert (Hcs := expand_course _ _ _ _ Hc).
  assert (Hd1 : (1 <= pc_duration c)%nat).
  { destruct (all_courses_window _ _ _ _ _ _ Hcs)
      as [(c0 & Hc0 & Hpc & _)|(_ & (y' & s' & k & Hpc) & _)]; rewrite Hpc.
    - cbn [process_course pc_duration]. now apply Hdur.
    - cbn [free_course pc_duration]. lia. }
  destruct (placed_inv _ _ _ _ _ _ Hp) as (Hname & _ & Hhour & _ & _ & _ & _ & Hend).
  destruct (placed_weekday _ _ _ _ _ _ _ Hw HT Hp) as (Hl & _).
  rewrite Ho' in Hend. cbn [mk_occ occ_duration] in Hend.
  apply (allowed_vals_spec T _ c _ Hd1) in Hdom.
  destruct Hdom as (Hlt & Hlab & _).
  set (p := val (occ_id o)) in *.
  exists T, p. split; [exact HT|]. split; [exact Hname|].
  split; [exact Hhour|]. unfold entry_hours. split; [lia|].
  intros k Hk. split; [lia|].
  destruct (weekday_calendar wds Hw) as [Hnd Hweek].
  assert (Hlabs := weekday_labels_NoDup _ Hnd Hweek).
  rewrite !(weekday_day_label wds T) in Hlab by (auto; lia).
  rewrite (weekday_day_label wds T) by (auto; lia).
  rewrite Hl in Hlab. symmetry in Hlab.
  apply (labels_contiguous _ Hlabs p (p + k)%nat (p + pc_duration c - 1)%nat);
    auto. lia.
Qed.

Lemma lecture_stays_within_its_day_witness :
  exists T i,
    time_slots_of sample_week = Some T
    /\ nth_error (slot_names T) i = Some "M4"
    /\ hour_at T i = Some 13%Z
    /\ (1 <= 15 - 13)%Z
    /\ forall k, (Z.of_nat k < 15 - 13)%Z ->
         (i + k < length (slot_names T))%nat
         /\ day_label T (Z.of_nat (i + k)) = Some "monday".
Proof.
  apply (lecture_stays_within_its_day (checked_solver sample_values)
           sample_week [sample_course] sample_teachers sample_sections true
           30%Z sample_schedule (checked_solver_sound sample_values)
           ltac:(repeat constructor; simpl; tauto)
           ltac:(intros c [<-|[]]; simpl; lia)
           ltac:(vm_compute; reflexivity)
           "Year1" "A" "monday" sample_monday
           {| e_slot := "M4"; e_subject := "Math"; e_teacher := "T1";
              e_section := "A"; e_room := "R1"; e_start_hr := 13;
              e_end_hr := 15 |}).
  - vm_compute. reflexivity.
  - right. right. left. reflexivity.
Defined.

(** X5.  Every entry of a returned schedule is filed under its own
    section and under the day that [slot_to_day] gives for its slot name;
    the slot name is one of the calendar's, the day is one of the seven
    keys of a week, the year one of the four, and the room is the one the
    sections table gives for that year and section (empty when it gives
    none). *)
Theorem entry_filed_under_its_slot_day solve wds courses teachers sections
  allow_free max_time r :
  generate_college_timetable_with_sections solve (Some wds) courses teachers
    sections allow_free max_time = Schedule r ->
  forall y s d b e,
    bucket r y s d = Some b ->
    In e b ->
    exists T,
      time_slots_of wds = Some T
      /\ In (e_slot e) (slot_names T)
      /\ dict_get (e_slot e) (slot_to_day T) = Some d
      /\ In d week_keys /\ In y YEARS
      /\ e_section e = s
      /\ e_room e = room_of sections y s.
Proof.
  intros Hgen y s d b e Hb He.
  destruct (schedule_run _ _ _ _ _ _ _ _ Hgen) as (T & val & HT & _ & _ & _ & Ha).
  destruct (bucket_entry _ _ _ _ _ _ _ _ _ _ Ha Hb He)
    as (Hy & _ & Hd & o & Ho & Hp & Hoy & Hos).
  destruct (placed_inv _ _ _ _ _ _ Hp) as (Hname & Hday & _ & _ & _ & Hsec & Hroom & _).
  exists T. split; [exact HT|].
  split; [eapply nth_error_In; exact Hname|].
  split; [exact Hday|]. split; [exact Hd|]. split; [exact Hy|].
  rewrite Hsec, Hroom, Hoy, Hos. auto.
Qed.

Lemma entry_filed_under_its_slot_day_witness :
  exists T,
    time_slots_of sample_week = Some T
    /\ In "M3" (slot_names T)
    /\ dict_get "M3" (slot_to_day T) = Some "monday"
    /\ In "monday" week_keys /\ In "Year1" YEARS
    /\ "A" = "A"
    /\ "R1" = room_of sample_sections "Year1" "A".
Proof.
  apply (entry_filed_under_its_slot_day (checked_solver sample_values)
           sample_week [sample_course] sample_teachers sample_sections true
           30%Z sample_schedule ltac:(vm_compute; reflexivity)
           "Year1" "A" "monday" sample_monday
           {| e_slot := "M3"; e_subject := "Free"; e_teacher := "None";
              e_section := "A"; e_room := "R1"; e_start_hr := 11;
              e_end_hr := 12 |}).
  - vm_compute. reflexivity.
  - right. left. reflexivity.
Defined.

(** ** Uncaught exceptions *)

Lemma add_entry_defined T sections val r o day e :
  resp_inv sections r ->
  placed T sections val o = Some (day, e) ->
  In day week_keys ->
  exists r', add_entry T sections val (Some r) o = Some r'.
Proof.
  intros Hinv Hp Hday. unfold add_entry. rewrite Hp.
  specialize (Hinv (occ_year o)).
  destruct (dict_get (occ_year o) r) as [secs|]; [|eauto].
  destruct Hinv as [_ Hsec]. specialize (Hsec (occ_section o)).
  destruct (dict_get (occ_section o) secs) as [days|]; [|eauto].
  destruct Hsec as [_ Hk].
  destruct (dict_get day days) as [bk|] eqn:Hd; [eauto|].
  apply dict_get_None in Hd. rewrite Hk in Hd. contradiction.
Qed.

Lemma add_entries_defined T sections val occs :
  forall r,
    resp_inv sections r ->
    (forall o, In o occs ->
       exists day e, placed T sections val o = Some (day, e)
                     /\ In day week_keys) ->
    exists r', fold_left (add_entry T sections val) occs (Some r) = Some r'.
Proof.
  induction occs as [|o occs IH]; intros r Hinv Hall; cbn [fold_left];
    [eauto|].
  destruct (Hall o (or_introl eq_refl)) as (day & e & Hp & Hday).
  destruct (add_entry_defined _ _ _ _ _ _ _ Hinv Hp Hday) as [r1 H1].
  rewrite H1. apply IH.
  - now destruct (add_entry_step _ _ _ _ _ _ H1 Hinv).
  - intros o' Ho'. apply Hall. now right.
Qed.

(** On a calendar of weekdays every slot index gives an entry, filed
    under one of the seven days. *)
Lemma weekday_placed wds T sections val o :
  weekday_names wds ->
  time_slots_of wds = Some T ->
  (val (occ_id o) < length (slot_names T))%nat ->
  exists day e, placed T sections val o = Some (day, e) /\ In day week_keys.
Proof.
  intros Hw HT Hlt.
  destruct (time_slots_lookups wds T _ HT Hlt) as [[lab Hlab] [h Hh]].
  assert (Hkey : In lab week_keys).
  { rewrite (weekday_day_label wds T) in Hlab by auto.
    eapply weekday_label_key; eassumption. }
  unfold day_label, py_index in Hlab.
  destruct (Z.leb_spec 0 (Z.of_nat (val (occ_id o)))); [|lia].
  rewrite Nat2Z.id in Hlab. unfold hour_at in Hh. unfold placed.
  destruct (nth_error (slot_names T) (val (occ_id o))) as [name|];
    [|discriminate].
  rewrite Hlab, Hh. eauto.
Qed.

(** X6.  With a solver whose solutions satisfy the model, a call on a
    calendar of weekdays ends in an error message or in a schedule: none
    of the table lookups of the calendar builder and of the assembler
    fails. *)
Theorem weekday_run_never_raises solve constraints courses teachers sections
  allow_free max_time :
  solver_sound solve ->
  (forall wds, constraints = Some wds -> weekday_names wds) ->
  generate_college_timetable_with_sections solve constraints courses teachers
    sections allow_free max_time <> Raise.
Proof.
  intros Hsound Hw.
  destruct constraints as [[|wd wds]|], courses as [|c0 cs]; try discriminate.
  specialize (Hw _ eq_refl).
  destruct (time_slots_spec (wd :: wds)) as [T (HT & _)].
  rewrite (generate_unfold _ _ _ _ _ _ _ _ _ _ HT).
  destruct (build T teachers sections (c0 :: cs) allow_free) as [msg|st] eqn:Hb;
    [discriminate|]. cbv zeta.
  destruct (has_solution _) eqn:Hs; cbn [negb]; [|discriminate].
  destruct (build_inr _ _ _ _ _ _ Hb) as [_ Hst].
  apply Hsound in Hs. rewrite Hst in Hs |- *.
  set (val := value _) in *.
  unfold assemble.
  destruct (add_entries_defined T sections val
              (b_occs (extend T (length (slot_names T)) empty_build
                 (expand (all_courses teachers sections (c0 :: cs) allow_free
                            (length (slot_names T))) 0)))
              (init_response sections) (init_resp_inv sections)) as [r' Hr'].
  - intros o Ho. apply (weekday_placed (wd :: wds)); auto.
    destruct (solved_occ _ _ _ o Ho) as (c & Hc & _).
    apply (allowed_vals_bound T _ c).
    now apply (solved_in_domain _ _ _ _ Hs).
  - rewrite Hr'. discriminate.
Qed.

Lemma weekday_run_never_raises_witness :
  generate_college_timetable_with_sections (checked_solver sample_values)
    (Some sample_week) [sample_course] sample_teachers sample_sections true 30
  <> Raise.
Proof.
  apply weekday_run_never_raises.
  - apply checked_solver_sound.
  - intros wds [= <-]. repeat constructor; simpl; tauto.
Defined.

Lemma fold_set_value {V : Type} (kvs : list (string * V)) :
  forall (d : dict string V) (k : string) (v : V),
    dict_get k (fold_left (fun d kv => dict_set (fst kv) (snd kv) d) kvs d)
    = Some v ->
    In (k, v) kvs \/ dict_get k d = Some v.
Proof.
  induction kvs as [|[k0 v0] kvs IH]; intros d k v Hget; cbn [fold_left] in *;
    [now right|].
  apply IH in Hget. destruct Hget as [Hin|Hget]; [left; now right|].
  cbn [fst snd] in Hget. destruct (String.eqb_spec k k0) as [->|Hne].
  - rewrite dict_get_set_same in Hget. injection Hget as ->. left. now left.
  - rewrite dict_get_set_other in Hget by exact Hne. now right.
Qed.

(** Every day label of the slot table is the lower-cased name of a
    working day. *)
Lemma slot_label_origin wds T name lab :
  time_slots_of wds = Some T ->
  dict_get name (slot_to_day T) = Some lab ->
  exists w, In w wds /\ lab = lower (wd_day w).
Proof.
  intros HT Hget.
  destruct (time_slots_spec wds) as [T' (HT' & _ & _ & Hd)].
  rewrite HT in HT'. injection HT' as <-.
  rewrite Hd in Hget. apply fold_set_value in Hget.
  destruct Hget as [Hin|Hget]; [|discriminate].
  apply in_combine_r, in_flat_map in Hin. destruct Hin as (d & Hd' & Hin).
  unfold block_labels in Hin. apply repeat_spec in Hin.
  apply (in_map cal_day) in Hd'. rewrite calendar_days in Hd'.
  destruct (slot_counts_keys wds [] (NoDup_nil _)) as [_ Hkeys].
  apply Hkeys in Hd'. destruct Hd' as [[]|Hd'].
  apply in_map_iff in Hd'. destruct Hd' as (w & Hw & Hin').
  exists w. split; [exact Hin'|]. now rewrite Hw.
Qed.

Lemma expand_In (cs : list pcourse) (c : pcourse) :
  In c cs -> (1 <= pc_lectures c)%nat ->
  forall next, exists i, In (c, i) (expand cs next).
Proof.
  induction cs as [|c0 cs IH]; intros Hin Hl next; [contradiction|].
  cbn [expand]. destruct Hin as [->|Hin].
  - exists next. apply in_or_app. left. apply in_map, in_seq. lia.
  - destruct (IH Hin Hl (next + pc_lectures c0)%nat) as [i Hi].
    exists i. apply in_or_app. now right.
Qed.

(** X7.  When no working day carries the name of a weekday (in any
    letter case) and some declared course with at least one lecture
    belongs to one of the four years and to a section listed for it, the
    call never returns a schedule: it ends in an error message or in an
    uncaught exception, since the day of the lecture is not a key of the
    section's week. *)
Theorem foreign_days_never_scheduled solve wds courses teachers sections
  allow_free max_time c :
  (forall w, In w wds -> ~ In (lower (wd_day w)) week_keys) ->
  In c courses ->
  (1 <= c_lectures c)%nat ->
  In (c_year c) YEARS ->
  dict_mem (section_of c) (year_sections sections (c_year c)) = true ->
  forall r,
    generate_college_timetable_with_sections solve (Some wds) courses teachers
      sections allow_free max_time <> Schedule r.
Proof.
  intros Hforeign Hc Hl Hy Hs r Hgen.
  destruct (schedule_run _ _ _ _ _ _ _ _ Hgen) as (T & val & HT & _ & _ & _ & Ha).
  set (N := length (slot_names T)) in *.
  set (pc := process_course teachers c).
  assert (Hpc : In pc (all_courses teachers sections courses allow_free N)).
  { unfold all_courses, processed_courses.
    destruct allow_free; [apply in_or_app; left|]; now apply in_map. }
  destruct (expand_In _ pc Hpc Hl 0) as [i Hi].
  assert (Ho : In (mk_occ pc i)
                  (b_occs (extend T N empty_build
                     (expand (all_courses teachers sections courses allow_free N)
                             0)))).
  { cbn [extend b_occs empty_build app].
    change (mk_occ pc i) with ((fun ci => mk_occ (fst ci) (snd ci)) (pc, i)).
    now apply in_map. }
  destruct (assemble_day _ _ _ _ _ _ Ha Ho) as (day & e & Hp & Hday).
  destruct (placed_inv _ _ _ _ _ _ Hp) as (_ & Hlab & _).
  destruct (slot_label_origin _ _ _ _ HT Hlab) as (w & Hw & ->).
  apply (Hforeign w Hw). apply Hday. apply in_response_spec.
  cbn [mk_occ occ_year occ_section pc process_course pc_year pc_section].
  fold (section_of c). auto.
Qed.

Lemma foreign_days_never_scheduled_witness :
  generate_college_timetable_with_sections
    (checked_solver (fun _ => 0%nat))
    (Some [{| wd_day := "Holiday"; wd_start_hr := 9; wd_total_hours := 1 |}])
    [one_lecture] sample_teachers year1_only false 30
  <> Schedule [].
Proof.
  apply (foreign_days_never_scheduled _ _ _ _ _ _ _ one_lecture).
  - intros w [<-|[]]. vm_compute. intuition discriminate.
  - now left.
  - simpl. lia.
  - now left.
  - reflexivity.
Defined.

(** ** The load of a teacher *)

Lemma zsum_nonneg {A : Type} (f : A -> Z) (l : list A) :
  (forall x, In x l -> (0 <= f x)%Z) -> (0 <= zsum f l)%Z.
Proof.
  induction l as [|x l IH]; intros H; [cbn; lia|].
  rewrite zsum_cons.
  assert (0 <= f x)%Z by (apply H; now left).
  assert (0 <= zsum f l)%Z by (apply IH; intros y Hy; apply H; now right).
  lia.
Qed.

Lemma zsum_le {A : Type} (f g : A -> Z) (l : list A) :
  (forall x, In x l -> (f x <= g x)%Z) -> (zsum f l <= zsum g l)%Z.
Proof.
  induction l as [|x l IH]; intros H; [cbn; lia|].
  rewrite !zsum_cons.
  assert (f x <= g x)%Z by (apply H; now left).
  assert (zsum f l <= zsum g l)%Z by (apply IH; intros y Hy; apply H; now right).
  lia.
Qed.

(** The occurrences of a list of courses, weighed by [w]. *)
Lemma occs_weight T N (cs : list pcourse) (w : occ -> Z) (f : pcourse -> Z) :
  (forall c i, w (mk_occ c i) = f c) ->
  zsum w (b_occs (extend T N empty_build (expand cs 0))) =
  zsum (fun c => (Z.of_nat (pc_lectures c) * f c)%Z) cs.
Proof.
  intros Hw. cbn [extend b_occs empty_build app]. rewrite zsum_map.
  rewrite <- (expand_zsum f cs 0).
  apply zsum_ext_in. intros [c i] _. cbn [fst snd]. now rewrite Hw.
Qed.

(** The occurrences that share a key fit into the week when no two of
    them overlap. *)
Lemma group_total (a : nat -> nat) (N : nat) (key : occ -> string)
  (k : string) (l : list occ) :
  ForallOrdPairs (excl a key) l ->
  (forall o, In o l -> (a (occ_id o) + occ_duration o <= N)%nat) ->
  (zsum (fun o => if String.eqb (key o) k
                  then Z.of_nat (occ_duration o) else 0%Z) l
   <= Z.of_nat N)%Z.
Proof.
  intros Hf Hb. rewrite zsum_filter. apply (disjoint_total a).
  - apply (ordered_pairs_impl (excl a key)).
    + intros o1 o2 H1 H2 Hex. apply Hex.
      apply filter_In in H1, H2. destruct H1 as [_ H1], H2 as [_ H2].
      apply String.eqb_eq in H1, H2. congruence.
    + now apply ordered_pairs_filter.
  - intros o Ho. apply filter_In in Ho. now apply Hb.
Qed.

(** The lectures of one teacher fit into the week. *)
Lemma teacher_fits T N (cs : list pcourse) val (t : string) :
  model_sat val (full_model N (extend T N empty_build (expand cs 0))) = true ->
  (zsum (fun c => (Z.of_nat (pc_lectures c)
                   * (if String.eqb (pc_teacher c) t
                      then Z.of_nat (pc_duration c) else 0))%Z) cs
   <= Z.of_nat N)%Z.
Proof.
  intros Hsat.
  rewrite <- (occs_weight T N cs
                (fun o => if String.eqb (occ_teacher o) t
                          then Z.of_nat (occ_duration o) else 0%Z))
    by reflexivity.
  apply (group_total val N occ_teacher).
  - now apply solved_teacher_exclusive.
  - intros o Ho. destruct (solved_occ T N _ o Ho) as (c & Hc & ->).
    cbn [mk_occ occ_id occ_duration].
    apply (allowed_vals_bound T N c).
    now apply (solved_in_domain T N (expand cs 0) val Hsat).
Qed.

(** The hours of the declared courses of one teacher fit into the week
    whenever a schedule is returned. *)
Lemma declared_load solve wds courses teachers sections allow_free max_time r
  (t : string) :
  solver_sound solve ->
  generate_college_timetable_with_sections solve (Some wds) courses teachers
    sections allow_free max_time = Schedule r ->
  exists T,
    time_slots_of wds = Some T
    /\ (zsum (fun c => if String.eqb (c_teacher c) t
                       then Z.of_nat (c_lectures c * c_duration c) else 0%Z)
             courses
        <= Z.of_nat (length (slot_names T)))%Z.
Proof.
  intros Hsound Hgen.
  destruct (schedule_run _ _ _ _ _ _ _ _ Hgen) as (T & val & HT & _ & _ & Hsat & _).
  specialize (Hsat Hsound). exists T. split; [exact HT|].
  apply (teacher_fits _ _ _ _ t) in Hsat.
  set (N := length (slot_names T)) in *.
  set (g := fun c => (Z.of_nat (pc_lectures c)
                      * (if String.eqb (pc_teacher c) t
                         then Z.of_nat (pc_duration c) else 0))%Z) in *.
  assert (Hpcs : zsum g (processed_courses teachers courses) =
                 zsum (fun c => if String.eqb (c_teacher c) t
                                then Z.of_nat (c_lectures c * c_duration c)
                                else 0%Z) courses).
  { unfold processed_courses. rewrite zsum_map. apply zsum_ext_in.
    intros c _. unfold g.
    cbn [process_course pc_lectures pc_teacher pc_duration].
    destruct (String.eqb (c_teacher c) t); lia. }
  rewrite <- Hpcs. unfold all_courses in Hsat.
  destruct allow_free; [|exact Hsat].
  rewrite zsum_app in Hsat.
  assert (0 <= zsum g (free_courses sections
                         (section_requirements
                            (processed_courses teachers courses)) N))%Z.
  { apply zsum_nonneg. intros c _. unfold g.
    destruct (String.eqb (pc_teacher c) t); lia. }
  lia.
Qed.

(** X8.  Whenever a schedule is returned by a solver whose solutions
    satisfy the model, the declared courses of any one teacher ask for no
    more slots (lectures times duration, summed) than the calendar has:
    an overloaded teacher never gets a schedule. *)
Theorem teacher_load_fits solve wds courses teachers sections allow_free
  max_time r (t : string) :
  solver_sound solve ->
  generate_college_timetable_with_sections solve (Some wds) courses teachers
    sections allow_free max_time = Schedule r ->
  exists T,
    time_slots_of wds = Some T
    /\ (zsum (fun c => if String.eqb (c_teacher c) t
                       then Z.of_nat (c_lectures c * c_duration c) else 0%Z)
             courses
        <= Z.of_nat (length (slot_names T)))%Z.
Proof. apply declared_load. Qed.

Lemma teacher_load_fits_witness :
  exists T,
    time_slots_of sample_week = Some T
    /\ (zsum (fun c => if String.eqb (c_teacher c) "T1"
                       then Z.of_nat (c_lectures c * c_duration c) else 0%Z)
             [sample_course]
        <= Z.of_nat (length (slot_names T)))%Z.
Proof.
  apply (teacher_load_fits (checked_solver sample_values) sample_week
           [sample_course] sample_teachers sample_sections true 30%Z
           sample_schedule "T1" (checked_solver_sound sample_values)).
  vm_compute. reflexivity.
Defined.

(** X9.  With free periods enabled, whenever a schedule is returned by a
    solver whose solutions satisfy the model, the free periods of all
    years and sections together are at most as many as the calendar has
    slots: they all carry the teacher name "None", and the teacher
    constraint keeps any two of them apart. *)
Theorem free_periods_share_the_week solve wds courses teachers sections
  max_time r :
  solver_sound solve ->
  generate_college_timetable_with_sections solve (Some wds) courses teachers
    sections true max_time = Schedule r ->
  exists T,
    time_slots_of wds = Some T
    /\ (zsum (fun c => Z.of_nat (pc_lectures c))
             (free_courses sections
                (section_requirements (processed_courses teachers courses))
                (length (slot_names T)))
        <= Z.of_nat (length (slot_names T)))%Z.
Proof.
  intros Hsound Hgen.
  destruct (schedule_run _ _ _ _ _ _ _ _ Hgen) as (T & val & HT & _ & _ & Hsat & _).
  specialize (Hsat Hsound). exists T. split; [exact HT|].
  apply (teacher_fits _ _ _ _ "None") in Hsat.
  set (N := length (slot_names T)) in *.
  unfold all_courses in Hsat. rewrite zsum_app in Hsat.
  set (g := fun c => (Z.of_nat (pc_lectures c)
                      * (if String.eqb (pc_teacher c) "None"
                         then Z.of_nat (pc_duration c) else 0))%Z) in *.
  assert (0 <= zsum g (processed_courses teachers courses))%Z.
  { apply zsum_nonneg. intros c _. unfold g.
    destruct (String.eqb (pc_teacher c) "None"); lia. }
  assert (Hfree : zsum g (free_courses sections
                            (section_requirements
                               (processed_courses teachers courses)) N) =
                  zsum (fun c => Z.of_nat (pc_lectures c))
                       (free_courses sections
                          (section_requirements
                             (processed_courses teachers courses)) N)).
  { apply zsum_ext_in. intros c Hc. apply free_courses_shape in Hc.
    destruct Hc as (y' & s' & _ & _ & _ & ->). unfold g.
    cbn [free_course pc_teacher pc_duration pc_lectures].
    rewrite String.eqb_refl. lia. }
  lia.
Qed.

Lemma free_periods_share_the_week_witness :
  exists T,
    time_slots_of sample_week = Some T
    /\ (zsum (fun c => Z.of_nat (pc_lectures c))
             (free_courses sample_sections
                (section_requirements
                   (processed_courses sample_teachers [sample_course]))
                (length (slot_names T)))
        <= Z.of_nat (length (slot_names T)))%Z.
Proof.
  apply (free_periods_share_the_week (checked_solver sample_values) sample_week
           [sample_course] sample_teachers sample_sections 30%Z
           sample_schedule (checked_solver_sound sample_values)).
  vm_compute. reflexivity.
Defined.

(** ** Every lecture appears *)

(** X10.  In a returned schedule, in the week of a year and section of
    the response, the entries with a given subject (other than "Free")
    and teacher are as many as the lectures of the declared courses of
    that year, section, subject and teacher: every lecture appears, once.
    Nothing is assumed of the solver. *)
Theorem declared_lectures_all_appear solve wds courses teachers sections
  allow_free max_time r year section subj t :
  generate_college_timetable_with_sections solve (Some wds) courses teachers
    sections allow_free max_time = Schedule r ->
  In year YEARS ->
  dict_mem section (year_sections sections year) = true ->
  subj <> "Free" ->
  exists secs days,
    dict_get year r = Some secs
    /\ dict_get section secs = Some days
    /\ Z.of_nat
         (length (filter (fun e => String.eqb (e_subject e) subj
                                   && String.eqb (e_teacher e) t)
                         (week_entries days)))
       = zsum (fun c => if String.eqb (c_year c) year
                           && String.eqb (section_of c) section
                           && (String.eqb (c_subject c) subj
                               && String.eqb (c_teacher c) t)
                        then Z.of_nat (c_lectures c) else 0%Z)
              courses.
Proof.
  intros Hgen Hy Hs Hsubj.
  destruct (schedule_run _ _ _ _ _ _ _ _ Hgen) as (T & val & HT & _ & _ & _ & Ha).
  set (N := length (slot_names T)) in *.
  destruct (week_total T N sections val _ r year section
              (fun e => if String.eqb (e_subject e) subj
                           && String.eqb (e_teacher e) t then 1%Z else 0%Z)
              (fun o => if String.eqb (occ_subject o) subj
                           && String.eqb (occ_teacher o) t then 1%Z else 0%Z)
              (fun c => if String.eqb (pc_subject c) subj
                           && String.eqb (pc_teacher c) t then 1%Z else 0%Z)
              Ha Hy Hs)
    as (secs & days & Hgy & Hgs & Hsum).
  { intros o day e Hp.
    destruct (placed_inv _ _ _ _ _ _ Hp) as (_ & _ & _ & -> & -> & _).
    reflexivity. }
  { reflexivity. }
  exists secs, days. split; [exact Hgy|]. split; [exact Hgs|].
  rewrite zsum_filter, zsum_const in Hsum.
  rewrite Z.mul_1_r in Hsum. rewrite Hsum.
  transitivity
    (zsum (fun c => (Z.of_nat (pc_lectures c)
                     * (if pc_in year section c
                        then if String.eqb (pc_subject c) subj
                                && String.eqb (pc_teacher c) t
                             then 1 else 0
                        else 0))%Z)
          (processed_courses teachers courses)).
  - unfold all_courses. destruct allow_free; [|reflexivity].
    rewrite zsum_app.
    rewrite (zsum_zero _ (free_courses _ _ _)); [lia|].
    intros c Hc. apply free_courses_shape in Hc.
    destruct Hc as (y' & s' & _ & _ & _ & ->).
    cbn [free_course pc_subject pc_teacher pc_lectures].
    destruct (String.eqb_spec "Free" subj) as [<-|]; [congruence|].
    cbn [andb]. destruct (pc_in year section _); lia.
  - unfold processed_courses. rewrite zsum_map. apply zsum_ext_in.
    intros c _. unfold pc_in.
    cbn [process_course pc_year pc_section pc_subject pc_teacher pc_lectures].
    fold (section_of c).
    destruct (String.eqb (c_year c) year && String.eqb (section_of c) section);
      cbn [andb]; [|lia].
    destruct (String.eqb (c_subject c) subj && String.eqb (c_teacher c) t); lia.
Qed.

Lemma declared_lectures_all_appear_witness :
  exists secs days,
    dict_get "Year1" sample_schedule = Some secs
    /\ dict_get "A" secs = Some days
    /\ Z.of_nat
         (length (filter (fun e => String.eqb (e_subject e) "Math"
                                   && String.eqb (e_teacher e) "T1")
                         (week_entries days)))
       = zsum (fun c => if String.eqb (c_year c) "Year1"
                           && String.eqb (section_of c) "A"
                           && (String.eqb (c_subject c) "Math"
                               && String.eqb (c_teacher c) "T1")
                        then Z.of_nat (c_lectures c) else 0%Z)
              [sample_course].
Proof.
  apply (declared_lectures_all_appear (checked_solver sample_values)
           sample_week [sample_course] sample_teachers sample_sections true
           30%Z sample_schedule "Year1" "A" "Math" "T1").
  - vm_compute. reflexivity.
  - now left.
  - reflexivity.
  - discriminate.
Defined.

(** ** The occurrences of the model *)

(** X11.  When no course is rejected, the occurrences are numbered 0, 1,
    2, ... in the order in which they are created, the counter ends at
    their number, they are as many as the lectures of all courses (free
    periods included), and every key of [start_at] pairs one of these
    occurrences with a slot index of the calendar. *)
Theorem occurrence_ids_dense T teachers sections courses allow_free st :
  build T teachers sections courses allow_free = inr st ->
  map occ_id (b_occs st) = seq 0 (length (b_occs st))
  /\ b_next st = length (b_occs st)
  /\ Z.of_nat (length (b_occs st)) =
     zsum (fun c => Z.of_nat (pc_lectures c))
          (all_courses teachers sections courses allow_free
                       (length (slot_names T)))
  /\ forall i s, In (i, s) (b_start_at st) ->
       (i < length (b_occs st))%nat /\ (s < length (slot_names T))%nat.
Proof.
  intros Hb. destruct (build_inr _ _ _ _ _ _ Hb) as [_ ->].
  set (N := length (slot_names T)).
  set (cs := all_courses teachers sections courses allow_free N).
  cbn [extend b_occs b_next b_start_at empty_build app Nat.add].
  rewrite length_map.
  assert (Hids : map occ_id (map (fun ci => mk_occ (fst ci) (snd ci))
                                 (expand cs 0)) =
                 seq 0 (length (expand cs 0))).
  { rewrite map_map. cbn [mk_occ occ_id]. apply (expand_ids cs 0). }
  split; [exact Hids|]. split; [reflexivity|]. split.
  - assert (H1 := expand_zsum (fun _ => 1%Z) cs 0). cbv beta in H1.
    rewrite zsum_const in H1. rewrite Z.mul_1_r in H1. rewrite H1.
    apply zsum_ext_in. intros c _. lia.
  - intros i s Hin. apply in_flat_map in Hin.
    destruct Hin as ([c i'] & Hci & Hin). cbn [fst snd] in Hin.
    apply in_map_iff in Hin. destruct Hin as (s' & [= <- <-] & Hs).
    split.
    + apply (in_map snd) in Hci. rewrite (expand_ids cs 0) in Hci.
      cbn [snd] in Hci. apply in_seq in Hci. lia.
    + now apply (allowed_vals_bound T N c).
Qed.

Lemma occurrence_ids_dense_witness :
  map occ_id (b_occs sample_build) = seq 0 (length (b_occs sample_build)).
Proof.
  apply (occurrence_ids_dense sample_tables sample_teachers sample_sections
           [sample_course] true sample_build).
  vm_compute. reflexivity.
Defined.

(** ** The constraints of a grouping *)

Lemma group_by_keys_NoDup (key : occ -> string) (occs : list occ) :
  NoDup (dict_keys (group_by key occs)).
Proof.
  unfold group_by.
  assert (Hgen : forall d : dict string (list occ),
             NoDup (dict_keys d) ->
             NoDup (dict_keys (fold_left (group_add key) occs d))).
  { induction occs as [|o occs IH]; intros d Hd; cbn [fold_left]; [exact Hd|].
    apply IH. unfold group_add. now apply dict_keys_set_NoDup. }
  apply Hgen. constructor.
Qed.

Lemma group_by_In (key : occ -> string) (occs : list occ) (k : string)
  (l : list occ) :
  In (k, l) (group_by key occs) ->
  l = filter (fun o => String.eqb (key o) k) occs.
Proof.
  intros Hin.
  apply (dict_get_NoDup _ _ _ (group_by_keys_NoDup key occs)) in Hin.
  rewrite group_by_get in Hin.
  destruct (filter _ occs); [discriminate | now injection Hin].
Qed.

Lemma all_pairs_inv (f : occ -> occ -> list constraint) (c : constraint)
  (l : list occ) :
  In c (all_pairs f l) ->
  exists m1 x m2 y m3,
    l = (m1 ++ x :: m2 ++ y :: m3)%list /\ In c (f x y).
Proof.
  induction l as [|o l IH]; cbn [all_pairs]; [contradiction|].
  rewrite in_app_iff, in_flat_map. intros [(y & Hy & Hc)|Hin].
  - apply in_split in Hy. destruct Hy as (m2 & m3 & ->).
    exists [], o, m2, y, m3. auto.
  - destruct (IH Hin) as (m1 & x & m2 & y & m3 & -> & Hc).
    exists (o :: m1), x, m2, y, m3. auto.
Qed.

Lemma filter_split {A : Type} (p : A -> bool) (l : list A) :
  forall m1 x m2,
    filter p l = (m1 ++ x :: m2)%list ->
    exists l1 l2,
      l = (l1 ++ x :: l2)%list /\ filter p l1 = m1 /\ filter p l2 = m2
      /\ p x = true.
Proof.
  induction l as [|a l IH]; intros m1 x m2 Hf; cbn [filter] in Hf.
  - destruct m1; discriminate.
  - destruct (p a) eqn:Hpa.
    + destruct m1 as [|b m1]; cbn [app] in Hf.
      * injection Hf as Hax Hf. subst a. exists [], l. auto.
      * injection Hf as Hab Hf. subst b.
        destruct (IH _ _ _ Hf) as (l1 & l2 & Hl & H1 & H2 & Hx).
        exists (a :: l1), l2. cbn [filter app]. rewrite Hpa, H1, Hl. auto.
    + destruct (IH _ _ _ Hf) as (l1 & l2 & Hl & H1 & H2 & Hx).
      exists (a :: l1), l2. cbn [filter app]. rewrite Hpa, Hl. auto.
Qed.

Lemma conflict_pairs_inv N start_at o1 o2 c :
  In c (conflict_pairs N start_at o1 o2) ->
  exists s1 s2,
    c = AtMostOne (occ_id o1) s1 (occ_id o2) s2
    /\ (s1 < N)%nat /\ (s2 < N)%nat
    /\ In (occ_id o1, s1) start_at /\ In (occ_id o2, s2) start_at
    /\ overlap s1 (occ_duration o1) s2 (occ_duration o2) = true.
Proof.
  unfold conflict_pairs. rewrite in_flat_map. intros (s1 & Hs1 & Hin).
  destruct (pair_mem (occ_id o1, s1) start_at) eqn:H1; cbn [negb] in Hin;
    [|contradiction].
  apply in_flat_map in Hin. destruct Hin as (s2 & Hs2 & Hin).
  destruct (pair_mem (occ_id o2, s2) start_at) eqn:H2; cbn [negb] in Hin;
    [|contradiction].
  destruct (overlap s1 _ s2 _) eqn:Hov; [|contradiction].
  destruct Hin as [<-|[]]. apply in_seq in Hs1, Hs2.
  apply pair_mem_In in H1, H2. exists s1, s2. repeat split; auto; lia.
Qed.

(** The constraints posted for a grouping: one for every two occurrences
    with the same key, the first earlier in [occ_metadata], and every two
    start slots from their domains on which their intervals overlap. *)
Lemma group_constraints_spec (key : occ -> string) N start_at
  (occs : list occ) (c : constraint) :
  In c (group_constraints N start_at (group_by key occs)) <->
  exists l1 o1 l2 o2 l3 s1 s2,
    occs = (l1 ++ o1 :: l2 ++ o2 :: l3)%list
    /\ key o1 = key o2
    /\ c = AtMostOne (occ_id o1) s1 (occ_id o2) s2
    /\ (s1 < N)%nat /\ (s2 < N)%nat
    /\ In (occ_id o1, s1) start_at /\ In (occ_id o2, s2) start_at
    /\ overlap s1 (occ_duration o1) s2 (occ_duration o2) = true.
Proof.
  unfold group_constraints. rewrite in_flat_map. split.
  - intros ([k l] & Hg & Hin). cbn [snd] in Hin.
    destruct (length l <=? 1)%nat; [contradiction|].
    apply group_by_In in Hg.
    apply all_pairs_inv in Hin.
    destruct Hin as (m1 & x & m2 & y & m3 & Hl & Hc).
    rewrite Hl in Hg. symmetry in Hg.
    destruct (filter_split _ _ _ _ _ Hg) as (l1 & r & -> & _ & Hr & Hx).
    destruct (filter_split _ _ _ _ _ Hr) as (l2 & l3 & -> & _ & _ & Hy).
    apply String.eqb_eq in Hx, Hy.
    destruct (conflict_pairs_inv _ _ _ _ _ Hc)
      as (s1 & s2 & -> & H1 & H2 & Hi1 & Hi2 & Hov).
    exists l1, x, l2, y, l3, s1, s2. repeat split; auto. congruence.
  - intros (l1 & o1 & l2 & o2 & l3 & s1 & s2 & -> & Hkey & -> & H1 & H2 & Hi1
            & Hi2 & Hov).
    set (occs := (l1 ++ o1 :: l2 ++ o2 :: l3)%list).
    set (p := fun o => String.eqb (key o) (key o1)).
    assert (Hp1 : p o1 = true) by apply String.eqb_refl.
    assert (Hp2 : p o2 = true)
      by (unfold p; rewrite Hkey; apply String.eqb_refl).
    assert (Hf : filter p occs =
                 (filter p l1 ++ o1 :: filter p l2 ++ o2 :: filter p l3)%list).
    { subst occs. rewrite filter_app. cbn [filter]. rewrite Hp1, filter_app.
      cbn [filter]. now rewrite Hp2. }
    assert (Hg : dict_get (key o1) (group_by key occs) = Some (filter p occs)).
    { rewrite group_by_get. fold p. rewrite Hf.
      destruct (filter p l1); reflexivity. }
    apply dict_get_In in Hg.
    exists (key o1, filter p occs). split; [exact Hg|]. cbn [snd].
    rewrite Hf, length_app. cbn [length]. rewrite length_app. cbn [length].
    replace (_ <=? 1)%nat with false by (symmetry; apply Nat.leb_gt; lia).
    apply all_pairs_In. now apply conflict_pairs_In.
Qed.

(** X12.  [apply_teacher_conflict_constraint] posts exactly these
    constraints: [start_at[o1, s1] + start_at[o2, s2] <= 1] for every two
    occurrences with the same teacher name ("None" included), [o1]
    earlier than [o2] in [occ_metadata], and every two start slots below
    [num_slots] that are keys of [start_at] for them and on which the
    intervals [s1, s1 + d1) and [s2, s2 + d2) overlap. *)
Theorem teacher_constraints_posted (occ_metadata : list occ)
  (start_at : list (nat * nat)) (num_slots : nat) (c : constraint) :
  In c (apply_teacher_conflict_constraint occ_metadata start_at num_slots) <->
  exists l1 o1 l2 o2 l3 s1 s2,
    occ_metadata = (l1 ++ o1 :: l2 ++ o2 :: l3)%list
    /\ occ_teacher o1 = occ_teacher o2
    /\ c = AtMostOne (occ_id o1) s1 (occ_id o2) s2
    /\ (s1 < num_slots)%nat /\ (s2 < num_slots)%nat
    /\ In (occ_id o1, s1) start_at /\ In (occ_id o2, s2) start_at
    /\ overlap s1 (occ_duration o1) s2 (occ_duration o2) = true.
Proof. apply group_constraints_spec. Qed.

(** X13.  [apply_section_constraint] posts exactly these constraints:
    [start_at[o1, s1] + start_at[o2, s2] <= 1] for every two occurrences
    with the same key text "year_section", [o1] earlier than [o2] in
    [occ_metadata], and every two start slots below [num_slots] that are
    keys of [start_at] for them and on which the intervals overlap. *)
Theorem section_constraints_posted (occ_metadata : list occ)
  (start_at : list (nat * nat)) (num_slots : nat) (c : constraint) :
  In c (apply_section_constraint occ_metadata start_at num_slots) <->
  exists l1 o1 l2 o2 l3 s1 s2,
    occ_metadata = (l1 ++ o1 :: l2 ++ o2 :: l3)%list
    /\ section_key (occ_year o1) (occ_section o1)
       = section_key (occ_year o2) (occ_section o2)
    /\ c = AtMostOne (occ_id o1) s1 (occ_id o2) s2
    /\ (s1 < num_slots)%nat /\ (s2 < num_slots)%nat
    /\ In (occ_id o1, s1) start_at /\ In (occ_id o2, s2) start_at
    /\ overlap s1 (occ_duration o1) s2 (occ_duration o2) = true.
Proof.
  apply (group_constraints_spec
           (fun o => section_key (occ_year o) (occ_section o))).
Qed.

(** ** [get_time_slots] on any two dictionaries *)

Lemma fold_day_step_None (st : dict string Z) (items : list (string * nat)) :
  fold_left (day_step st) items None = None.
Proof. induction items; simpl; auto. Qed.

Lemma day_loop_missing (st : dict string Z) (items : list (string * nat)) :
  forall acc day,
    In day (dict_keys items) -> dict_get day st = None ->
    fold_left (day_step st) items acc = None.
Proof.
  induction items as [|[day0 hours] items IH]; intros acc day Hin Hget;
    [contradiction|].
  cbn [fold_left]. destruct Hin as [Heq|Hin].
  - cbn [fst] in Heq. subst day0.
    replace (day_step st acc (day, hours)) with (@None (nat * slot_tables)).
    + apply fold_day_step_None.
    + unfold day_step. destruct acc as [[idx T]|]; [|reflexivity].
      now rewrite Hget.
  - now apply (IH _ day).
Qed.

Lemma forallb_false_exists {A : Type} (f : A -> bool) (l : list A) :
  forallb f l = false -> exists x, In x l /\ f x = false.
Proof.
  induction l as [|a l IH]; cbn [forallb]; [discriminate|].
  destruct (f a) eqn:Hfa; cbn [andb].
  - intros H. destruct (IH H) as (x & Hx & Hfx). exists x. split; [now right|auto].
  - intros _. exists a. split; [now left | exact Hfa].
Qed.

(** X14.  [get_time_slots] fails with a [KeyError] exactly when some day
    of [slot_dict] has no start hour in [start_times]. *)
Theorem get_time_slots_key_error (slot_dict : dict string nat)
  (start_times : dict string Z) :
  get_time_slots slot_dict start_times = None <->
  exists day, In day (dict_keys slot_dict) /\ dict_get day start_times = None.
Proof.
  unfold get_time_slots. split.
  - intros Hnone.
    destruct (forallb (fun item => dict_mem (fst item) start_times) slot_dict)
      eqn:Hall.
    + exfalso. rewrite forallb_forall in Hall.
      destruct (day_loop start_times slot_dict 0 empty_tables eq_refl Hall)
        as [T (Hf & _)].
      rewrite Hf in Hnone. discriminate.
    + apply forallb_false_exists in Hall. destruct Hall as ([day hours] & Hin & Hm).
      exists day. split; [apply (in_map fst) in Hin; exact Hin|].
      cbn [fst] in Hm. unfold dict_mem in Hm.
      destruct (dict_get day start_times); [discriminate | reflexivity].
  - intros (day & Hin & Hget).
    now rewrite (day_loop_missing start_times slot_dict _ day Hin Hget).
Qed.

Lemma slot_loop_counts (abbrev day : string) (hours : nat) :
  forall j0 idx start cnt T,
    exists idx' start' T',
      fold_left (slot_step abbrev day) (seq j0 hours) (idx, start, cnt, T) =
      (idx', start', (cnt + hours)%nat, T')
      /\ day_slot_counts T' = day_slot_counts T
      /\ length (slot_names T') = (length (slot_names T) + hours)%nat.
Proof.
  induction hours as [|hours IH]; intros j0 idx start cnt T.
  - exists idx, start, T. cbn [seq fold_left]. rewrite !Nat.add_0_r. auto.
  - cbn [seq fold_left]. unfold slot_step at 2.
    match goal with
    | |- context [fold_left _ _ (?i, ?s, ?c, ?T1)] =>
        destruct (IH (S j0) i s c T1) as (idx' & start' & T' & Hf & Hc & Hl)
    end.
    exists idx', start', T'. rewrite Hf. cbn [day_slot_counts slot_names] in *.
    rewrite length_app in Hl. cbn [length] in Hl.
    split; [f_equal; f_equal; lia|]. split; [exact Hc | lia].
Qed.

Lemma day_loop_counts (st : dict string Z) (items : list (string * nat)) :
  forall idx T idx' T',
    fold_left (day_step st) items (Some (idx, T)) = Some (idx', T') ->
    day_slot_counts T' =
      fold_left (fun d item => dict_set (lower (fst item)) (snd item) d)
                items (day_slot_counts T)
    /\ Z.of_nat (length (slot_names T')) =
       (Z.of_nat (length (slot_names T))
        + zsum (fun item => Z.of_nat (snd item)) items)%Z.
Proof.
  induction items as [|[day hours] items IH]; intros idx T idx' T' Hfold.
  - cbn [fold_left] in *. injection Hfold as <- <-. cbn. split; [auto | lia].
  - cbn [fold_left] in Hfold |- *. unfold day_step at 2 in Hfold.
    destruct (dict_get day st) as [start|].
    2:{ rewrite fold_day_step_None in Hfold. discriminate. }
    destruct (slot_loop_counts (abbrev_of day) day hours 0 idx start 0 T)
      as (i1 & s1 & T1 & Hf & Hc & Hl).
    rewrite Hf in Hfold. apply IH in Hfold.
    cbn [day_slot_counts slot_names fst snd] in Hfold |- *.
    destruct Hfold as [Hd Hn]. rewrite Hc in Hd. cbn [Nat.add] in Hd.
    split; [exact Hd|]. rewrite Hn, Hl, zsum_cons. cbn [snd]. lia.
Qed.

Lemma fold_left_map {A B C : Type} (f : A -> B -> A) (g : C -> B)
  (l : list C) :
  forall a, fold_left f (map g l) a = fold_left (fun a x => f a (g x)) l a.
Proof. induction l as [|x l IH]; intros a; cbn [map fold_left]; auto. Qed.

(** X15.  When [get_time_slots] returns and no two days of [slot_dict]
    have the same lower-cased name, [day_slot_counts] gives for the
    lower-cased name of every day the number of slots declared for it,
    and its values add up to the number of slot names. *)
Theorem day_slot_counts_lookup (slot_dict : dict string nat)
  (start_times : dict string Z) (T : slot_tables) :
  get_time_slots slot_dict start_times = Some T ->
  NoDup (map (fun item => lower (fst item)) slot_dict) ->
  (forall day hours,
      In (day, hours) slot_dict ->
      dict_get (lower day) (day_slot_counts T) = Some hours)
  /\ zsum (fun kv => Z.of_nat (snd kv)) (day_slot_counts T)
     = Z.of_nat (length (slot_names T)).
Proof.
  unfold get_time_slots. intros HT Hnd.
  destruct (fold_left (day_step start_times) slot_dict
                      (Some (0%nat, empty_tables))) as [[idx T']|] eqn:Hfold;
    [|discriminate].
  cbn [option_map snd] in HT. injection HT as ->.
  apply day_loop_counts in Hfold. destruct Hfold as [Hd Hn].
  cbn [day_slot_counts slot_names empty_tables length] in Hd, Hn.
  set (kvs := map (fun item : string * nat => (lower (fst item), snd item))
                  slot_dict).
  assert (Hkeys : map fst kvs = map (fun item => lower (fst item)) slot_dict)
    by (unfold kvs; rewrite map_map; reflexivity).
  assert (Hcounts : day_slot_counts T = kvs).
  { rewrite Hd.
    rewrite <- (fold_left_map
                  (fun d (kv : string * nat) => dict_set (fst kv) (snd kv) d)
                  (fun item : string * nat => (lower (fst item), snd item))).
    fold kvs. rewrite fold_set_fresh_all; [reflexivity|].
    cbn [dict_keys map app]. now rewrite Hkeys. }
  rewrite Hcounts. split.
  - intros day hours Hin. apply dict_get_NoDup.
    + unfold dict_keys. now rewrite Hkeys.
    + unfold kvs.
      change (lower day, hours)
        with ((fun item : string * nat => (lower (fst item), snd item))
                (day, hours)).
      now apply in_map.
  - rewrite Hn. unfold kvs. rewrite zsum_map. cbn [snd]. lia.
Qed.

Lemma day_slot_counts_lookup_witness :
  dict_get (lower "Tuesday") (day_slot_counts sample_tables) = Some 2%nat.
Proof.
  destruct (day_slot_counts_lookup (slot_counts_by_day sample_week)
              (start_times_of sample_week) sample_tables) as [H _].
  - vm_compute. reflexivity.
  - vm_compute. repeat constructor; simpl; intuition discriminate.
  - apply H. vm_compute. right. left. reflexivity.
Defined.

(** ** The teacher workload preview *)

Lemma set_add_In (x y : string) (l : list string) :
  In y (set_add x l) <-> y = x \/ In y l.
Proof.
  unfold set_add. destruct (existsb (String.eqb x) l) eqn:E.
  - apply existsb_eqb_In in E. split; [auto|]. intros [->|H]; auto.
  - rewrite in_app_iff. cbn [In]. intuition.
Qed.

Lemma set_add_NoDup (x : string) (l : list string) :
  NoDup l -> NoDup (set_add x l).
Proof.
  intros Hnd. unfold set_add. destruct (existsb (String.eqb x) l) eqn:E;
    [exact Hnd|].
  apply NoDup_app; [exact Hnd | repeat constructor; auto |].
  intros y Hy [Heq|[]]. subst y.
  assert (existsb (String.eqb x) l = true) by now apply existsb_eqb_In.
  congruence.
Qed.

Lemma teacher_workload_snoc (cs : list course) (c : course) :
  teacher_workload (cs ++ [c]) = workload_step (teacher_workload cs) c.
Proof. unfold teacher_workload. now rewrite fold_left_app. Qed.

Lemma dict_lookup_set_same {V : Type} (k : string) (v dflt : V)
  (d : dict string V) :
  dict_mem k (dict_set k v d) = true
  /\ dict_get_or k dflt (dict_set k v d) = v.
Proof. unfold dict_mem, dict_get_or. now rewrite dict_get_set_same. Qed.

Lemma dict_lookup_set_other {V : Type} (k k0 : string) (v dflt : V)
  (d : dict string V) :
  k <> k0 ->
  dict_mem k (dict_set k0 v d) = dict_mem k d
  /\ dict_get_or k dflt (dict_set k0 v d) = dict_get_or k dflt d.
Proof.
  intros Hne. unfold dict_mem, dict_get_or.
  now rewrite dict_get_set_other.
Qed.

(** What the preview holds after the courses [cs]. *)
Lemma workload_inv (cs : list course) :
  forall wl,
    teacher_workload cs = Some wl ->
    forall t,
      let w := dict_get_or t no_workload wl in
      (dict_mem t wl = true <-> exists c, In c cs /\ c_teacher c = t)
      /\ w_courses w = length (filter (fun c => String.eqb (c_teacher c) t) cs)
      /\ Z.of_nat (w_hours w) = declared_hours t cs
      /\ NoDup (w_sections w)
      /\ forall x, In x (w_sections w) <->
           exists c, In c cs /\ c_teacher c = t
                     /\ x = c_year c ++ "-" ++ section_of c.
Proof.
  induction cs as [|c cs IH] using rev_ind; intros wl Hwl t.
  - injection Hwl as <-. cbn. split; [split; [discriminate|]|].
    + intros (c & [] & _).
    + split; [reflexivity|]. split; [reflexivity|]. split; [constructor|].
      intros x. split; [contradiction|]. intros (c & [] & _).
  - rewrite teacher_workload_snoc in Hwl.
    destruct (teacher_workload cs) as [wl0|]; [|discriminate].
    specialize (IH wl0 eq_refl). cbn [workload_step] in Hwl.
    set (d1 := if dict_mem (c_teacher c) wl0 then wl0
               else dict_set (c_teacher c) no_workload wl0) in *.
    assert (Hd1 : forall t', dict_get_or t' no_workload d1
                             = dict_get_or t' no_workload wl0).
    { intros t'. unfold d1, dict_mem, dict_get_or.
      destruct (dict_get (c_teacher c) wl0) eqn:E; [reflexivity|].
      destruct (String.eqb_spec t' (c_teacher c)) as [->|Hne].
      - now rewrite dict_get_set_same, E.
      - now rewrite dict_get_set_other. }
    assert (Hget : dict_get (c_teacher c) d1
                   = Some (dict_get_or (c_teacher c) no_workload wl0)).
    { unfold d1, dict_mem, dict_get_or.
      destruct (dict_get (c_teacher c) wl0) eqn:E; [exact E|].
      now rewrite dict_get_set_same. }
    assert (Hmem1 : forall t', t' <> c_teacher c ->
                               dict_mem t' d1 = dict_mem t' wl0).
    { intros t' Hne. unfold d1, dict_mem.
      destruct (dict_get (c_teacher c) wl0); [reflexivity|].
      now rewrite dict_get_set_other. }
    rewrite Hget in Hwl.
    destruct (c_section c) as [sec|] eqn:Hsec; [|discriminate].
    injection Hwl as <-. cbv zeta.
    unfold declared_hours. rewrite filter_app, length_app, zsum_app.
    cbn [filter zsum fold_right].
    destruct (IH t) as (Hm & Hc & Hh & Hnd & Hs). unfold declared_hours in Hh.
    destruct (String.eqb_spec (c_teacher c) t) as [Heq|Hne].
    + subst t.
      match goal with
      | |- context [dict_set ?k ?v ?d] =>
          destruct (dict_lookup_set_same k v no_workload d) as [-> ->]
      end.
      cbn [w_courses w_hours w_sections length].
      split; [split; [|reflexivity]|].
      { intros _. exists c. split; [apply in_or_app; right; now left | auto]. }
      split; [lia|]. split; [lia|]. split; [now apply set_add_NoDup|].
      intros x. rewrite set_add_In, Hs. split.
      * intros [->|(c' & Hc' & Ht' & ->)].
        -- exists c. split; [apply in_or_app; right; now left|].
           split; [reflexivity|]. unfold section_of. now rewrite Hsec.
        -- exists c'. split; [apply in_or_app; now left | auto].
      * intros (c' & Hc' & Ht' & ->). apply in_app_or in Hc'.
        destruct Hc' as [Hc'|[<-|[]]].
        -- right. exists c'. auto.
        -- left. unfold section_of. now rewrite Hsec.
    + assert (Hne' : t <> c_teacher c) by congruence.
      match goal with
      | |- context [dict_set ?k ?v ?d] =>
          destruct (dict_lookup_set_other t k v no_workload d Hne') as [-> ->]
      end.
      rewrite Hmem1 by exact Hne'. rewrite Hd1.
      cbn [length]. split.
      { rewrite Hm. split.
        - intros (c' & Hc' & Ht'). exists c'.
          split; [apply in_or_app; now left | auto].
        - intros (c' & Hc' & Ht'). apply in_app_or in Hc'.
          destruct Hc' as [Hc'|[<-|[]]]; [eauto | congruence]. }
      split; [lia|]. split; [lia|]. split; [exact Hnd|].
      intros x. rewrite Hs. split.
      * intros (c' & Hc' & Ht' & ->). exists c'.
        split; [apply in_or_app; now left | auto].
      * intros (c' & Hc' & Ht' & ->). apply in_app_or in Hc'.
        destruct Hc' as [Hc'|[<-|[]]]; [eauto | congruence].
Qed.

(** X16.  The teacher workload preview, when it is computed: a teacher
    has an entry exactly when some course names the teacher; the entry
    counts the teacher's courses, adds up lectures times duration over
    them, and its set of sections holds, once each, the texts
    "year-section" of these courses. *)
Theorem workload_preview_totals (courses : list course)
  (wl : dict string workload) (t : string) :
  teacher_workload courses = Some wl ->
  match dict_get t wl with
  | None => forall c, In c courses -> c_teacher c <> t
  | Some w =>
      (exists c, In c courses /\ c_teacher c = t)
      /\ w_courses w
         = length (filter (fun c => String.eqb (c_teacher c) t) courses)
      /\ Z.of_nat (w_hours w) = declared_hours t courses
      /\ NoDup (w_sections w)
      /\ forall x, In x (w_sections w) <->
           exists c, In c courses /\ c_teacher c = t
                     /\ x = c_year c ++ "-" ++ section_of c
  end.
Proof.
  intros Hwl. destruct (workload_inv courses wl Hwl t) as (Hm & Hrest).
  unfold dict_mem, dict_get_or in *.
  destruct (dict_get t wl) as [w|].
  - split; [now apply Hm | exact Hrest].
  - intros c Hc Ht.
    assert (false = true) by (apply Hm; eauto). discriminate.
Qed.

Lemma workload_preview_totals_witness :
  match dict_get "T1" sample_preview with
  | None => forall c, In c [sample_course; second_course] -> c_teacher c <> "T1"
  | Some w =>
      (exists c, In c [sample_course; second_course] /\ c_teacher c = "T1")
      /\ w_courses w
         = length (filter (fun c => String.eqb (c_teacher c) "T1")
                          [sample_course; second_course])
      /\ Z.of_nat (w_hours w)
         = declared_hours "T1" [sample_course; second_course]
      /\ NoDup (w_sections w)
      /\ forall x, In x (w_sections w) <->
           exists c, In c [sample_course; second_course] /\ c_teacher c = "T1"
                     /\ x = c_year c ++ "-" ++ section_of c
  end.
Proof.
  apply (workload_preview_totals [sample_course; second_course] sample_preview
           "T1").
  vm_compute. reflexivity.
Defined.

(** X17.  The preview fails with a [KeyError] exactly when some course
    has no ['section'] entry. *)
Theorem workload_preview_key_error (courses : list course) :
  teacher_workload courses = None <->
  exists c, In c courses /\ c_section c = None.
Proof.
  induction courses as [|c cs IH] using rev_ind.
  - split; [discriminate | intros (c & [] & _)].
  - rewrite teacher_workload_snoc.
    destruct (teacher_workload cs) as [wl0|] eqn:Hwl.
    + assert (Hno : ~ exists c', In c' cs /\ c_section c' = None).
      { intros H. apply IH in H. discriminate. }
      cbn [workload_step].
      assert (Hget : exists w,
                 dict_get (c_teacher c)
                   (if dict_mem (c_teacher c) wl0 then wl0
                    else dict_set (c_teacher c) no_workload wl0) = Some w).
      { unfold dict_mem. destruct (dict_get (c_teacher c) wl0) eqn:E.
        - rewrite E. eauto.
        - rewrite dict_get_set_same. eauto. }
      destruct Hget as [w ->].
      destruct (c_section c) as [sec|] eqn:Hsec.
      * split; [discriminate|]. intros (c' & Hc' & Hs').
        apply in_app_or in Hc'. destruct Hc' as [Hc'|[<-|[]]].
        -- exfalso. apply Hno. eauto.
        -- congruence.
      * split; [|reflexivity]. intros _. exists c.
        split; [apply in_or_app; right; now left | exact Hsec].
    + cbn [workload_step]. split; [|reflexivity]. intros _.
      destruct IH as [IH _]. destruct (IH eq_refl) as (c' & Hc' & Hs').
      exists c'. split; [apply in_or_app; now left | exact Hs'].
Qed.

(** X18.  Whenever the engine returns a schedule for the courses of the
    preview (with a solver whose solutions satisfy the model), the hours
    previewed for any teacher are at most the number of slots of the
    calendar. *)
Theorem previewed_hours_fit solve wds courses teachers sections allow_free
  max_time r (wl : dict string workload) (t : string) (w : workload) :
  solver_sound solve ->
  generate_college_timetable_with_sections solve (Some wds) courses teachers
    sections allow_free max_time = Schedule r ->
  teacher_workload courses = Some wl ->
  dict_get t wl = Some w ->
  exists T,
    time_slots_of wds = Some T
    /\ (w_hours w <= length (slot_names T))%nat.
Proof.
  intros Hsound Hgen Hwl Hget.
  destruct (declared_load _ _ _ _ _ _ _ _ t Hsound Hgen) as (T & HT & Hle).
  exists T. split; [exact HT|].
  destruct (workload_inv courses wl Hwl t) as (_ & _ & Hh & _).
  unfold dict_get_or in Hh. rewrite Hget in Hh. unfold declared_hours in Hh.
  lia.
Qed.

Lemma previewed_hours_fit_witness :
  exists T,
    time_slots_of sample_week = Some T
    /\ (4 <= length (slot_names T))%nat.
Proof.
  apply (previewed_hours_fit (checked_solver sample_values) sample_week
           [sample_course] sample_teachers sample_sections true 30%Z
           sample_schedule
           [("T1", {| w_courses := 1; w_hours := 4;
                      w_sections := ["Year1-A"] |})]
           "T1"
           {| w_courses := 1; w_hours := 4; w_sections := ["Year1-A"] |}
           (checked_solver_sound sample_values)).
  - vm_compute. reflexivity.
  - vm_compute. reflexivity.
  - reflexivity.
Defined.

(** ** The order of a day's list *)

Lemma sorted_nth {A : Type} (R : A -> A -> Prop) (l : list A) :
  StronglySorted R l ->
  forall i j x y,
    (i < j)%nat -> nth_error l i = Some x -> nth_error l j = Some y -> R x y.
Proof.
  induction 1 as [|a l Hs IH Hall]; intros i j x y Hij Hi Hj.
  - destruct i; discriminate.
  - destruct j as [|j]; [lia|]. cbn [nth_error] in Hj.
    destruct i as [|i]; cbn [nth_error] in Hi.
    + injection Hi as <-. rewrite Forall_forall in Hall.
      apply Hall. eapply nth_error_In; eassumption.
    + apply (IH i j); auto. lia.
Qed.

(** X19.  In a schedule returned for a calendar of weekdays by a solver
    whose solutions satisfy the model, when every declared course lasts
    at least one slot and the availability windows of the teachers of the
    courses lie between 0 and 100 (so that the text "HH:00" orders the
    hours), every day's list is a chain: an entry ends no later than any
    entry after it in the list begins. *)
Theorem day_list_is_a_chain solve wds courses teachers sections allow_free
  max_time r :
  solver_sound solve ->
  weekday_names wds ->
  (forall c, In c courses -> (1 <= c_duration c)%nat) ->
  (forall c, In c courses ->
     (0 <= teacher_start teachers (c_teacher c))%Z
     /\ (teacher_end teachers (c_teacher c) <= 100)%Z) ->
  generate_college_timetable_with_sections solve (Some wds) courses teachers
    sections allow_free max_time = Schedule r ->
  forall y s d b i j e1 e2,
    bucket r y s d = Some b ->
    (i < j)%nat ->
    nth_error b i = Some e1 ->
    nth_error b j = Some e2 ->
    (e_end_hr e1 <= e_start_hr e2)%Z.
Proof.
  intros Hsound Hw Hdur Hwin Hgen y s d b i j e1 e2 Hb Hij Hi Hj.
  assert (Hrange : forall e, In e b ->
            (0 <= e_start_hr e < 100)%Z /\ (e_start_hr e < e_end_hr e)%Z).
  { intros e He.
    destruct (entry_window _ _ _ _ _ _ _ _ Hsound Hw Hdur Hgen _ _ _ _ _ Hb He)
      as [(c & Hc & _ & _ & _ & _ & Hend & Hlo & Hhi)|(_ & _ & _ & Hend & Hlo & Hhi)].
    - destruct (Hwin c Hc). specialize (Hdur c Hc). lia.
    - lia. }
  destruct (Hrange e1 (nth_error_In _ _ Hi)) as [Hr1 Hp1].
  destruct (Hrange e2 (nth_error_In _ _ Hj)) as [Hr2 Hp2].
  assert (Hne : i <> j) by lia.
  assert (Hdis := bucket_disjoint _ _ _ _ _ _ _ _ Hsound Hw Hgen
                    _ _ _ _ _ _ _ _ Hb Hi Hj Hne).
  assert (Hle : (e_start_hr e1 <= e_start_hr e2)%Z).
  { destruct (schedule_run _ _ _ _ _ _ _ _ Hgen)
      as (T & val & _ & _ & _ & _ & Ha).
    destruct (assemble_spec _ _ _ _ _ Ha) as [_ Hbk].
    rewrite Hbk in Hb. destruct (_ && _ && _); [|discriminate].
    injection Hb as <-.
    apply two_digit_order; auto.
    exact (sorted_nth _ _ (sort_by_sorted start_time _) i j e1 e2 Hij Hi Hj). }
  lia.
Qed.

Lemma day_list_is_a_chain_witness :
  (11 <= 13)%Z.
Proof.
  apply (day_list_is_a_chain (checked_solver sample_values) sample_week
           [sample_course] sample_teachers sample_sections true 30%Z
           sample_schedule (checked_solver_sound sample_values)
           ltac:(repeat constructor; simpl; tauto)
           ltac:(intros c [<-|[]]; simpl; lia)
           ltac:(intros c [<-|[]]; vm_compute; split; discriminate)
           ltac:(vm_compute; reflexivity)
           "Year1" "A" "monday" sample_monday 0%nat 2%nat
           {| e_slot := "M1"; e_subject := "Math"; e_teacher := "T1";
              e_section := "A"; e_room := "R1"; e_start_hr := 9; e_end_hr := 11 |}
           {| e_slot := "M4"; e_subject := "Math"; e_teacher := "T1";
              e_section := "A"; e_room := "R1"; e_start_hr := 13; e_end_hr := 15 |}).
  - vm_compute. reflexivity.
  - lia.
  - reflexivity.
  - reflexivity.
Defined.

(** ** Padding *)

(** X20.  Padding, for a year among the four and a section listed for it
    (whose key text "year_section" no course of another year or section
    shares): the free periods added for the section are the slots of the
    week that its declared courses leave, none when they ask for the
    whole week or more; after padding, the courses of the section ask for
    the larger of the two, the week or the declared demand. *)
Theorem padding_tops_up_the_section teachers sections courses N year section :
  In year YEARS ->
  In section (dict_keys (year_sections sections year)) ->
  NoDup (dict_keys (year_sections sections year)) ->
  (forall c, In c courses ->
     section_key (c_year c) (section_of c) = section_key year section ->
     c_year c = year /\ section_of c = section) ->
  let used :=
    zsum (fun c => if String.eqb (c_year c) year
                      && String.eqb (section_of c) section
                   then Z.of_nat (c_lectures c * c_duration c) else 0%Z)
         courses in
  zsum (fun c => if pc_in year section c
                 then Z.of_nat (pc_lectures c) else 0%Z)
       (free_courses sections
          (section_requirements (processed_courses teachers courses)) N)
  = Z.max 0 (Z.of_nat N - used)
  /\ zsum (fun c => if pc_in year section c
                    then Z.of_nat (pc_lectures c * pc_duration c) else 0%Z)
          (all_courses teachers sections courses true N)
     = Z.max used (Z.of_nat N).
Proof.
  intros Hy Hs Hnd Hkey used.
  set (pcs := processed_courses teachers courses).
  set (free := free_courses sections (section_requirements pcs) N).
  set (u := dict_get_or (section_key year section) 0%nat
                        (section_requirements pcs)).
  assert (Hu : Z.of_nat u = used).
  { unfold u. rewrite section_requirements_get. unfold pcs, processed_courses.
    rewrite zsum_map. apply zsum_ext_in. intros c Hc.
    cbn [process_course pc_year pc_section pc_lectures pc_duration].
    fold (section_of c).
    destruct (String.eqb_spec (section_key (c_year c) (section_of c))
                              (section_key year section)) as [Heq|Hne].
    - destruct (Hkey c Hc Heq) as [-> ->]. now rewrite !String.eqb_refl.
    - destruct (String.eqb_spec (c_year c) year) as [Hy1|]; [|reflexivity].
      destruct (String.eqb_spec (section_of c) section) as [Hs1|];
        [|reflexivity].
      exfalso. apply Hne. now rewrite Hy1, Hs1. }
  assert (Hfree :
    zsum (fun c => if pc_in year section c
                   then Z.of_nat (pc_lectures c) else 0%Z) free
    = Z.max 0 (Z.of_nat N - used)).
  { assert (H1 := free_courses_zsum sections (section_requirements pcs) N
                    year section Hy Hs Hnd).
    cbv zeta in H1. fold u in H1. fold free in H1.
    rewrite <- Hu.
    transitivity (if (u <? N)%nat then Z.of_nat (N - u) else 0%Z).
    - rewrite <- H1. apply zsum_ext_in. intros c _.
      destruct (pc_in year section c); lia.
    - destruct (Nat.ltb_spec u N); lia. }
  split; [exact Hfree|].
  unfold all_courses. fold pcs. fold free. rewrite zsum_app.
  assert (Hpcs : zsum (fun c => if pc_in year section c
                                then Z.of_nat (pc_lectures c * pc_duration c)
                                else 0%Z) pcs = used).
  { unfold pcs, processed_courses. rewrite zsum_map. apply zsum_ext_in.
    intros c _. unfold pc_in.
    cbn [process_course pc_year pc_section pc_lectures pc_duration].
    fold (section_of c). reflexivity. }
  assert (HfreeD : zsum (fun c => if pc_in year section c
                                  then Z.of_nat (pc_lectures c * pc_duration c)
                                  else 0%Z) free
                   = Z.max 0 (Z.of_nat N - used)).
  { rewrite <- Hfree. apply zsum_ext_in. intros c Hc.
    apply free_courses_shape in Hc. destruct Hc as (y' & s' & _ & _ & _ & ->).
    cbn [free_course pc_lectures pc_duration]. rewrite Nat.mul_1_r.
    reflexivity. }
  rewrite Hpcs, HfreeD. lia.
Qed.

Lemma padding_tops_up_the_section_witness :
  zsum (fun c => if pc_in "Year1" "A" c
                 then Z.of_nat (pc_lectures c) else 0%Z)
       (free_courses sample_sections
          (section_requirements
             (processed_courses sample_teachers [sample_course])) 10)
  = 6%Z.
Proof.
  destruct (padding_tops_up_the_section sample_teachers sample_sections
              [sample_course] 10 "Year1" "A") as [H _].
  - now left.
  - now left.
  - repeat constructor. simpl. tauto.
  - intros c [<-|[]] _. split; reflexivity.
  - exact H.
Defined.

(** ** The section analysis *)

Lemma count_total_set (k : string) (v : nat) (d : dict string nat) :
  count_total (dict_set k v d)
  = (count_total d - Z.of_nat (dict_get_or k 0%nat d) + Z.of_nat v)%Z.
Proof.
  unfold count_total, dict_get_or.
  induction d as [|[k' v'] d IH]; cbn [dict_set dict_get].
  - cbn. lia.
  - destruct (keyb k k') eqn:E.
    + rewrite !zsum_cons. cbn [snd]. lia.
    + rewrite !zsum_cons, IH. cbn [snd]. lia.
Qed.

Lemma bump_total (k : string) (d : dict string nat) :
  count_total (bump k d) = (count_total d + 1)%Z.
Proof. unfold bump. rewrite count_total_set. lia. Qed.

Lemma bump_get (k k' : string) (d : dict string nat) :
  dict_get_or k' 0%nat (bump k d) =
  (dict_get_or k' 0%nat d + if String.eqb k' k then 1 else 0)%nat.
Proof.
  unfold bump. rewrite dict_get_or_set.
  destruct (String.eqb_spec k' k) as [->|]; lia.
Qed.

(** The inner loop of the analysis, over the list of one day. *)
Lemma count_items (l : list entry) :
  forall a,
    let a' := fold_left count_item l a in
    total_classes a' = (total_classes a + length l)%nat
    /\ free_periods a' = (free_periods a + length (filter is_free l))%nat
    /\ count_total (subjects_count a')
       = (count_total (subjects_count a)
          + Z.of_nat (length (filter (fun e => negb (is_free e)) l)))%Z
    /\ count_total (teachers_count a')
       = (count_total (teachers_count a)
          + Z.of_nat (length (filter (fun e => negb (is_free e)) l)))%Z
    /\ (forall subj,
          dict_get_or subj 0%nat (subjects_count a')
          = (dict_get_or subj 0%nat (subjects_count a)
             + length (filter (fun e => negb (is_free e)
                                        && String.eqb subj (e_subject e)) l))%nat)
    /\ daily_classes a' = daily_classes a.
Proof.
  induction l as [|e l IH]; intros a; cbn [fold_left filter length].
  - cbv zeta. repeat split; lia.
  - destruct (IH (count_item a e)) as (Ht & Hf & Hs & Hte & Hg & Hd).
    cbv zeta. rewrite Ht, Hf, Hs, Hte, Hd.
    split; [|split; [|split; [|split; [|split]]]].
    5:{ intros subj. rewrite Hg. unfold count_item.
        destruct (is_free e); cbn [negb andb subjects_count]; [lia|].
        rewrite bump_get.
        destruct (String.eqb subj (e_subject e)); cbn [length]; lia. }
    all: unfold count_item; destruct (is_free e);
      cbn [negb length total_classes free_periods subjects_count
           teachers_count daily_classes];
      rewrite ?bump_total; first [reflexivity | lia].
Qed.

(** The outer loop, over the days of the week. *)
Lemma analyse_days (days : day_map) :
  forall a,
    NoDup (dict_keys (daily_classes a) ++ dict_keys days) ->
    let a' := fold_left analyse_day days a in
    total_classes a' = (total_classes a + length (week_entries days))%nat
    /\ free_periods a'
       = (free_periods a + length (filter is_free (week_entries days)))%nat
    /\ count_total (subjects_count a')
       = (count_total (subjects_count a)
          + Z.of_nat (length (filter (fun e => negb (is_free e))
                                     (week_entries days))))%Z
    /\ count_total (teachers_count a')
       = (count_total (teachers_count a)
          + Z.of_nat (length (filter (fun e => negb (is_free e))
                                     (week_entries days))))%Z
    /\ (forall subj,
          dict_get_or subj 0%nat (subjects_count a')
          = (dict_get_or subj 0%nat (subjects_count a)
             + length (filter (fun e => negb (is_free e)
                                        && String.eqb subj (e_subject e))
                              (week_entries days)))%nat)
    /\ daily_classes a'
       = (daily_classes a
          ++ map (fun kv => (fst kv,
                             length (filter (fun e => negb (is_free e))
                                            (snd kv)))) days)%list.
Proof.
  induction days as [|[day sched] days IH]; intros a Hnd.
  - cbn [fold_left week_entries flat_map filter length map]. cbv zeta.
    rewrite app_nil_r. repeat split; lia.
  - cbv zeta. cbn [fold_left].
    set (a0 := {| total_classes := total_classes a;
                  free_periods := free_periods a;
                  subjects_count := subjects_count a;
                  teachers_count := teachers_count a;
                  daily_classes :=
                    dict_set day
                      (length (filter (fun item => negb (is_free item)) sched))
                      (daily_classes a) |}).
    change (analyse_day a (day, sched)) with (fold_left count_item sched a0).
    destruct (count_items sched a0) as (Ht & Hf & Hs & Hte & Hg & Hd).
    set (a1 := fold_left count_item sched a0) in *.
    cbn [a0 total_classes free_periods subjects_count teachers_count
         daily_classes] in Ht, Hf, Hs, Hte, Hg, Hd.
    assert (Hfresh : ~ In day (dict_keys (daily_classes a))).
    { cbn [dict_keys map fst] in Hnd. apply NoDup_remove_2 in Hnd.
      intros Hin. apply Hnd. apply in_or_app. now left. }
    rewrite dict_set_fresh in Hd by exact Hfresh.
    destruct (IH a1) as (Ht' & Hf' & Hs' & Hte' & Hg' & Hd').
    { rewrite Hd. unfold dict_keys. rewrite map_app. cbn [map fst].
      rewrite <- app_assoc. exact Hnd. }
    cbv zeta. rewrite Ht', Hf', Hs', Hte', Hd', Ht, Hf, Hs, Hte, Hd.
    unfold week_entries. cbn [flat_map snd map fst].
    rewrite !filter_app, !length_app, <- app_assoc.
    repeat split; try lia.
    intros subj. rewrite Hg', Hg.
    fold (week_entries days). rewrite filter_app, length_app. lia.
Qed.

(** X21.  The section analysis, on a week whose days are distinct keys:
    [total_classes] counts the entries and [free_periods] those whose
    subject starts with "Free"; the values of [daily_classes], of
    [subjects_count] and of [teachers_count] each add up to the
    difference of the two; [subjects_count] gives for every subject the
    number of its entries that are not free, and [daily_classes] gives
    for every day the number of entries of its list that are not free. *)
Theorem section_analysis_counts (days : day_map) :
  NoDup (dict_keys days) ->
  let a := section_analysis days in
  total_classes a = length (week_entries days)
  /\ free_periods a = length (filter is_free (week_entries days))
  /\ (Z.of_nat (free_periods a) + count_total (daily_classes a)
      = Z.of_nat (total_classes a))%Z
  /\ count_total (subjects_count a) = count_total (daily_classes a)
  /\ count_total (teachers_count a) = count_total (daily_classes a)
  /\ (forall subj,
        dict_get_or subj 0%nat (subjects_count a)
        = length (filter (fun e => negb (is_free e)
                                   && String.eqb subj (e_subject e))
                         (week_entries days)))
  /\ forall day sched,
       In (day, sched) days ->
       dict_get day (daily_classes a)
       = Some (length (filter (fun e => negb (is_free e)) sched)).
Proof.
  intros Hnd. unfold section_analysis.
  destruct (analyse_days days empty_analysis Hnd)
    as (Ht & Hf & Hs & Hte & Hg & Hd).
  cbv zeta.
  cbn [empty_analysis total_classes free_periods subjects_count
       teachers_count daily_classes Nat.add app] in Ht, Hf, Hs, Hte, Hg, Hd.
  change (count_total []) with 0%Z in Hs, Hte.
  assert (Hdaily : count_total (daily_classes
                     (fold_left analyse_day days empty_analysis))
                   = Z.of_nat (length (filter (fun e => negb (is_free e))
                                              (week_entries days)))).
  { rewrite Hd. unfold count_total. rewrite zsum_map. cbn [snd]. clear.
    unfold week_entries.
    induction days as [|[day sched] days IH]; [reflexivity|].
    rewrite zsum_cons. cbn [flat_map snd]. rewrite filter_app, length_app, IH.
    lia. }
  assert (Hsplit : forall l : list entry,
             (length (filter is_free l)
              + length (filter (fun e => negb (is_free e)) l) = length l)%nat).
  { clear. induction l as [|e l IH]; [reflexivity|]. cbn [filter].
    destruct (is_free e); cbn [negb length]; lia. }
  specialize (Hsplit (week_entries days)).
  split; [exact Ht|]. split; [exact Hf|].
  split; [rewrite Hdaily, Hf, Ht; lia|].
  split; [rewrite Hdaily, Hs; lia|].
  split; [rewrite Hdaily, Hte; lia|].
  split; [intros subj; rewrite Hg; cbn; lia|].
  intros day sched Hin. rewrite Hd. apply dict_get_NoDup.
  - unfold dict_keys. rewrite map_map. cbn [fst]. exact Hnd.
  - change (day, length (filter (fun e => negb (is_free e)) sched))
      with ((fun kv : string * list entry =>
               (fst kv, length (filter (fun e => negb (is_free e)) (snd kv))))
              (day, sched)).
    now apply in_map.
Qed.

Lemma section_analysis_counts_witness :
  (Z.of_nat (free_periods sample_analysis)
   + count_total (daily_classes sample_analysis)
   = Z.of_nat (total_classes sample_analysis))%Z.
Proof.
  destruct (dict_get "Year1" sample_schedule) as [secs|] eqn:Hy;
    [|discriminate].
  destruct (dict_get "A" secs) as [days|] eqn:Hs;
    [|vm_compute in Hy; injection Hy as <-; discriminate].
  destruct (section_analysis_counts days) as (_ & _ & H & _).
  - vm_compute in Hy. injection Hy as <-. vm_compute in Hs.
    injection Hs as <-. vm_compute.
    repeat (constructor; [simpl; intuition discriminate|]). constructor.
  - vm_compute in Hy. injection Hy as <-. vm_compute in Hs.
    injection Hs as <-. exact H.
Defined.

(** X22.  The section analysis of a returned schedule, for a year among
    the four and a section listed for it: [total_classes] is the number
    of lectures of all courses of the section, free periods included, and
    [free_periods] is the number of lectures of those among them whose
    subject starts with "Free" (the padding, and any declared course
    with such a subject). *)
Theorem analysis_of_returned_schedule solve wds courses teachers sections
  allow_free max_time r year section :
  generate_college_timetable_with_sections solve (Some wds) courses teachers
    sections allow_free max_time = Schedule r ->
  In year YEARS ->
  dict_mem section (year_sections sections year) = true ->
  exists T secs days,
    time_slots_of wds = Some T
    /\ dict_get year r = Some secs
    /\ dict_get section secs = Some days
    /\ Z.of_nat (total_classes (section_analysis days))
       = zsum (fun c => if pc_in year section c
                        then Z.of_nat (pc_lectures c) else 0%Z)
              (all_courses teachers sections courses allow_free
                           (length (slot_names T)))
    /\ Z.of_nat (free_periods (section_analysis days))
       = zsum (fun c => if pc_in year section c
                           && String.prefix "Free" (pc_subject c)
                        then Z.of_nat (pc_lectures c) else 0%Z)
              (all_courses teachers sections courses allow_free
                           (length (slot_names T))).
Proof.
  intros Hgen Hy Hs.
  destruct (schedule_run _ _ _ _ _ _ _ _ Hgen) as (T & val & HT & _ & _ & _ & Ha).
  set (N := length (slot_names T)) in *.
  set (cs := all_courses teachers sections courses allow_free N) in *.
  destruct (week_total T N sections val cs r year section
              (fun _ => 1%Z) (fun _ => 1%Z) (fun _ => 1%Z) Ha Hy Hs)
    as (secs & days & Hgy & Hgs & Hcnt); [reflexivity | reflexivity |].
  destruct (week_total T N sections val cs r year section
              (fun e => if is_free e then 1%Z else 0%Z)
              (fun o => if String.prefix "Free" (occ_subject o)
                        then 1%Z else 0%Z)
              (fun c => if String.prefix "Free" (pc_subject c)
                        then 1%Z else 0%Z) Ha Hy Hs)
    as (secs' & days' & Hgy' & Hgs' & Hfree).
  { intros o day e Hp.
    destruct (placed_inv _ _ _ _ _ _ Hp) as (_ & _ & _ & Hsub & _).
    unfold is_free. now rewrite Hsub. }
  { reflexivity. }
  rewrite Hgy in Hgy'. injection Hgy' as <-.
  rewrite Hgs in Hgs'. injection Hgs' as <-.
  exists T, secs, days. split; [exact HT|]. split; [exact Hgy|].
  split; [exact Hgs|].
  assert (Hnd : NoDup (dict_keys days)).
  { destruct (assemble_spec _ _ _ _ _ Ha) as [Hinv _].
    specialize (Hinv year). unfold response, day_map in *.
    rewrite Hgy in Hinv. destruct Hinv as [_ Hsec].
    specialize (Hsec section). rewrite Hgs in Hsec.
    destruct Hsec as [_ ->]. apply week_keys_NoDup. }
  destruct (analyse_days days empty_analysis Hnd) as (Ht & Hf & _).
  fold (section_analysis days) in Ht, Hf.
  cbn [empty_analysis total_classes free_periods Nat.add] in Ht, Hf.
  rewrite Ht, Hf. rewrite zsum_const in Hcnt. rewrite zsum_filter in Hfree.
  rewrite zsum_const in Hfree. split.
  - rewrite Z.mul_1_r in Hcnt. rewrite Hcnt. apply zsum_ext_in. intros c _.
    destruct (pc_in year section c); lia.
  - rewrite Z.mul_1_r in Hfree. rewrite Hfree. apply zsum_ext_in. intros c _.
    destruct (pc_in year section c); cbn [andb];
      [destruct (String.prefix "Free" (pc_subject c))|]; lia.
Qed.

Lemma analysis_of_returned_schedule_witness :
  exists T secs days,
    time_slots_of sample_week = Some T
    /\ dict_get "Year1" sample_schedule = Some secs
    /\ dict_get "A" secs = Some days
    /\ Z.of_nat (total_classes (section_analysis days))
       = zsum (fun c => if pc_in "Year1" "A" c
                        then Z.of_nat (pc_lectures c) else 0%Z)
              (all_courses sample_teachers sample_sections [sample_course]
                           true (length (slot_names T)))
    /\ Z.of_nat (free_periods (section_analysis days))
       = zsum (fun c => if pc_in "Year1" "A" c
                           && String.prefix "Free" (pc_subject c)
                        then Z.of_nat (pc_lectures c) else 0%Z)
              (all_courses sample_teachers sample_sections [sample_course]
                           true (length (slot_names T))).
Proof.
  apply (analysis_of_returned_schedule (checked_solver sample_values)
           sample_week [sample_course] sample_teachers sample_sections true
           30%Z sample_schedule "Year1" "A").
  - vm_compute. reflexivity.
  - now left.
  - reflexivity.
Defined.

(** ** The timetable loop of the database export *)







Lemma insert_items fmt cmap year day (b : list entry) :
  (forall s, fmt (PStr s) = s) ->
  forall rows,
    fold_left (insert_item fmt cmap year day) (map entry_value b) (Some rows)
    = Some (rows ++ map (row_of cmap year day) b)%list.
Proof.
  intros Hfmt. induction b as [|e b IH]; intros rows; cbn [map fold_left].
  - now rewrite app_nil_r.
  - replace (insert_item fmt cmap year day (Some rows) (entry_value e))
      with (Some (rows ++ [row_of cmap year day e])%list).
    + rewrite IH, <- app_assoc. reflexivity.
    + unfold insert_item, entry_value, py_getitem, py_get, dict_get_or.
      cbn [dict_get keyb string_key String.eqb Ascii.eqb Bool.eqb].
      rewrite !Hfmt. reflexivity.
Qed.

Lemma insert_days fmt cmap year (days : day_map) :
  (forall s, fmt (PStr s) = s) ->
  forall rows,
    fold_left (insert_day fmt cmap year)
              (map_values (fun b => PList (map entry_value b)) days)
              (Some rows)
    = Some (rows ++ flat_map (fun db => map (row_of cmap year (fst db)) (snd db))
                             days)%list.
Proof.
  intros Hfmt. induction days as [|[day b] days IH]; intros rows;
    cbn [map_values map fold_left flat_map fst snd].
  - now rewrite app_nil_r.
  - unfold insert_day at 2. cbn [fst snd py_iter].
    rewrite insert_items by exact Hfmt.
    fold (map_values (fun b => PList (map entry_value b)) days).
    rewrite IH, <- app_assoc. reflexivity.
Qed.

(** X24.  On a timetable of the shape the loop reads (under each year
    the days, under each day the list of entries) the loop "Insert
    timetable data" does not raise and inserts one row for every entry,
    in the order of the years, days and entries: the course id found
    under "subject_year_teacher", the year, the entry's section, the
    capitalised day and the texts of the entry. *)
Theorem database_export_rows fmt course_id_map (t : dict string day_map) :
  (forall s, fmt (PStr s) = s) ->
  insert_timetable fmt course_id_map (flat_value t)
  = Some (flat_rows course_id_map t).
Proof.
  intros Hfmt. unfold insert_timetable, flat_value, flat_rows.
  cbn [py_items].
  assert (Hgen : forall rows,
    fold_left (insert_year fmt course_id_map) (map_values week_value t)
              (Some rows)
    = Some (rows ++ flat_map
                      (fun yd =>
                         flat_map (fun db => map (row_of course_id_map (fst yd)
                                                         (fst db)) (snd db))
                                  (snd yd)) t)%list).
  { induction t as [|[year days] t IH]; intros rows;
      cbn [map_values map fold_left flat_map fst snd].
    - now rewrite app_nil_r.
    - unfold insert_year at 2. cbn [fst snd week_value py_items].
      rewrite insert_days by exact Hfmt.
      fold (map_values week_value t). rewrite IH, <- app_assoc. reflexivity. }
  apply (Hgen []).
Qed.

Lemma database_export_rows_witness :
  insert_timetable (fun v => match v with PStr s => s | _ => "?" end)
    [("Math_Year1_T1", 1%nat)]
    (flat_value [("Year1", [("monday", sample_monday)])])
  = Some (flat_rows [("Math_Year1_T1", 1%nat)]
                    [("Year1", [("monday", sample_monday)])]).
Proof.
  apply database_export_rows. reflexivity.
Defined.

(** ** The solutions of the model *)

Lemma fold_min_le (l : list nat) :
  forall x, (fold_left Nat.min l x <= x)%nat
            /\ forall y, In y l -> (fold_left Nat.min l x <= y)%nat.
Proof.
  induction l as [|z l IH]; intros x; cbn [fold_left].
  - split; [lia | contradiction].
  - destruct (IH (Nat.min x z)) as [H1 H2]. split; [lia|].
    intros y [<-|Hy]; [lia | auto].
Qed.

Lemma fold_max_ge (l : list nat) :
  forall x, (x <= fold_left Nat.max l x)%nat
            /\ forall y, In y l -> (y <= fold_left Nat.max l x)%nat.
Proof.
  induction l as [|z l IH]; intros x; cbn [fold_left].
  - split; [lia | contradiction].
  - destruct (IH (Nat.max x z)) as [H1 H2]. split; [lia|].
    intros y [<-|Hy]; [lia | auto].
Qed.

Lemma list_min_max (l : list nat) (x : nat) :
  In x l -> (list_min l <= x <= list_max l)%nat.
Proof.
  destruct l as [|z l]; [contradiction|]. cbn [list_min list_max].
  destruct (fold_min_le l z) as [Hm1 Hm2].
  destruct (fold_max_ge l z) as [HM1 HM2].
  intros [<-|Hx]; [lia|]. specialize (Hm2 x Hx). specialize (HM2 x Hx). lia.
Qed.

Lemma pairwise_intro {A : Type} (f : A -> A -> bool) (l : list A) :
  (forall l1 x l2 y l3, l = (l1 ++ x :: l2 ++ y :: l3)%list -> f x y = true) ->
  pairwise f l = true.
Proof.
  induction l as [|x l IH]; intros H; cbn [pairwise]; [reflexivity|].
  apply andb_true_iff. split.
  - apply forallb_forall. intros y Hy. apply in_split in Hy.
    destruct Hy as (l2 & l3 & ->). now apply (H [] x l2 y l3).
  - apply IH. intros l1 x' l2 y l3 ->. now apply (H (x :: l1) x' l2 y l3).
Qed.

Lemma pairwise_map {A B : Type} (f : B -> B -> bool) (h : A -> B)
  (l : list A) :
  pairwise f (map h l) = pairwise (fun x y => f (h x) (h y)) l.
Proof.
  induction l as [|x l IH]; cbn [map pairwise]; [reflexivity|].
  rewrite IH. f_equal. clear IH.
  induction l as [|y l IH]; cbn [map forallb]; [reflexivity|].
  now rewrite IH.
Qed.

Lemma ordered_pairs_split {A : Type} (R : A -> A -> Prop)
  (l1 : list A) (x : A) (l2 : list A) (y : A) (l3 : list A) :
  ForallOrdPairs R (l1 ++ x :: l2 ++ y :: l3) -> R x y.
Proof.
  induction l1 as [|z l1 IH]; cbn [app]; intros H;
    inversion H as [|? ? Hall Hrest]; subst.
  - rewrite Forall_forall in Hall. apply Hall. apply in_or_app. right.
    now left.
  - now apply IH.
Qed.

(** Start values that respect the domains and keep the occurrences of
    every teacher and of every section apart satisfy the model. *)
Lemma model_accepts T N (items : list (pcourse * nat)) (a : nat -> nat) :
  (forall c i, In (c, i) items -> In (a i) (allowed_vals T N c)) ->
  ForallOrdPairs (excl a occ_teacher)
                 (b_occs (extend T N empty_build items)) ->
  ForallOrdPairs (excl a occ_section_key)
                 (b_occs (extend T N empty_build items)) ->
  model_sat a (full_model N (extend T N empty_build items)) = true.
Proof.
  intros Hdom Hteach Hsec. unfold model_sat, full_model.
  set (st := extend T N empty_build items) in *.
  assert (Hgroup : forall key,
             ForallOrdPairs (excl a key) (b_occs st) ->
             forall c,
               In c (group_constraints N (b_start_at st)
                       (group_by key (b_occs st))) ->
               sat a c = true).
  { intros key Hex c Hc. apply group_constraints_spec in Hc.
    destruct Hc as (l1 & o1 & l2 & o2 & l3 & s1 & s2 & Hocc & Hkey & -> & _ & _
                    & _ & _ & Hov).
    rewrite Hocc in Hex. apply ordered_pairs_split in Hex.
    specialize (Hex Hkey). cbn [sat].
    destruct (Nat.eqb_spec (a (occ_id o1)) s1) as [E1|]; [|reflexivity].
    destruct (Nat.eqb_spec (a (occ_id o2)) s2) as [E2|]; [|reflexivity].
    rewrite E1, E2 in Hex. congruence. }
  rewrite !forallb_app. repeat (apply andb_true_iff; split).
  - apply forallb_forall. intros c Hc.
    cbn [st extend b_model empty_build app] in Hc. apply in_flat_map in Hc.
    destruct Hc as ([pc i] & Hi & Hc). cbn [fst snd occ_vars] in Hc.
    specialize (Hdom pc i Hi).
    destruct Hc as [<-|[<-|[]]]; cbn [sat].
    + apply existsb_exists. exists (a i). split; [exact Hdom|].
      apply Nat.eqb_refl.
    + destruct (list_min_max _ _ Hdom).
      apply andb_true_iff. split; apply Nat.leb_le; lia.
  - apply forallb_forall. intros c Hc. unfold section_no_overlap in Hc.
    apply in_map_iff in Hc. destruct Hc as ([k l] & <- & Hg).
    cbn [snd sat]. rewrite pairwise_map. cbn [fst snd].
    apply group_by_In in Hg. apply pairwise_intro.
    intros m1 x m2 y m3 Hl. rewrite Hl in Hg. symmetry in Hg.
    destruct (filter_split _ _ _ _ _ Hg) as (l1 & r & Hocc & _ & Hr & Hx).
    destruct (filter_split _ _ _ _ _ Hr) as (l2 & l3 & -> & _ & _ & Hy).
    apply String.eqb_eq in Hx, Hy.
    assert (Hex := Hsec). rewrite Hocc in Hex.
    apply ordered_pairs_split in Hex. unfold excl, occ_section_key in Hex.
    rewrite Hex by congruence. reflexivity.
  - apply forallb_forall. apply (Hgroup occ_teacher Hteach).
  - apply forallb_forall.
    apply (Hgroup (fun o => section_key (occ_year o) (occ_section o)) Hsec).
Qed.

(** X25.  The solutions of the model that the engine hands to the
    solver, when no course is rejected: start values satisfy it exactly
    when every occurrence starts in the domain of its course, no two
    occurrences with the same teacher name overlap in slots, and no two
    occurrences with the same key "year_section" overlap in slots.  The
    model asks for nothing else. *)
Theorem model_solutions T teachers sections courses allow_free st
  (a : nat -> nat) :
  build T teachers sections courses allow_free = inr st ->
  model_sat a (full_model (length (slot_names T)) st) = true <->
  (forall c i,
      In (c, i) (expand (all_courses teachers sections courses allow_free
                           (length (slot_names T))) 0) ->
      In (a i) (allowed_vals T (length (slot_names T)) c))
  /\ ForallOrdPairs (excl a occ_teacher) (b_occs st)
  /\ ForallOrdPairs (excl a occ_section_key) (b_occs st).
Proof.
  intros Hb. destruct (build_inr _ _ _ _ _ _ Hb) as [_ ->]. split.
  - intros Hsat. split; [|split].
    + intros c i Hin. now apply (solved_in_domain _ _ _ _ Hsat).
    + now apply solved_teacher_exclusive.
    + now apply solved_section_exclusive.
  - intros (Hdom & Hteach & Hsec). now apply model_accepts.
Qed.

Lemma model_solutions_witness :
  model_sat sample_values (full_model (length (slot_names sample_tables))
                                      sample_build) = true <->
  (forall c i,
      In (c, i) (expand (all_courses sample_teachers sample_sections
                           [sample_course] true
                           (length (slot_names sample_tables))) 0) ->
      In (sample_values i)
         (allowed_vals sample_tables (length (slot_names sample_tables)) c))
  /\ ForallOrdPairs (excl sample_values occ_teacher) (b_occs sample_build)
  /\ ForallOrdPairs (excl sample_values occ_section_key)
                    (b_occs sample_build).
Proof.
  apply (model_solutions sample_tables sample_teachers sample_sections
           [sample_course] true sample_build sample_values).
  vm_compute. reflexivity.
Defined.

(** ** The load of a section *)

(** X26.  Whenever a schedule is returned by a solver whose solutions
    satisfy the model, the declared courses of any one year and section
    ask for no more slots (lectures times duration, summed) than the
    calendar has: an over-subscribed section never gets a schedule. *)
Theorem section_load_fits solve wds courses teachers sections allow_free
  max_time r (year section : string) :
  solver_sound solve ->
  generate_college_timetable_with_sections solve (Some wds) courses teachers
    sections allow_free max_time = Schedule r ->
  exists T,
    time_slots_of wds = Some T
    /\ (zsum (fun c => if String.eqb (c_year c) year
                          && String.eqb (section_of c) section
                       then Z.of_nat (c_lectures c * c_duration c) else 0%Z)
             courses
        <= Z.of_nat (length (slot_names T)))%Z.
Proof.
  intros Hsound Hgen.
  destruct (schedule_run _ _ _ _ _ _ _ _ Hgen) as (T & val & HT & _ & _ & Hsat & _).
  specialize (Hsat Hsound). exists T. split; [exact HT|].
  apply (section_fits _ _ _ _ year section) in Hsat.
  set (N := length (slot_names T)) in *.
  set (g := fun c => (Z.of_nat (pc_lectures c)
                      * (if pc_in year section c
                         then Z.of_nat (pc_duration c) else 0))%Z) in *.
  assert (Hpcs : zsum g (processed_courses teachers courses) =
                 zsum (fun c => if String.eqb (c_year c) year
                                   && String.eqb (section_of c) section
                                then Z.of_nat (c_lectures c * c_duration c)
                                else 0%Z) courses).
  { unfold processed_courses. rewrite zsum_map. apply zsum_ext_in.
    intros c _. unfold g, pc_in.
    cbn [process_course pc_lectures pc_year pc_section pc_duration].
    fold (section_of c).
    destruct (String.eqb (c_year c) year && String.eqb (section_of c) section);
      lia. }
  rewrite <- Hpcs. unfold all_courses in Hsat.
  destruct allow_free; [|exact Hsat].
  rewrite zsum_app in Hsat.
  assert (0 <= zsum g (free_courses sections
                         (section_requirements
                            (processed_courses teachers courses)) N))%Z.
  { apply zsum_nonneg. intros c _. unfold g.
    destruct (pc_in year section c); lia. }
  lia.
Qed.

Lemma section_load_fits_witness :
  exists T,
    time_slots_of sample_week = Some T
    /\ (zsum (fun c => if String.eqb (c_year c) "Year1"
                          && String.eqb (section_of c) "A"
                       then Z.of_nat (c_lectures c * c_duration c) else 0%Z)
             [sample_course]
        <= Z.of_nat (length (slot_names T)))%Z.
Proof.
  apply (section_load_fits (checked_solver sample_values) sample_week
           [sample_course] sample_teachers sample_sections true 30%Z
           sample_schedule "Year1" "A" (checked_solver_sound sample_values)).
  vm_compute. reflexivity.
Defined.

(** ** A day declared more than once *)

Lemma fold_set_last {V : Type} (f : working_day -> V) (wds : list working_day)
  (day : string) :
  forall d : dict string V,
    dict_get day (fold_left (fun d w => dict_set (wd_day w) (f w) d) wds d) =
    match find (fun w => String.eqb (wd_day w) day) (rev wds) with
    | Some w => Some (f w)
    | None => dict_get day d
    end.
Proof.
  induction wds as [|w wds IH] using rev_ind; intros d; [reflexivity|].
  rewrite fold_left_app, rev_app_distr. cbn [fold_left rev app find].
  destruct (String.eqb_spec (wd_day w) day) as [<-|Hne].
  - now rewrite dict_get_set_same.
  - rewrite dict_get_set_other by congruence. apply IH.
Qed.

(** X27.  The days as the calendar builder visits them: every day name
    of [working_days] once, whatever the number of its listings, with the
    start hour and the number of slots of its last listing. *)
Theorem calendar_takes_last_listing (wds : list working_day)
  (day : string) (start : Z) (hours : nat) :
  NoDup (map cal_day (calendar wds))
  /\ (In (day, start, hours) (calendar wds) <->
      exists w,
        find (fun w => String.eqb (wd_day w) day) (rev wds) = Some w
        /\ start = wd_start_hr w /\ hours = wd_total_hours w).
Proof.
  destruct (slot_counts_keys wds [] (NoDup_nil _)) as [Hnd Hkeys].
  change (NoDup (dict_keys (slot_counts_by_day wds))) in Hnd.
  split; [rewrite calendar_days; exact Hnd|].
  assert (Hc : dict_get day (slot_counts_by_day wds) =
               match find (fun w => String.eqb (wd_day w) day) (rev wds) with
               | Some w => Some (wd_total_hours w)
               | None => None
               end)
    by apply (fold_set_last wd_total_hours wds day []).
  assert (Hs : dict_get day (start_times_of wds) =
               match find (fun w => String.eqb (wd_day w) day) (rev wds) with
               | Some w => Some (wd_start_hr w)
               | None => None
               end)
    by apply (fold_set_last wd_start_hr wds day []).
  unfold calendar, cal_of. rewrite in_map_iff. split.
  - intros ([day' hours'] & [= -> <- ->] & Hin). cbn [fst snd] in *.
    apply (dict_get_NoDup _ _ _ Hnd) in Hin. rewrite Hin in Hc.
    unfold dict_get_or. rewrite Hs.
    destruct (find _ (rev wds)) as [w|]; [|discriminate].
    exists w. split; [reflexivity|]. split; [reflexivity|]. congruence.
  - intros (w & Hfind & -> & ->). rewrite Hfind in Hc, Hs.
    exists (day, wd_total_hours w). split.
    + cbn [fst snd]. unfold dict_get_or. now rewrite Hs.
    + now apply dict_get_In.
Qed.
